(** * FLUX-Finetune: the asynchronous job lifecycle of [finetune.py] and
    [generate.py]

    A shallow embedding of the two Streamlit applications: submission of a
    fine-tune or an inference job, the polling loops, the registry file
    [finetune_id.json] and the reading of the final result.

    Python values that travel through JSON are modelled by the type [json];
    the outside world (environment, files, the remote service, the page
    drawn by Streamlit and the clock) is one explicit state [World], threaded
    through a state-and-exception monad [M].  Every request sent, every
    widget output and every sleep is appended to the world's [trace], so
    that "no further network call" is a statement about that trace. *)

From Stdlib Require Import ZArith QArith String List Ascii.
From Stdlib.Strings Require Import Byte.
From stdpp Require Import base gmap strings list fin_maps.

Open Scope string_scope.
Open Scope Z_scope.

(** ** Python values *)

(** A Python [float].  A finite one is given by the rational that the
    double is; the program only compares floats with 0 and 1 and passes
    them on, so nothing else of IEEE 754 is needed. *)
Inductive pyfloat : Type :=
| FloatQ (q : Q)
| FloatInf (negative : bool)
| FloatNaN.

(** What [json.loads] and [response.json()] produce, and what
    [json.dump] and [requests] accept.  [JNull] is Python's [None]. *)
#[warnings="-register-all"] Inductive json : Type :=
| JNull
| JBool (b : bool)
| JInt (z : Z)
| JFloat (f : pyfloat)
| JStr (s : string)
| JList (l : list json)
| JObj (m : gmap string json).

(** [bool(v)], as used by [if not v]. *)
Definition truthy (v : json) : bool :=
  match v with
  | JNull => false
  | JBool b => b
  | JInt z => negb (z =? 0)
  | JFloat (FloatQ q) => negb (Qeq_bool q 0)
  | JFloat _ => true
  | JStr s => negb (String.eqb s "")
  | JList l => match l with [] => false | _ => true end
  | JObj m => negb (Nat.eqb (size m) 0)
  end.

(** [v == s] for a string literal [s]. *)
Definition py_eq_str (v : json) (s : string) : bool :=
  match v with
  | JStr t => String.eqb t s
  | _ => false
  end.

(** [isinstance(v, (int, float))]: [bool] is a subclass of [int]. *)
Definition is_int_or_float (v : json) : bool :=
  match v with
  | JBool _ | JInt _ | JFloat _ => true
  | _ => false
  end.

(** [0 <= v <= 1] on a value that passed [is_int_or_float]; [True] is 1 and
    [False] is 0, every comparison with NaN is false. *)
Definition between_0_and_1 (v : json) : bool :=
  match v with
  | JBool _ => true
  | JInt z => (0 <=? z) && (z <=? 1)
  | JFloat (FloatQ q) => Qle_bool 0 q && Qle_bool q 1
  | _ => false
  end.

(** ** Exceptions *)

Inductive exn : Type :=
| ValueError (msg : string)
| FileNotFoundError (path : string)
| AssertionError (msg : string)
| HTTPError (code : Z)          (* response.raise_for_status() *)
| ConnectionError               (* requests could not get an answer *)
| JSONDecodeError               (* response.json(), json.load *)
| AttributeError                (* .get / .keys on a value that is no dict *)
| TypeError                     (* item assignment on a value that is no dict *)
| KeyError (key : string)
| StopException.                (* st.stop(): not an [Exception] *)

(** [except Exception] catches everything but Streamlit's script control. *)
Definition is_Exception (e : exn) : bool :=
  match e with StopException => false | _ => true end.

(** ** The page, the wire and the clock *)

(** The pieces of an f-string: the text is kept symbolic. *)
Inductive frag : Type :=
| Lit (s : string)
| Str (v : json)                (* {v} *)
| Pct (v : json)                (* {v * 100:.0f} *)
| ExnStr (e : exn).             (* {str(e)} *)

Definition fstring := list frag.

Inductive event : Type :=
| HttpPost (url : string) (x_key : option string) (payload : gmap string json)
| HttpGet (url : string) (x_key : option string) (params : gmap string json)
| Sleep (seconds : Z)
| StTitle (s : string)
| StWrite (msg : fstring)
| StWarning (msg : fstring)
| StSuccess (msg : fstring)
| StInfo (msg : fstring)
| StError (msg : fstring)
| StJson (v : json)
| StProgressNew (v : json)      (* st.progress(v) *)
| StProgressSet (v : json)      (* progress_bar.progress(v) *)
| StImage (url : json) (caption : string).

Record http_response : Type := {
  status_code : Z;
  body : option json            (* None: the body is not JSON *)
}.

(** The registry file either holds a JSON document or something that
    [json.load] rejects.  It is kept apart from the binary files: no other
    path is read or written as JSON, and [json.load] after [json.dump] is
    taken to give the document back. *)
Inductive reg_file : Type :=
| RegJson (v : json)
| RegCorrupt.

Record World : Type := {
  environ : option string;          (* os.environ["BFL_API_KEY"] *)
  dotenv : option string;           (* BFL_API_KEY in the .env file *)
  files : gmap string (list byte);  (* binary files by path *)
  registry_file : option reg_file;  (* finetune_id.json, None: no such file *)
  network : list http_response;     (* what the service will answer, in order *)
  trace : list event                (* everything done so far, oldest first *)
}.

Definition with_environ (k : option string) (w : World) : World :=
  {| environ := k; dotenv := dotenv w; files := files w;
     registry_file := registry_file w; network := network w; trace := trace w |}.

Definition with_files (f : gmap string (list byte)) (w : World) : World :=
  {| environ := environ w; dotenv := dotenv w; files := f;
     registry_file := registry_file w; network := network w; trace := trace w |}.

Definition with_registry (r : option reg_file) (w : World) : World :=
  {| environ := environ w; dotenv := dotenv w; files := files w;
     registry_file := r; network := network w; trace := trace w |}.

Definition with_network (n : list http_response) (w : World) : World :=
  {| environ := environ w; dotenv := dotenv w; files := files w;
     registry_file := registry_file w; network := n; trace := trace w |}.

Definition with_trace (t : list event) (w : World) : World :=
  {| environ := environ w; dotenv := dotenv w; files := files w;
     registry_file := registry_file w; network := network w; trace := t |}.

(** ** The monad of the program: state, exceptions and fuel *)

Inductive outcome (A : Type) : Type :=
| Ret (a : A)
| Raise (e : exn)
| OutOfFuel.

Arguments Ret {A} a.
Arguments Raise {A} e.
Arguments OutOfFuel {A}.

Definition M (A : Type) : Type := World -> outcome A * World.

Definition ret {A} (a : A) : M A := fun w => (Ret a, w).

Definition raise {A} (e : exn) : M A := fun w => (Raise e, w).

Definition out_of_fuel {A} : M A := fun w => (OutOfFuel, w).

Definition bind {A B} (c : M A) (k : A -> M B) : M B :=
  fun w =>
    match c w with
    | (Ret a, w') => k a w'
    | (Raise e, w') => (Raise e, w')
    | (OutOfFuel, w') => (OutOfFuel, w')
    end.

Declare Scope prog_scope.
Delimit Scope prog_scope with prog.
Notation "x <- c ;; k" := (bind c (fun x => k))
  (at level 100, c at next level, right associativity) : prog_scope.
Notation "c ;; k" := (bind c (fun _ => k))
  (at level 100, right associativity) : prog_scope.
Open Scope prog_scope.

(** [try: c except Exception as e: h e]. *)
Definition try_except {A} (c : M A) (h : exn -> M A) : M A :=
  fun w =>
    match c w with
    | (Raise e, w') => if is_Exception e then h e w' else (Raise e, w')
    | r => r
    end.

Definition emit (e : event) : M unit :=
  fun w => (Ret tt, with_trace (trace w ++ [e]) w).

(** *** Streamlit *)

Definition st_title (s : string) : M unit := emit (StTitle s).
Definition st_write (msg : fstring) : M unit := emit (StWrite msg).
Definition st_warning (msg : fstring) : M unit := emit (StWarning msg).
Definition st_success (msg : fstring) : M unit := emit (StSuccess msg).
Definition st_info (msg : fstring) : M unit := emit (StInfo msg).
Definition st_error (msg : fstring) : M unit := emit (StError msg).
Definition st_json (v : json) : M unit := emit (StJson v).
Definition st_image (url : json) (caption : string) : M unit :=
  emit (StImage url caption).
Definition st_stop {A} : M A := raise StopException.

(** *** time, os, dotenv *)

Definition time_sleep (seconds : Z) : M unit := emit (Sleep seconds).

(** [load_dotenv()]: a variable of the environment is never overridden. *)
Definition load_dotenv : M unit :=
  fun w =>
    match environ w with
    | Some _ => (Ret tt, w)
    | None => (Ret tt, with_environ (dotenv w) w)
    end.

(** [os.getenv("BFL_API_KEY", default)]. *)
Definition os_getenv (default : string) : M string :=
  fun w => (Ret (from_option id default (environ w)), w).

(** [os.path.exists(path)] for a binary file. *)
Definition os_path_exists (path : string) : M bool :=
  fun w => (Ret (bool_decide (is_Some (files w !! path))), w).

(** [open(path, "rb").read()]. *)
Definition read_bytes (path : string) : M (list byte) :=
  fun w =>
    match files w !! path with
    | Some b => (Ret b, w)
    | None => (Raise (FileNotFoundError path), w)
    end.

(** [open(path, "wb").write(b)]. *)
Definition write_bytes (path : string) (b : list byte) : M unit :=
  fun w => (Ret tt, with_files (<[path := b]> (files w)) w).

(** *** requests *)

(** One round trip: the request is recorded and the service's next answer is
    consumed; without an answer the library raises. *)
Definition round_trip (request : event) : M http_response :=
  fun w =>
    let w1 := with_trace (trace w ++ [request]) w in
    match network w with
    | r :: rest => (Ret r, with_network rest w1)
    | [] => (Raise ConnectionError, w1)
    end.

Definition requests_post (url : string) (x_key : option string)
    (payload : gmap string json) : M http_response :=
  round_trip (HttpPost url x_key payload).

Definition requests_get (url : string) (x_key : option string)
    (params : gmap string json) : M http_response :=
  round_trip (HttpGet url x_key params).

Definition raise_for_status (r : http_response) : M unit :=
  if (400 <=? status_code r) && (status_code r <? 600)
  then raise (HTTPError (status_code r))
  else ret tt.

Definition response_json (r : http_response) : M json :=
  match body r with
  | Some v => ret v
  | None => raise JSONDecodeError
  end.

(** *** dict operations on a decoded value *)

(** [d.get(key)]. *)
Definition py_get (d : json) (key : string) : M json :=
  match d with
  | JObj m => ret (from_option id JNull (m !! key))
  | _ => raise AttributeError
  end.

(** [d.get(key, default)]. *)
Definition py_get_default (d : json) (key : string) (default : json) : M json :=
  match d with
  | JObj m => ret (from_option id default (m !! key))
  | _ => raise AttributeError
  end.

(** [d[key]]. *)
Definition py_getitem (d : json) (key : string) : M json :=
  match d with
  | JObj m =>
      match m !! key with
      | Some v => ret v
      | None => raise (KeyError key)
      end
  | _ => raise TypeError
  end.

(** [d[key] = v]. *)
Definition py_setitem (d : json) (key : string) (v : json) : M json :=
  match d with
  | JObj m => ret (JObj (<[key := v]> m))
  | _ => raise TypeError
  end.

(** ** base64.b64encode *)

Definition b64_alphabet : list ascii :=
  list_ascii_of_string
    "ABCDEFGHIJKLMNOPQRSTUVWXYZabcdefghijklmnopqrstuvwxyz0123456789+/".

Definition b64_char (n : N) : ascii :=
  nth (N.to_nat n) b64_alphabet "="%char.

Fixpoint b64encode (bs : list byte) : string :=
  match bs with
  | [] => ""
  | [a] =>
      let x := Byte.to_N a in
      String (b64_char (x / 4))
        (String (b64_char ((x mod 4) * 16)) "==")
  | [a; b] =>
      let x := Byte.to_N a in
      let y := Byte.to_N b in
      String (b64_char (x / 4))
        (String (b64_char ((x mod 4) * 16 + y / 16))
           (String (b64_char ((y mod 16) * 4)) "="))
  | a :: b :: c :: rest =>
      let x := Byte.to_N a in
      let y := Byte.to_N b in
      let z := Byte.to_N c in
      String (b64_char (x / 4))
        (String (b64_char ((x mod 4) * 16 + y / 16))
           (String (b64_char ((y mod 16) * 4 + z / 64))
              (String (b64_char (z mod 64)) (b64encode rest))))
  end%N.

(** ** The registry file [finetune_id.json]

    Both programs reach it through [os.path.exists], [json.load] and
    [json.dump] only; the file is modelled by the document it holds. *)

Definition registry_path : string := "finetune_id.json".

Definition registry_exists : M bool :=
  fun w => (Ret (bool_decide (is_Some (registry_file w))), w).

(** [with open(file_path, "r") as f: json.load(f)]. *)
Definition json_load_registry : M json :=
  fun w =>
    match registry_file w with
    | Some (RegJson v) => (Ret v, w)
    | Some RegCorrupt => (Raise JSONDecodeError, w)
    | None => (Raise (FileNotFoundError registry_path), w)
    end.

(** [with open(file_path, "w") as f: json.dump(data, f, indent=2)]. *)
Definition json_dump_registry (data : json) : M unit :=
  fun w => (Ret tt, with_registry (Some (RegJson data)) w).

(** ** finetune.py *)

Module Finetune.

Definition finetune_url : string := "https://api.us1.bfl.ai/v1/finetune".
Definition get_result_url : string := "https://api.us1.bfl.ai/v1/get_result".

Definition missing_key_msg : string :=
  "Provide your API key via --api_key or an environment variable BFL_API_KEY".

Definition mode_msg : string :=
  "Mode must be one of [character, product, style, general].".

Definition modes : list string := ["character"; "product"; "style"; "general"].

(** The parameters of [request_finetuning]. *)
Record args : Type := {
  zip_path : string;
  finetune_comment : string;
  trigger_word : string;
  mode : string;
  api_key : option string;
  iterations : Z;
  learning_rate : option pyfloat;
  captioning : bool;
  priority : string;
  finetune_type : string;
  lora_rank : Z
}.

(** The defaults of the signature. *)
Definition default_args (zip comment : string) : args :=
  {| zip_path := zip; finetune_comment := comment; trigger_word := "TOK";
     mode := "character"; api_key := None; iterations := 300;
     learning_rate := None; captioning := true; priority := "quality";
     finetune_type := "full"; lora_rank := 32 |}.

Definition with_api_key (k : option string) (a : args) : args :=
  {| zip_path := zip_path a; finetune_comment := finetune_comment a;
     trigger_word := trigger_word a; mode := mode a; api_key := k;
     iterations := iterations a; learning_rate := learning_rate a;
     captioning := captioning a; priority := priority a;
     finetune_type := finetune_type a; lora_rank := lora_rank a |}.

(** Lines 41-46 and 96-101: the key given, else the environment's. *)
Definition resolve_api_key (key : option string) : M string :=
  match key with
  | Some k => ret k
  | None =>
      fun w =>
        match environ w with
        | None => (Raise (ValueError missing_key_msg), w)
        | Some k => (Ret k, w)
        end
  end.

(** Lines 63-77: the body of the POST. *)
Definition build_payload (a : args) (encoded_zip : string) : gmap string json :=
  let payload : gmap string json :=
    <["finetune_type" := JStr (finetune_type a)]>
    (<["lora_rank" := JInt (lora_rank a)]>
    (<["priority" := JStr (priority a)]>
    (<["captioning" := JBool (captioning a)]>
    (<["mode" := JStr (mode a)]>
    (<["iterations" := JInt (iterations a)]>
    (<["file_data" := JStr encoded_zip]>
    (<["trigger_word" := JStr (trigger_word a)]>
    (<["finetune_comment" := JStr (finetune_comment a)]> ∅)))))))) in
  match learning_rate a with
  | Some lr => <["learning_rate" := JFloat lr]> payload
  | None => payload
  end.

Definition request_finetuning (a : args) : M json :=
  key <- resolve_api_key (api_key a) ;;
  found <- os_path_exists (zip_path a) ;;
  if negb found then raise (FileNotFoundError (zip_path a)) else
  if negb (bool_decide (mode a ∈ modes)) then raise (AssertionError mode_msg) else
  zip <- read_bytes (zip_path a) ;;
  let encoded_zip := b64encode zip in
  response <- requests_post finetune_url (Some key) (build_payload a encoded_zip) ;;
  raise_for_status response ;;
  response_json response.

Definition finetune_progress (finetune_id : json) (key : option string) : M json :=
  key <- resolve_api_key key ;;
  response <- requests_get get_result_url (Some key) {["id" := finetune_id]} ;;
  raise_for_status response ;;
  response_json response.

Definition store_finetune_id (comment : string) (finetune_id : json) : M unit :=
  found <- registry_exists ;;
  data <- (if found then json_load_registry else ret (JObj ∅)) ;;
  data <- py_setitem data comment finetune_id ;;
  json_dump_registry data.

(** Lines 227-235: [while True] around the status query. *)
Fixpoint poll (fuel : nat) (finetune_id : json) (key : string) : M unit :=
  match fuel with
  | O => out_of_fuel
  | S fuel' =>
      progress <- finetune_progress finetune_id (Some key) ;;
      status <- py_get progress "status" ;;
      if py_eq_str status "Ready"
      then st_success [Lit "Finetuning is complete! Go forth and conquer!"]
      else
        st_info [Lit "Current status: "; Str status; Lit ". Waiting 10s..."] ;;
        time_sleep 10 ;;
        poll fuel' finetune_id key
  end.

(** The values the select boxes offer. *)
Inductive mode_choice : Type := character | product | style | general.
Inductive priority_choice : Type := speed | quality.
Inductive type_choice : Type := full | lora.
Inductive rank_choice : Type := rank16 | rank32.

Definition mode_value (m : mode_choice) : string :=
  match m with
  | character => "character" | product => "product"
  | style => "style" | general => "general"
  end.

Definition priority_value (p : priority_choice) : string :=
  match p with speed => "speed" | quality => "quality" end.

Definition type_value (t : type_choice) : string :=
  match t with full => "full" | lora => "lora" end.

Definition rank_value (r : rank_choice) : Z :=
  match r with rank16 => 16 | rank32 => 32 end.

(** What the user did on the page during this run of the script. *)
Record form : Type := {
  api_key_box : option string;        (* None: left at its default *)
  uploaded_file : option (list byte);
  comment_box : string;
  trigger_box : string;
  mode_box : mode_choice;
  iterations_box : Z;
  use_custom_lr : bool;
  lr_box : pyfloat;
  captioning_box : bool;
  priority_box : priority_choice;
  type_box : type_choice;
  rank_box : rank_choice;
  submit : bool
}.

Definition temp_zip_path : string := "temp/finetune_data.zip".

(** Lines 200-212: the arguments [main] passes on. *)
Definition form_args (ui : form) (key : string) : args :=
  {| zip_path := temp_zip_path;
     finetune_comment := comment_box ui;
     trigger_word := trigger_box ui;
     mode := mode_value (mode_box ui);
     api_key := Some key;
     iterations := iterations_box ui;
     learning_rate := if use_custom_lr ui then Some (lr_box ui) else None;
     captioning := captioning_box ui;
     priority := priority_value (priority_box ui);
     finetune_type := type_value (type_box ui);
     lora_rank := rank_value (rank_box ui) |}.

(** Lines 198-238: the body of the [try] once the archive is saved. *)
Definition submit_and_poll (fuel : nat) (ui : form) (key : string) : M unit :=
  try_except
    (response <- request_finetuning (form_args ui key) ;;
     st_success [Lit "Finetuning request submitted successfully!"] ;;
     st_json response ;;
     finetune_id <- py_get response "finetune_id" ;;
     if negb (truthy finetune_id)
     then st_warning [Lit "No finetune ID found in response. Can't check progress."]
     else
       store_finetune_id (comment_box ui) finetune_id ;;
       st_write [Lit "Sit tight! We'll keep poking the server every 10s to see if it's ready."] ;;
       poll fuel finetune_id key)
    (fun e => st_error [Lit "Error requesting finetune: "; ExnStr e]).

Definition main (fuel : nat) (ui : form) : M unit :=
  load_dotenv ;;
  default_api_key <- os_getenv "" ;;
  st_title "BFL Finetune App" ;;
  st_write [Lit "Fine-tuning is fun... until it isn't. Let's do it anyway."] ;;
  let key := from_option id default_api_key (api_key_box ui) in
  if String.eqb key "" then
    st_warning [Lit "API key is required. Gotta keep those credentials safe."] ;;
    st_stop
  else
  if submit ui then
    match uploaded_file ui with
    | None =>
        st_warning [Lit "No file, no finetune. Upload a .zip first."] ;;
        st_stop
    | Some buffer =>
        write_bytes temp_zip_path buffer ;;
        submit_and_poll fuel ui key
    end
  else ret tt.

End Finetune.

(** ** generate.py *)

Module Generate.

Definition generate_url : string := "https://api.us1.bfl.ai/v1/flux-pro-finetuned".
Definition get_result_url : string := "https://api.us1.bfl.ai/v1/get_result".

(** The parameters of [generate_image]; [api_key] is whatever the caller
    passes, [None] included (requests sends no header for it). *)
Record args : Type := {
  finetune_id : json;
  api_key : option string;
  prompt : string;
  finetune_strength : pyfloat;
  steps : Z;
  guidance : pyfloat;
  width : Z;
  height : Z;
  seed : option Z;
  safety_tolerance : Z;
  output_format : string
}.

(** The defaults of the signature ([11 # 10] stands for the double that
    the literal [1.1] denotes). *)
Definition default_args (id : json) (key : option string) : args :=
  {| finetune_id := id; api_key := key; prompt := "A majestic image of a TOK";
     finetune_strength := FloatQ (11 # 10); steps := 40;
     guidance := FloatQ (5 # 2); width := 512; height := 512; seed := None;
     safety_tolerance := 2; output_format := "jpeg" |}.

(** Lines 34-47: the body of the POST. *)
Definition build_payload (a : args) : gmap string json :=
  let payload : gmap string json :=
    <["output_format" := JStr (output_format a)]>
    (<["safety_tolerance" := JInt (safety_tolerance a)]>
    (<["height" := JInt (height a)]>
    (<["width" := JInt (width a)]>
    (<["guidance" := JFloat (guidance a)]>
    (<["steps" := JInt (steps a)]>
    (<["prompt" := JStr (prompt a)]>
    (<["finetune_strength" := JFloat (finetune_strength a)]>
    (<["finetune_id" := finetune_id a]> ∅)))))))) in
  match seed a with
  | Some s => <["seed" := JInt s]> payload
  | None => payload
  end.

Definition generate_image (a : args) : M json :=
  resp <- requests_post generate_url (api_key a) (build_payload a) ;;
  raise_for_status resp ;;
  response_json resp.

(** Lines 97-105: what the page shows for a status that ends nothing. *)
Definition show_progress (status progress_value : json) : M unit :=
  if is_int_or_float progress_value && between_0_and_1 progress_value
  then
    emit (StProgressSet progress_value) ;;
    st_info [Lit "Inference in progress: "; Pct progress_value; Lit "%"]
  else
    st_info [Lit "Current status: "; Str status; Lit ". Checking again in 3s..."].

(** Lines 69-105: [while True] around the status query. *)
Fixpoint check_inference_loop (fuel : nat) (inference_id : json)
    (key : option string) : M json :=
  match fuel with
  | O => out_of_fuel
  | S fuel' =>
      resp <- requests_get get_result_url key {["id" := inference_id]} ;;
      raise_for_status resp ;;
      data <- response_json resp ;;
      status <- py_get data "status" ;;
      progress_value <- py_get data "progress" ;;
      if py_eq_str status "Ready" then
        st_success [Lit "Inference complete!"] ;;
        ret data
      else if py_eq_str status "Task not found" then
        st_error [Lit "Task not found! Check if the ID is correct or if the job has expired."] ;;
        ret data
      else if py_eq_str status "Request Moderated" then
        st_error [Lit "The request was flagged by moderation. Generation stopped."] ;;
        ret data
      else if py_eq_str status "Content Moderated" then
        st_error [Lit "The generated content was flagged by moderation. Generation stopped."] ;;
        ret data
      else if py_eq_str status "Error" then
        st_error [Lit "An error occurred while generating the image. Check the logs or try again."] ;;
        ret data
      else
        show_progress status progress_value ;;
        time_sleep 3 ;;
        check_inference_loop fuel' inference_id key
  end.

Definition check_inference (fuel : nat) (inference_id : json)
    (key : option string) : M json :=
  emit (StProgressNew (JInt 0)) ;;
  check_inference_loop fuel inference_id key.

Definition read_finetunes : M json :=
  found <- registry_exists ;;
  if found then json_load_registry else ret (JObj ∅).

(** [list(d.keys())]; the order of a dict is not modelled. *)
Definition py_keys (d : json) : M (list string) :=
  match d with
  | JObj m => ret (map fst (map_to_list m))
  | _ => raise AttributeError
  end.

(** The values the select boxes offer. *)
Inductive resolution : Type :=
| px256 | px512 | px768 | px1024 | px1280 | px1344 | px1440.
Inductive format_choice : Type := jpeg | png.

Definition resolution_value (r : resolution) : Z :=
  match r with
  | px256 => 256 | px512 => 512 | px768 => 768 | px1024 => 1024
  | px1280 => 1280 | px1344 => 1344 | px1440 => 1440
  end.

Definition format_value (f : format_choice) : string :=
  match f with jpeg => "jpeg" | png => "png" end.

(** The text of the seed box, by what [seed.strip() == ""] and
    [int(seed)] make of it. *)
Inductive seed_text : Type :=
| SeedBlank
| SeedInt (z : Z)
| SeedNotInt.

(** What the user did on the page during this run of the script. *)
Record form : Type := {
  api_key_box : option string;        (* None: left at its default *)
  choice : string;                    (* the fine-tune picked *)
  prompt_box : string;
  strength_box : pyfloat;
  steps_box : Z;
  guidance_box : pyfloat;
  width_box : resolution;
  height_box : resolution;
  seed_box : seed_text;
  safety_box : Z;
  format_box : format_choice;
  generate : bool
}.

(** Lines 167-179: the arguments [main] passes on. *)
Definition form_args (ui : form) (key : string) (id : json)
    (seed_int : option Z) : args :=
  {| finetune_id := id;
     api_key := Some key;
     prompt := prompt_box ui;
     finetune_strength := strength_box ui;
     steps := steps_box ui;
     guidance := guidance_box ui;
     width := resolution_value (width_box ui);
     height := resolution_value (height_box ui);
     seed := seed_int;
     safety_tolerance := safety_box ui;
     output_format := format_value (format_box ui) |}.

Section WithJsonLoads.

(** [json.loads] of the standard library; [None] is [JSONDecodeError]. *)
Variable json_loads : string -> option json.

(** Lines 201-205: the image reference of a decoded result. *)
Definition show_sample (result : json) : M unit :=
  sample_url <- py_get result "sample" ;;
  if truthy sample_url
  then st_image sample_url "Your Generated Image"
  else st_error [Lit "No image URL found in the result."].

(** Lines 191-205: from the final response to the image. *)
Definition show_result (final_data : json) : M unit :=
  result <- py_get_default final_data "result" (JObj ∅) ;;
  match result with
  | JStr s =>
      match json_loads s with
      | Some decoded => show_sample decoded
      | None => st_error [Lit "Unexpected result format: "; Str result]
      end
  | _ => show_sample result
  end.

(** Lines 164-208: from the request to the image. *)
Definition submit_and_show (fuel : nat) (ui : form) (key : string)
    (id : json) (seed_int : option Z) : M unit :=
  st_write [Lit "Submitting generation request..."] ;;
  try_except
    (generate_response <- generate_image (form_args ui key id seed_int) ;;
     inference_id <- py_get generate_response "id" ;;
     if negb (truthy inference_id)
     then st_error [Lit "No inference_id returned from the server. Check logs or try again."]
     else
       st_success [Lit "Generation request submitted! Inference ID: "; Str inference_id] ;;
       st_write [Lit "Polling for result..."] ;;
       final_data <- check_inference fuel inference_id (Some key) ;;
       show_result final_data)
    (fun e => st_error [Lit "Error generating image: "; ExnStr e]).

Definition main (fuel : nat) (ui : form) : M unit :=
  load_dotenv ;;
  default_api_key <- os_getenv "" ;;
  st_title "BFL Generate Images with Finetunes" ;;
  st_write [Lit "Pick a fine-tuned model and generate new images in style, product, or general modes."] ;;
  let key := from_option id default_api_key (api_key_box ui) in
  if String.eqb key "" then
    st_warning [Lit "API key is required."] ;;
    st_stop
  else
  finetunes <- read_finetunes ;;
  if negb (truthy finetunes) then
    st_warning [Lit "No fine-tunes found. Please run the finetune app first."] ;;
    st_stop
  else
  _ <- py_keys finetunes ;;
  id <- py_getitem finetunes (choice ui) ;;
  if generate ui then
    match seed_box ui with
    | SeedBlank => submit_and_show fuel ui key id None
    | SeedInt z => submit_and_show fuel ui key id (Some z)
    | SeedNotInt => st_error [Lit "Seed must be an integer."]
    end
  else ret tt.

End WithJsonLoads.

End Generate.

(** ** A decoder for the examples

    [json_loads] above stands for the standard library's decoder.  The
    examples below run with this one, which reads the JSON texts made of
    objects, arrays, strings without escapes, integers, [true], [false] and
    [null], and rejects every other text. *)

Module MiniJson.

Definition dquote : ascii := "034"%char.

Definition is_ws (c : ascii) : bool :=
  Ascii.eqb c " " || Ascii.eqb c "009" || Ascii.eqb c "010" || Ascii.eqb c "013".

Fixpoint skip_ws (s : list ascii) : list ascii :=
  match s with
  | c :: r => if is_ws c then skip_ws r else s
  | [] => []
  end.

Definition digit_value (c : ascii) : option Z :=
  let n := Z.of_nat (nat_of_ascii c) in
  if (48 <=? n) && (n <=? 57) then Some (n - 48) else None.

Fixpoint scan_digits (acc : Z) (s : list ascii) : Z * list ascii :=
  match s with
  | c :: r =>
      match digit_value c with
      | Some d => scan_digits (10 * acc + d) r
      | None => (acc, s)
      end
  | [] => (acc, [])
  end.

(** Digits, the first of which is 0 only when it is alone. *)
Definition scan_int (s : list ascii) : option (Z * list ascii) :=
  match s with
  | c :: r =>
      match digit_value c with
      | Some 0 =>
          match r with
          | d :: _ => match digit_value d with Some _ => None | None => Some (0, r) end
          | [] => Some (0, r)
          end
      | Some _ => Some (scan_digits 0 s)
      | None => None
      end
  | [] => None
  end.

(** The text after an opening quote, up to the closing one. *)
Fixpoint scan_string (s : list ascii) : option (string * list ascii) :=
  match s with
  | [] => None
  | c :: r =>
      if Ascii.eqb c dquote then Some (EmptyString, r)
      else if Ascii.eqb c "\" then None
      else
        match scan_string r with
        | Some (t, r') => Some (String c t, r')
        | None => None
        end
  end.

Definition parser : Type := list ascii -> option (json * list ascii).

(** [value (, value)* ]] after an opening bracket and a first check for
    the empty array. *)
Fixpoint scan_elements (value : parser) (n : nat) (acc : list json)
    (s : list ascii) : option (json * list ascii) :=
  match n with
  | O => None
  | S n' =>
      match value s with
      | Some (v, r) =>
          match skip_ws r with
          | c :: r' =>
              if Ascii.eqb c "," then scan_elements value n' (acc ++ [v]) r'
              else if Ascii.eqb c "]" then Some (JList (acc ++ [v]), r')
              else None
          | [] => None
          end
      | None => None
      end
  end.

(** ["key": value (, "key": value)* }] after an opening brace; a key
    that comes twice keeps its last value. *)
Fixpoint scan_members (value : parser) (n : nat) (acc : gmap string json)
    (s : list ascii) : option (json * list ascii) :=
  match n with
  | O => None
  | S n' =>
      match skip_ws s with
      | q :: r =>
          if negb (Ascii.eqb q dquote) then None else
          match scan_string r with
          | Some (k, r1) =>
              match skip_ws r1 with
              | c :: r2 =>
                  if negb (Ascii.eqb c ":") then None else
                  match value r2 with
                  | Some (v, r3) =>
                      match skip_ws r3 with
                      | d :: r4 =>
                          if Ascii.eqb d "," then scan_members value n' (<[k := v]> acc) r4
                          else if Ascii.eqb d "}" then Some (JObj (<[k := v]> acc), r4)
                          else None
                      | [] => None
                      end
                  | None => None
                  end
              | [] => None
              end
          | None => None
          end
      | [] => None
      end
  end.

Definition scan_literal (word : string) (v : json) (s : list ascii)
    : option (json * list ascii) :=
  let w := list_ascii_of_string word in
  if String.eqb (string_of_list_ascii (firstn (length w) s)) word
  then Some (v, skipn (length w) s)
  else None.

Fixpoint scan_value (fuel : nat) (s : list ascii) : option (json * list ascii) :=
  match fuel with
  | O => None
  | S fuel' =>
      match skip_ws s with
      | [] => None
      | c :: r =>
          if Ascii.eqb c "{" then
            match skip_ws r with
            | d :: r' =>
                if Ascii.eqb d "}" then Some (JObj ∅, r')
                else scan_members (scan_value fuel') (length r) ∅ r
            | [] => None
            end
          else if Ascii.eqb c "[" then
            match skip_ws r with
            | d :: r' =>
                if Ascii.eqb d "]" then Some (JList [], r')
                else scan_elements (scan_value fuel') (length r) [] r
            | [] => None
            end
          else if Ascii.eqb c dquote then
            match scan_string r with
            | Some (t, r') => Some (JStr t, r')
            | None => None
            end
          else if Ascii.eqb c "-" then
            match scan_int r with
            | Some (z, r') => Some (JInt (- z), r')
            | None => None
            end
          else
            match scan_int (c :: r) with
            | Some (z, r') => Some (JInt z, r')
            | None =>
                match scan_literal "true" (JBool true) (c :: r) with
                | Some x => Some x
                | None =>
                    match scan_literal "false" (JBool false) (c :: r) with
                    | Some x => Some x
                    | None => scan_literal "null" JNull (c :: r)
                    end
                end
            end
      end
  end.

(** The whole text must be one value. *)
Definition json_loads (text : string) : option json :=
  let s := list_ascii_of_string text in
  match scan_value (S (length s)) s with
  | Some (v, r) => match skip_ws r with [] => Some v | _ => None end
  | None => None
  end.

(** The text [{"key": "value"}]. *)
Definition object_text (key value : string) : string :=
  String "{" (String dquote (key +:+ String dquote (": " +:+
    String dquote (value +:+ String dquote "}")))).

End MiniJson.

(** ** Vocabulary of the properties *)

(** A response that [raise_for_status] lets through. *)
Definition passes (r : http_response) : bool :=
  negb ((400 <=? status_code r) && (status_code r <? 600)).

(** A response of the 2xx class. *)
Definition is_2xx (r : http_response) : bool :=
  (200 <=? status_code r) && (status_code r <? 300).

(** A request, its answer let through and decoded: the three lines that
    every call of the service goes through. *)
Definition fetch (request : event) : M json :=
  response <- round_trip request ;;
  raise_for_status response ;;
  response_json response.

(** The enumerated sets of the fine-tune form (finetune.py, lines 180-182);
    the one of [mode] is [Finetune.modes]. *)
Definition priorities : list string := ["speed"; "quality"].
Definition finetune_types : list string := ["full"; "lora"].
Definition lora_ranks : list Z := [16; 32].

(** Some enumerated field holds a value outside its set. *)
Definition out_of_enum (a : Finetune.args) : bool :=
  negb (bool_decide (Finetune.mode a ∈ Finetune.modes))
  || negb (bool_decide (Finetune.priority a ∈ priorities))
  || negb (bool_decide (Finetune.finetune_type a ∈ finetune_types))
  || negb (bool_decide (Finetune.lora_rank a ∈ lora_ranks)).

(** The key a page works with: the text of the box, which starts as the
    environment's key, itself taken from [.env] when the environment has
    none. *)
Definition page_key (box : option string) (w : World) : string :=
  from_option id
    (from_option id ""
       (match environ w with Some k => Some k | None => dotenv w end))
    box.

(** The world once [load_dotenv] has run. *)
Definition loaded (w : World) : World :=
  match environ w with
  | Some _ => w
  | None => with_environ (dotenv w) w
  end.

(** *** Worlds and inputs for the examples *)

Definition answer (code : Z) (fields : list (string * json)) : http_response :=
  {| status_code := code; body := Some (JObj (list_to_map fields)) |}.

(** A machine with an archive [data.zip], no key in the environment, no
    registry yet, and a service that will give the answers [script]. *)
Definition world_with (script : list http_response) : World :=
  {| environ := None; dotenv := None;
     files := {["data.zip" := list_byte_of_string "PK"]};
     registry_file := None; network := script; trace := [] |}.

(** A service about to accept a fine-tune, and one about to accept an
    inference. *)
Definition submission_world : World :=
  world_with [answer 200 [("finetune_id", JStr "ft-123")]].

Definition inference_world : World :=
  world_with [answer 200 [("id", JStr "inf-456")]].

(** A fine-tune request with a valid mode and a priority, a type and a rank
    that no form offers. *)
Definition unlisted_args : Finetune.args :=
  {| Finetune.zip_path := "data.zip"; Finetune.finetune_comment := "cat-v1";
     Finetune.trigger_word := "TOK"; Finetune.mode := "style";
     Finetune.api_key := Some "key"; Finetune.iterations := 300;
     Finetune.learning_rate := None; Finetune.captioning := true;
     Finetune.priority := "urgent"; Finetune.finetune_type := "partial";
     Finetune.lora_rank := 7 |}.

(** The same with the mode ["invalid"] and listed values elsewhere. *)
Definition invalid_mode_args : Finetune.args :=
  {| Finetune.zip_path := "data.zip"; Finetune.finetune_comment := "cat-v1";
     Finetune.trigger_word := "TOK"; Finetune.mode := "invalid";
     Finetune.api_key := Some "key"; Finetune.iterations := 300;
     Finetune.learning_rate := None; Finetune.captioning := true;
     Finetune.priority := "quality"; Finetune.finetune_type := "full";
     Finetune.lora_rank := 32 |}.

(** The fine-tune page filled in with its defaults, an archive uploaded,
    the key box holding [box] and the button pressed. *)
Definition finetune_form (box : option string) : Finetune.form :=
  {| Finetune.api_key_box := box;
     Finetune.uploaded_file := Some (list_byte_of_string "PK");
     Finetune.comment_box := "cat-v1";
     Finetune.trigger_box := "TOK";
     Finetune.mode_box := Finetune.character;
     Finetune.iterations_box := 300;
     Finetune.use_custom_lr := false;
     Finetune.lr_box := FloatQ (1 # 100000);
     Finetune.captioning_box := true;
     Finetune.priority_box := Finetune.quality;
     Finetune.type_box := Finetune.full;
     Finetune.rank_box := Finetune.rank32;
     Finetune.submit := true |}.

(** The inference page with its defaults, the fine-tune [cat-v1] picked,
    the key box holding [box] and the button pressed. *)
Definition generate_form (box : option string) : Generate.form :=
  {| Generate.api_key_box := box;
     Generate.choice := "cat-v1";
     Generate.prompt_box := "image of a TOK";
     Generate.strength_box := FloatQ (11 # 10);
     Generate.steps_box := 40;
     Generate.guidance_box := FloatQ (5 # 2);
     Generate.width_box := Generate.px512;
     Generate.height_box := Generate.px768;
     Generate.seed_box := Generate.SeedBlank;
     Generate.safety_box := 2;
     Generate.format_box := Generate.jpeg;
     Generate.generate := true |}.

(** *** Statuses *)

(** The four statuses that end a job without a result. *)
Definition terminal_failures : list string :=
  ["Task not found"; "Request Moderated"; "Content Moderated"; "Error"].

(** What [check_inference] shows for each status that ends its loop. *)
Definition closing_event (status : string) : option event :=
  if String.eqb status "Ready" then
    Some (StSuccess [Lit "Inference complete!"])
  else if String.eqb status "Task not found" then
    Some (StError [Lit "Task not found! Check if the ID is correct or if the job has expired."])
  else if String.eqb status "Request Moderated" then
    Some (StError [Lit "The request was flagged by moderation. Generation stopped."])
  else if String.eqb status "Content Moderated" then
    Some (StError [Lit "The generated content was flagged by moderation. Generation stopped."])
  else if String.eqb status "Error" then
    Some (StError [Lit "An error occurred while generating the image. Check the logs or try again."])
  else None.

(** The same for whatever [data.get("status")] returns. *)
Definition closing (status : json) : option event :=
  match status with
  | JStr s => closing_event s
  | _ => None
  end.

(** The [status] and [progress] entries as [.get] returns them. *)
Definition status_of (m : gmap string json) : json :=
  from_option id JNull (m !! "status").

Definition progress_of (m : gmap string json) : json :=
  from_option id JNull (m !! "progress").

(** The events of [Generate.show_progress]. *)
Definition progress_events (status progress_value : json) : list event :=
  if is_int_or_float progress_value && between_0_and_1 progress_value
  then [StProgressSet progress_value;
        StInfo [Lit "Inference in progress: "; Pct progress_value; Lit "%"]]
  else [StInfo [Lit "Current status: "; Str status; Lit ". Checking again in 3s..."]].

(** The event of the fine-tune loop for a status other than [Ready]. *)
Definition waiting_event (status : json) : event :=
  StInfo [Lit "Current status: "; Str status; Lit ". Waiting 10s..."].

Definition finetune_get (id : json) (key : string) : event :=
  HttpGet Finetune.get_result_url (Some key) {["id" := id]}.

Definition inference_get (id : json) (key : option string) : event :=
  HttpGet Generate.get_result_url key {["id" := id]}.

Definition is_get (e : event) : bool :=
  match e with HttpGet _ _ _ => true | _ => false end.

Definition is_post (e : event) : bool :=
  match e with HttpPost _ _ _ => true | _ => false end.

Definition is_info (e : event) : bool :=
  match e with StInfo _ => true | _ => false end.

(** A [progress] entry that is absent, null, neither a number nor a
    boolean, or a number outside [0, 1]. *)
Inductive no_progress : option json -> Prop :=
| progress_absent : no_progress None
| progress_null : no_progress (Some JNull)
| progress_text s : no_progress (Some (JStr s))
| progress_list l : no_progress (Some (JList l))
| progress_object m : no_progress (Some (JObj m))
| progress_int z : z < 0 \/ 1 < z -> no_progress (Some (JInt z))
| progress_float q : (q < 0 \/ 1 < q)%Q -> no_progress (Some (JFloat (FloatQ q)))
| progress_infinite b : no_progress (Some (JFloat (FloatInf b)))
| progress_nan : no_progress (Some (JFloat FloatNaN)).

(** The service answering the same status [n] times. *)
Definition stuck_on (status : string) (n : nat) : list http_response :=
  repeat (answer 200 [("status", JStr status)]) n.

(** The response [r] passes [raise_for_status] and decodes to the object
    [m], whose status is the string [s]. *)
Definition answers (r : http_response) (m : gmap string json) (s : string) : Prop :=
  passes r = true /\ body r = Some (JObj m) /\ m !! "status" = Some (JStr s).

(** The poll sequence of the end-to-end scenario: Pending at 0.2, Pending
    at 0.8, then Ready with the result as an object. *)
Definition pending_at (p : Q) : gmap string json :=
  list_to_map [("status", JStr "Pending"); ("progress", JFloat (FloatQ p))].

Definition ready_with (result : json) : gmap string json :=
  list_to_map [("status", JStr "Ready"); ("result", result)].

Definition out_jpg : json :=
  JObj (list_to_map [("sample", JStr "https://x/out.jpg")]).

Definition scenario : list http_response :=
  [ {| status_code := 200; body := Some (JObj (pending_at (1 # 5))) |};
    {| status_code := 200; body := Some (JObj (pending_at (4 # 5))) |};
    {| status_code := 200; body := Some (JObj (ready_with out_jpg)) |} ].

(** *** The registry, in the words of its contract *)

Definition put (name : string) (remote_id : json) : M unit :=
  Finetune.store_finetune_id name remote_id.

Definition get_all : M json := Generate.read_finetunes.

(** The file of a registry state: none yet, or a document with a mapping. *)
Definition registry_of (state : option (gmap string json)) : option reg_file :=
  (fun m => RegJson (JObj m)) <$> state.

(** The mapping of a registry state. *)
Definition mapping_of (state : option (gmap string json)) : gmap string json :=
  default ∅ state.

(** *** Requests and answers *)

(** What the first answer of the service makes of a call: the decoded body,
    or the exception of [requests]. *)
Definition reply_outcome (script : list http_response) : outcome json :=
  match script with
  | [] => Raise ConnectionError
  | r :: _ =>
      if passes r then
        match body r with
        | Some v => Ret v
        | None => Raise JSONDecodeError
        end
      else Raise (HTTPError (status_code r))
  end.

(** The world after one request: the request recorded, the first answer,
    if any, used up. *)
Definition after_request (request : event) (w : World) : World :=
  with_network (tail (network w)) (with_trace (trace w ++ [request]) w).

Definition is_request (e : event) : bool :=
  match e with
  | HttpPost _ _ _ | HttpGet _ _ _ => true
  | _ => false
  end.

Definition is_sleep (e : event) : bool :=
  match e with Sleep _ => true | _ => false end.

Definition is_image (e : event) : bool :=
  match e with StImage _ _ => true | _ => false end.

(** Two worlds with the same environment, the same [.env], the same files
    and the same registry. *)
Definition same_disk (w w' : World) : Prop :=
  environ w' = environ w /\ dotenv w' = dotenv w
  /\ files w' = files w /\ registry_file w' = registry_file w.

(** The response [r] passes [raise_for_status] and decodes to the object [m]. *)
Definition decodes (r : http_response) (m : gmap string json) : Prop :=
  passes r = true /\ body r = Some (JObj m).

(** What the loop of [check_inference] does with an answer that does not
    end it. *)
Definition inference_round (job : json) (key : option string)
    (m : gmap string json) : list event :=
  (inference_get job key :: progress_events (status_of m) (progress_of m))
  ++ [Sleep 3].

(** The same for the loop of finetune.py. *)
Definition finetune_round (job : json) (key : string)
    (m : gmap string json) : list event :=
  [finetune_get job key; waiting_event (status_of m); Sleep 10].

(** The key that finetune.py works with: the argument, else the
    environment's. *)
Definition available_key (key : option string) (w : World) : option string :=
  match key with
  | Some k => Some k
  | None => environ w
  end.

(** A service that refuses with the status [code]. *)
Definition refusal (code : Z) : http_response :=
  {| status_code := code; body := Some (JObj ∅) |}.

(** The default fine-tune request with a key, on the archive of
    [world_with]. *)
Definition keyed_args : Finetune.args :=
  Finetune.with_api_key (Some "key") (Finetune.default_args "data.zip" "cat-v1").

(** A machine on which the fine-tune page has saved its archive. *)
Definition page_world (script : list http_response) : World :=
  with_files {[Finetune.temp_zip_path := list_byte_of_string "PK"]}
    (world_with script).

(** What a run of a polling loop may do to the world [w], ending in [w']:
    nothing on disk, answers read from the front of the script, events
    appended to the trace, and no request other than [get]. *)
Definition polls_only (get : event) (w w' : World)
    (consumed : list http_response) (new : list event) : Prop :=
  same_disk w w'
  /\ network w = (consumed ++ network w')%list
  /\ trace w' = (trace w ++ new)%list
  /\ Forall (fun e => is_request e = true -> e = get) new.

(** *** What a program keeps and what it may raise *)

(** Whatever the world, running [c] takes it to a world related to it by
    [R]. *)
Definition keeps {A} (R : World -> World -> Prop) (c : M A) : Prop :=
  forall w, R w (snd (c w)).

(** Whatever the world, an exception that [c] raises satisfies [P]. *)
Definition raises_only {A} (P : exn -> Prop) (c : M A) : Prop :=
  forall w e, fst (c w) = Raise e -> P e.

(** From [w] to [w'] the environment, [.env] and the files are the same,
    and the trace has grown by events that are no POST. *)
Definition no_post_since (w w' : World) : Prop :=
  environ w' = environ w /\ dotenv w' = dotenv w /\ files w' = files w
  /\ exists new, trace w' = (trace w ++ new)%list
                 /\ Forall (fun e => is_post e = false) new.

(** From [w] to [w'] the registry file is the same. *)
Definition same_registry (w w' : World) : Prop :=
  registry_file w' = registry_file w.

(** The exceptions that [except Exception] catches. *)
Definition caught (e : exn) : Prop := is_Exception e = true.

(** From [w] to [w'] nothing on disk has changed and the trace has grown
    by events that are no POST. *)
Definition quiet (w w' : World) : Prop :=
  same_disk w w'
  /\ exists new, trace w' = (trace w ++ new)%list
                 /\ Forall (fun e => is_post e = false) new.

(** The world once the fine-tune page has drawn its heading. *)
Definition finetune_page_drawn (w : World) : World :=
  with_trace
    (trace w ++
     [StTitle "BFL Finetune App";
      StWrite [Lit "Fine-tuning is fun... until it isn't. Let's do it anyway."]])
    (loaded w).

(** The world once the inference page has drawn its heading. *)
Definition generate_page_drawn (w : World) : World :=
  with_trace
    (trace w ++
     [StTitle "BFL Generate Images with Finetunes";
      StWrite [Lit "Pick a fine-tuned model and generate new images in style, product, or general modes."]])
    (loaded w).

(** The fine-tune page with a key, its defaults, the button pressed and
    nothing uploaded. *)
Definition form_without_upload : Finetune.form :=
  {| Finetune.api_key_box := Some "key"; Finetune.uploaded_file := None;
     Finetune.comment_box := "cat-v1"; Finetune.trigger_box := "TOK";
     Finetune.mode_box := Finetune.character; Finetune.iterations_box := 300;
     Finetune.use_custom_lr := false; Finetune.lr_box := FloatQ (1 # 100000);
     Finetune.captioning_box := true; Finetune.priority_box := Finetune.quality;
     Finetune.type_box := Finetune.full; Finetune.rank_box := Finetune.rank32;
     Finetune.submit := true |}.

(** What [main] makes of the seed box: no seed, a seed, or nothing to
    submit. *)
Definition seed_of (box : Generate.seed_text) : option (option Z) :=
  match box with
  | Generate.SeedBlank => Some None
  | Generate.SeedInt z => Some (Some z)
  | Generate.SeedNotInt => None
  end.

(** The inference page with a key, the fine-tune [cat-v1] picked, the
    button pressed and a seed box that holds [box]. *)
Definition generate_form_with_seed (box : Generate.seed_text) : Generate.form :=
  {| Generate.api_key_box := Some "key";
     Generate.choice := "cat-v1";
     Generate.prompt_box := "image of a TOK";
     Generate.strength_box := FloatQ (11 # 10);
     Generate.steps_box := 40;
     Generate.guidance_box := FloatQ (5 # 2);
     Generate.width_box := Generate.px512;
     Generate.height_box := Generate.px768;
     Generate.seed_box := box;
     Generate.safety_box := 2;
     Generate.format_box := Generate.jpeg;
     Generate.generate := true |}.

(** A machine whose registry maps [cat-v1] to [ft-123]. *)
Definition registered_world (script : list http_response) : World :=
  with_registry (registry_of (Some {["cat-v1" := JStr "ft-123"]})) (world_with script).

(** The object in which the sample is looked up: the [result] entry when
    it is an object, what it decodes to when it is a text. *)
Definition result_object (json_loads : string -> option json)
    (d : gmap string json) : option (gmap string json) :=
  match d !! "result" with
  | Some (JObj o) => Some o
  | Some (JStr s) =>
      match json_loads s with
      | Some (JObj o) => Some o
      | _ => None
      end
  | _ => None
  end.

Definition no_image_found : event :=
  StError [Lit "No image URL found in the result."].

(** What the inference page has done when polling ends: the submission,
    the identifier [inf] shown, one round for each answer that did not end
    the job, the last request and the message [shown] of the status that
    ended it. *)
Definition polled_events (ui : Generate.form) (key : string) (job : json)
    (seed_int : option Z) (inf : json) (ms : list (gmap string json))
    (shown : event) : list event :=
  ([StWrite [Lit "Submitting generation request..."];
    HttpPost Generate.generate_url (Some key)
      (Generate.build_payload (Generate.form_args ui key job seed_int));
    StSuccess [Lit "Generation request submitted! Inference ID: "; Str inf];
    StWrite [Lit "Polling for result..."];
    StProgressNew (JInt 0)]
   ++ concat (map (inference_round inf (Some key)) ms)
   ++ [inference_get inf (Some key); shown])%list.

(** The service accepts an inference as [inf], answers the status queries
    with [rs], which decode to [ms] and do not end the job, then with
    [r_end], which decodes to [m_end] and ends it with the message [shown]. *)
Definition inference_script (script : list http_response) (inf : json)
    (rs : list http_response) (ms : list (gmap string json))
    (r_end : http_response) (m_end : gmap string json) (shown : event)
    (rest : list http_response) : Prop :=
  exists r0 m0,
    script = (r0 :: rs ++ r_end :: rest)%list
    /\ decodes r0 m0 /\ m0 !! "id" = Some inf /\ truthy inf = true
    /\ Forall2 decodes rs ms
    /\ Forall (fun m => closing (status_of m) = None) ms
    /\ decodes r_end m_end /\ closing (status_of m_end) = Some shown.

(** * Properties *)

(** ** One step of each primitive *)

Example b64encode_Man :
  b64encode (list_byte_of_string "Man") = "TWFu"
  /\ b64encode (list_byte_of_string "Ma") = "TWE="
  /\ b64encode (list_byte_of_string "M") = "TQ=="
  /\ b64encode (list_byte_of_string "hello world") = "aGVsbG8gd29ybGQ="
  /\ b64encode [x00; xff; xfe; x3e; x3f] = "AP/+Pj8=".
Proof. repeat split; reflexivity. Qed.

Lemma is_2xx_passes r : is_2xx r = true -> passes r = true.
Proof.
  unfold is_2xx, passes. intros H.
  apply andb_true_iff in H as [H1 H2].
  apply Z.leb_le in H1. apply Z.ltb_lt in H2.
  destruct (400 <=? status_code r) eqn:E; [|reflexivity].
  apply Z.leb_le in E. lia.
Qed.

Lemma raise_for_status_passes r w :
  passes r = true -> raise_for_status r w = (Ret tt, w).
Proof.
  unfold passes, raise_for_status. intros H.
  apply negb_true_iff in H. rewrite H. reflexivity.
Qed.

Lemma raise_for_status_fails r w :
  passes r = false -> raise_for_status r w = (Raise (HTTPError (status_code r)), w).
Proof.
  unfold passes, raise_for_status. intros H.
  apply negb_false_iff in H. rewrite H. reflexivity.
Qed.

Lemma round_trip_answer e w r rest :
  network w = r :: rest ->
  round_trip e w = (Ret r, with_network rest (with_trace (trace w ++ [e]) w)).
Proof. unfold round_trip. intros ->. reflexivity. Qed.

Lemma round_trip_silence e w :
  network w = [] ->
  round_trip e w = (Raise ConnectionError, with_trace (trace w ++ [e]) w).
Proof. unfold round_trip. intros ->. reflexivity. Qed.

Lemma fetch_answer e w r rest v :
  network w = r :: rest -> passes r = true -> body r = Some v ->
  fetch e w = (Ret v, with_network rest (with_trace (trace w ++ [e]) w)).
Proof.
  intros Hn Hp Hb. unfold fetch, bind.
  rewrite (round_trip_answer _ _ _ _ Hn), raise_for_status_passes by exact Hp.
  unfold response_json. rewrite Hb. reflexivity.
Qed.

Lemma resolve_given k w : Finetune.resolve_api_key (Some k) w = (Ret k, w).
Proof. reflexivity. Qed.

Lemma resolve_environ k w :
  environ w = Some k -> Finetune.resolve_api_key None w = (Ret k, w).
Proof. unfold Finetune.resolve_api_key. intros ->. reflexivity. Qed.

Lemma resolve_missing w :
  environ w = None ->
  Finetune.resolve_api_key None w = (Raise (ValueError Finetune.missing_key_msg), w).
Proof. unfold Finetune.resolve_api_key. intros ->. reflexivity. Qed.


Lemma request_finetuning_unfold a w :
  Finetune.request_finetuning a w =
  match Finetune.resolve_api_key (Finetune.api_key a) w with
  | (Ret key, w1) =>
      match files w1 !! Finetune.zip_path a with
      | None => (Raise (FileNotFoundError (Finetune.zip_path a)), w1)
      | Some zip =>
          if bool_decide (Finetune.mode a ∈ Finetune.modes)
          then fetch (HttpPost Finetune.finetune_url (Some key)
                        (Finetune.build_payload a (b64encode zip))) w1
          else (Raise (AssertionError Finetune.mode_msg), w1)
      end
  | (Raise e, w1) => (Raise e, w1)
  | (OutOfFuel, w1) => (OutOfFuel, w1)
  end.
Proof.
  unfold Finetune.request_finetuning, bind at 1.
  destruct (Finetune.resolve_api_key _ w) as [[key| |] w1]; try reflexivity.
  unfold bind at 1, os_path_exists.
  destruct (files w1 !! Finetune.zip_path a) as [zip|] eqn:Hz.
  - rewrite bool_decide_true by eauto. simpl.
    destruct (bool_decide _); simpl; [|reflexivity].
    unfold bind at 1, read_bytes. rewrite Hz. reflexivity.
  - rewrite bool_decide_false by (intros [? ?]; discriminate). reflexivity.
Qed.

Lemma finetune_progress_unfold job key w :
  Finetune.finetune_progress job key w =
  match Finetune.resolve_api_key key w with
  | (Ret k, w1) =>
      fetch (HttpGet Finetune.get_result_url (Some k) {["id" := job]}) w1
  | (Raise e, w1) => (Raise e, w1)
  | (OutOfFuel, w1) => (OutOfFuel, w1)
  end.
Proof.
  unfold Finetune.finetune_progress, bind at 1.
  destruct (Finetune.resolve_api_key _ w) as [[k| |] w1]; reflexivity.
Qed.




Lemma request_finetuning_without_key a w :
  Finetune.api_key a = None -> environ w = None ->
  Finetune.request_finetuning a w = (Raise (ValueError Finetune.missing_key_msg), w).
Proof.
  intros Ha He. rewrite request_finetuning_unfold, Ha, (resolve_missing w He).
  reflexivity.
Qed.



(** ** The payloads *)

Lemma generate_image_unfold a w :
  Generate.generate_image a w
    = fetch (HttpPost Generate.generate_url (Generate.api_key a)
               (Generate.build_payload a)) w.
Proof. reflexivity. Qed.

(** C4: the payload of a fine-tune holds [learning_rate] exactly when one
    was given, the payload of an inference holds [seed] exactly when one was
    given (no entry at all otherwise, not a null one), every other field is
    there with the value passed, and there is no further key. *)
Theorem C4_payload_optional_fields_and_values
    (a : Finetune.args) (encoded_zip : string) (g : Generate.args) :
  let p := Finetune.build_payload a encoded_zip in
  let q := Generate.build_payload g in
  (p !! "learning_rate" = JFloat <$> Finetune.learning_rate a
   /\ p !! "finetune_comment" = Some (JStr (Finetune.finetune_comment a))
   /\ p !! "trigger_word" = Some (JStr (Finetune.trigger_word a))
   /\ p !! "file_data" = Some (JStr encoded_zip)
   /\ p !! "iterations" = Some (JInt (Finetune.iterations a))
   /\ p !! "mode" = Some (JStr (Finetune.mode a))
   /\ p !! "captioning" = Some (JBool (Finetune.captioning a))
   /\ p !! "priority" = Some (JStr (Finetune.priority a))
   /\ p !! "lora_rank" = Some (JInt (Finetune.lora_rank a))
   /\ p !! "finetune_type" = Some (JStr (Finetune.finetune_type a))
   /\ dom p = list_to_set
        (["finetune_comment"; "trigger_word"; "file_data"; "iterations"; "mode";
          "captioning"; "priority"; "lora_rank"; "finetune_type"]
         ++ match Finetune.learning_rate a with
            | Some _ => ["learning_rate"]
            | None => []
            end))
  /\ (q !! "seed" = JInt <$> Generate.seed g
      /\ q !! "finetune_id" = Some (Generate.finetune_id g)
      /\ q !! "finetune_strength" = Some (JFloat (Generate.finetune_strength g))
      /\ q !! "prompt" = Some (JStr (Generate.prompt g))
      /\ q !! "steps" = Some (JInt (Generate.steps g))
      /\ q !! "guidance" = Some (JFloat (Generate.guidance g))
      /\ q !! "width" = Some (JInt (Generate.width g))
      /\ q !! "height" = Some (JInt (Generate.height g))
      /\ q !! "safety_tolerance" = Some (JInt (Generate.safety_tolerance g))
      /\ q !! "output_format" = Some (JStr (Generate.output_format g))
      /\ dom q = list_to_set
           (["finetune_id"; "finetune_strength"; "prompt"; "steps"; "guidance";
             "width"; "height"; "safety_tolerance"; "output_format"]
            ++ match Generate.seed g with
               | Some _ => ["seed"]
               | None => []
               end)).
Proof.
  unfold Finetune.build_payload, Generate.build_payload.
  split.
  - destruct (Finetune.learning_rate a); repeat split; vm_compute; reflexivity.
  - destruct (Generate.seed g); repeat split; vm_compute; reflexivity.
Qed.

(** ** Checks made before the submission *)

Lemma request_finetuning_sends a k zip w :
  Finetune.resolve_api_key (Finetune.api_key a) w = (Ret k, w) ->
  files w !! Finetune.zip_path a = Some zip ->
  Finetune.mode a ∈ Finetune.modes ->
  Finetune.request_finetuning a w
    = fetch (HttpPost Finetune.finetune_url (Some k)
               (Finetune.build_payload a (b64encode zip))) w.
Proof.
  intros Hk Hz Hm. rewrite request_finetuning_unfold, Hk, Hz.
  rewrite bool_decide_true by exact Hm. reflexivity.
Qed.

Lemma form_args_in_enum ui key :
  out_of_enum (Finetune.form_args ui key) = false.
Proof.
  destruct ui as [? ? ? ? m ? ? ? ? p t r ?].
  destruct m, p, t, r; vm_compute; reflexivity.
Qed.

(** C3, as the code has it: a mode outside its set makes the submission
    raise with the world untouched, hence without any request: the missing-key
    error when there is no credential, else the missing-file error when the
    archive is not there, else the assertion on the mode.  What [main] passes
    on is always inside the four sets. *)
Theorem C3_unlisted_mode_is_refused (a : Finetune.args) (w : World) :
  Finetune.mode a ∉ Finetune.modes ->
  Finetune.request_finetuning a w =
    (Raise
       match Finetune.api_key a, environ w with
       | None, None => ValueError Finetune.missing_key_msg
       | _, _ =>
           match files w !! Finetune.zip_path a with
           | None => FileNotFoundError (Finetune.zip_path a)
           | Some _ => AssertionError Finetune.mode_msg
           end
       end, w)
  /\ (forall ui key, out_of_enum (Finetune.form_args ui key) = false).
Proof.
  intros Hm. split; [|apply form_args_in_enum].
  rewrite request_finetuning_unfold.
  assert (Hres : (exists k, Finetune.resolve_api_key (Finetune.api_key a) w = (Ret k, w)
                            /\ (Finetune.api_key a = None -> environ w = Some k))
                 \/ (Finetune.api_key a = None /\ environ w = None)).
  { destruct (Finetune.api_key a) as [k|].
    - left. exists k. split; [reflexivity|discriminate].
    - destruct (environ w) as [k|] eqn:He.
      + left. exists k. split; [apply resolve_environ; exact He|reflexivity].
      + right. split; reflexivity. }
  destruct Hres as [(k & Hk & He)|[Ha He]].
  - rewrite Hk. rewrite bool_decide_false by exact Hm.
    destruct (Finetune.api_key a); [|rewrite (He eq_refl)];
      destruct (files w !! Finetune.zip_path a); reflexivity.
  - rewrite Ha, (resolve_missing w He), He. reflexivity.
Qed.

Lemma C3_unlisted_mode_is_refused_witness :
  Finetune.request_finetuning invalid_mode_args (world_with [])
    = (Raise (AssertionError Finetune.mode_msg), world_with []).
Proof.
  apply (C3_unlisted_mode_is_refused invalid_mode_args (world_with [])).
  vm_compute. intros H. repeat (apply elem_of_cons in H as [H|H]; [discriminate H|]).
  apply elem_of_nil in H. exact H.
Defined.

(** C3 fails as stated: a priority, a type and a rank outside their sets
    go out to the service, which here accepts them. *)
Lemma C3_unlisted_priority_is_sent :
  out_of_enum unlisted_args = true
  /\ Finetune.request_finetuning unlisted_args
       (world_with [answer 200 [("finetune_id", JStr "ft-123")]])
     = (Ret (JObj {["finetune_id" := JStr "ft-123"]}),
        with_trace
          [HttpPost Finetune.finetune_url (Some "key")
             (Finetune.build_payload unlisted_args "UEs=")]
          (world_with [])).
Proof. split; vm_compute; reflexivity. Qed.

(** ** The credential *)

(** Runs the page and state primitives on an explicit world. *)
Ltac run_page :=
  repeat progress
    (cbn [String.eqb Ascii.eqb Bool.eqb negb andb orb];
     cbv [bind ret raise out_of_fuel emit try_except is_Exception
          st_title st_write st_warning st_success st_info st_error st_json
          st_image st_stop time_sleep
          with_trace with_network with_environ with_files with_registry
          trace network environ dotenv files registry_file]).

(** Brings a trace built event by event to the form [old ++ new]. *)
Ltac flatten_trace := rewrite <- ?app_assoc; cbn [app].

Lemma load_dotenv_loaded w : load_dotenv w = (Ret tt, loaded w).
Proof. unfold load_dotenv, loaded. destruct (environ w); reflexivity. Qed.

Lemma os_getenv_loaded w :
  from_option id "" (environ (loaded w))
    = from_option id "" (match environ w with Some k => Some k | None => dotenv w end).
Proof. unfold loaded. destruct (environ w) eqn:E; simpl; [rewrite E|]; reflexivity. Qed.

Lemma finetune_main_without_key fuel ui w :
  page_key (Finetune.api_key_box ui) w = "" ->
  Finetune.main fuel ui w =
    (Raise StopException,
     with_trace
       (trace w ++
        [StTitle "BFL Finetune App";
         StWrite [Lit "Fine-tuning is fun... until it isn't. Let's do it anyway."];
         StWarning [Lit "API key is required. Gotta keep those credentials safe."]])
       (loaded w)).
Proof.
  intros Hk. unfold Finetune.main, bind at 1. rewrite load_dotenv_loaded.
  unfold bind at 1, os_getenv. rewrite os_getenv_loaded.
  fold (page_key (Finetune.api_key_box ui) w). rewrite Hk.
  unfold loaded. destruct w as [e d f rg n t].
  destruct e; run_page; flatten_trace; reflexivity.
Qed.

Lemma generate_main_without_key json_loads fuel ui w :
  page_key (Generate.api_key_box ui) w = "" ->
  Generate.main json_loads fuel ui w =
    (Raise StopException,
     with_trace
       (trace w ++
        [StTitle "BFL Generate Images with Finetunes";
         StWrite [Lit "Pick a fine-tuned model and generate new images in style, product, or general modes."];
         StWarning [Lit "API key is required."]])
       (loaded w)).
Proof.
  intros Hk. unfold Generate.main, bind at 1. rewrite load_dotenv_loaded.
  unfold bind at 1, os_getenv. rewrite os_getenv_loaded.
  fold (page_key (Generate.api_key_box ui) w). rewrite Hk.
  unfold loaded. destruct w as [e d f rg n t].
  destruct e; run_page; flatten_trace; reflexivity.
Qed.

(** C8, as the code has it: [request_finetuning] without a key argument
    and without BFL_API_KEY raises the missing-key error and does nothing
    else; each of the two pages, when the key it works with is empty, shows a
    warning and stops, with no request sent and none of the service's answers
    consumed.  ([generate_image] itself makes no check.) *)
Theorem C8_missing_key_stops_before_any_request (w : World) :
  (forall a, Finetune.api_key a = None -> environ w = None ->
     Finetune.request_finetuning a w
       = (Raise (ValueError Finetune.missing_key_msg), w))
  /\ (forall fuel ui, page_key (Finetune.api_key_box ui) w = "" ->
      Finetune.main fuel ui w =
        (Raise StopException,
         with_trace
           (trace w ++
            [StTitle "BFL Finetune App";
             StWrite [Lit "Fine-tuning is fun... until it isn't. Let's do it anyway."];
             StWarning [Lit "API key is required. Gotta keep those credentials safe."]])
           (loaded w)))
  /\ (forall json_loads fuel ui, page_key (Generate.api_key_box ui) w = "" ->
      Generate.main json_loads fuel ui w =
        (Raise StopException,
         with_trace
           (trace w ++
            [StTitle "BFL Generate Images with Finetunes";
             StWrite [Lit "Pick a fine-tuned model and generate new images in style, product, or general modes."];
             StWarning [Lit "API key is required."]])
           (loaded w))).
Proof.
  split; [|split].
  - intros a Ha He. apply request_finetuning_without_key; assumption.
  - intros fuel ui. apply finetune_main_without_key.
  - intros json_loads fuel ui. apply generate_main_without_key.
Qed.

Lemma C8_missing_key_stops_before_any_request_witness :
  Finetune.request_finetuning (Finetune.default_args "data.zip" "cat-v1") submission_world
    = (Raise (ValueError Finetune.missing_key_msg), submission_world)
  /\ fst (Finetune.main 5 (finetune_form None) submission_world) = Raise StopException
  /\ network (snd (Finetune.main 5 (finetune_form None) submission_world))
       = network submission_world
  /\ fst (Generate.main MiniJson.json_loads 5 (generate_form (Some "")) submission_world)
       = Raise StopException
  /\ network (snd (Generate.main MiniJson.json_loads 5 (generate_form (Some ""))
                     submission_world))
       = network submission_world.
Proof.
  destruct (C8_missing_key_stops_before_any_request submission_world) as (H1 & H2 & H3).
  rewrite (H1 (Finetune.default_args "data.zip" "cat-v1") eq_refl eq_refl).
  rewrite (H2 5%nat (finetune_form None) eq_refl).
  rewrite (H3 MiniJson.json_loads 5%nat (generate_form (Some "")) eq_refl).
  repeat split; reflexivity.
Defined.

(** C8 fails as stated: [generate_image] called without a key, or with an
    empty one, sends the request all the same. *)
Lemma C8_generate_image_sends_without_key :
  Generate.generate_image (Generate.default_args (JStr "ft-123") None) inference_world
    = (Ret (JObj {["id" := JStr "inf-456"]}),
       with_trace
         [HttpPost Generate.generate_url None
            (Generate.build_payload (Generate.default_args (JStr "ft-123") None))]
         (world_with []))
  /\ Generate.generate_image (Generate.default_args (JStr "ft-123") (Some ""))
       inference_world
    = (Ret (JObj {["id" := JStr "inf-456"]}),
       with_trace
         [HttpPost Generate.generate_url (Some "")
            (Generate.build_payload (Generate.default_args (JStr "ft-123") (Some "")))]
         (world_with [])).
Proof. split; vm_compute; reflexivity. Qed.

(** ** The polling loops *)

Lemma show_progress_events status p w :
  Generate.show_progress status p w
    = (Ret tt, with_trace (trace w ++ progress_events status p) w).
Proof.
  unfold Generate.show_progress, progress_events.
  destruct (is_int_or_float p && between_0_and_1 p);
    run_page; flatten_trace; reflexivity.
Qed.

(** One turn of the loop of [check_inference] on a decoded answer. *)
Lemma check_inference_loop_step n job key w r rest m :
  network w = r :: rest -> passes r = true -> body r = Some (JObj m) ->
  Generate.check_inference_loop (S n) job key w =
    let w1 := with_network rest (with_trace (trace w ++ [inference_get job key]) w) in
    match closing (status_of m) with
    | Some shown => (Ret (JObj m), with_trace (trace w1 ++ [shown]) w1)
    | None =>
        Generate.check_inference_loop n job key
          (with_trace
             (trace w1 ++ progress_events (status_of m) (progress_of m) ++ [Sleep 3])
             w1)
    end.
Proof.
  intros Hn Hp Hb. cbn [Generate.check_inference_loop].
  unfold bind at 1, requests_get. rewrite (round_trip_answer _ _ _ _ Hn).
  unfold bind at 1. rewrite (raise_for_status_passes _ _ Hp).
  unfold bind at 1, response_json. rewrite Hb.
  unfold bind at 1, bind at 1, py_get, ret.
  fold (status_of m). fold (progress_of m). fold (inference_get job key).
  cbv zeta.
  set (w1 := with_network rest (with_trace (trace w ++ [inference_get job key]) w)).
  unfold closing, py_eq_str.
  destruct (status_of m) as [| | | |s| |];
    try (unfold bind at 1; rewrite show_progress_events;
         unfold bind at 1, time_sleep, emit;
         cbn [trace with_trace]; rewrite <- app_assoc; reflexivity).
  unfold closing_event.
  repeat (destruct (String.eqb s _); [reflexivity|]).
  unfold bind at 1; rewrite show_progress_events.
  unfold bind at 1, time_sleep, emit.
  cbn [trace with_trace]. rewrite <- app_assoc. reflexivity.
Qed.

(** One turn of the loop of finetune.py on a decoded answer. *)
Lemma finetune_poll_step n job key w r rest m :
  network w = r :: rest -> passes r = true -> body r = Some (JObj m) ->
  Finetune.poll (S n) job key w =
    let w1 := with_network rest (with_trace (trace w ++ [finetune_get job key]) w) in
    if py_eq_str (status_of m) "Ready"
    then (Ret tt,
          with_trace
            (trace w1 ++ [StSuccess [Lit "Finetuning is complete! Go forth and conquer!"]])
            w1)
    else Finetune.poll n job key
           (with_trace (trace w1 ++ [waiting_event (status_of m); Sleep 10]) w1).
Proof.
  intros Hn Hp Hb. cbn [Finetune.poll].
  unfold bind at 1. rewrite finetune_progress_unfold, resolve_given.
  fold (finetune_get job key).
  rewrite (fetch_answer _ _ _ _ _ Hn Hp Hb).
  unfold bind at 1, py_get, ret. fold (status_of m). cbv zeta.
  destruct (py_eq_str (status_of m) "Ready"); [reflexivity|].
  unfold bind at 1, st_info, emit. unfold bind at 1, time_sleep, emit.
  cbn [trace with_trace]. rewrite <- app_assoc. reflexivity.
Qed.

Lemma status_of_lookup m v : m !! "status" = Some v -> status_of m = v.
Proof. unfold status_of. intros ->. reflexivity. Qed.

Lemma progress_of_lookup m v : m !! "progress" = Some v -> progress_of m = v.
Proof. unfold progress_of. intros ->. reflexivity. Qed.

Lemma closing_event_failure s :
  s ∈ terminal_failures ->
  exists msg, closing_event s = Some (StError msg) /\ String.eqb s "Ready" = false.
Proof.
  unfold terminal_failures. intros H.
  repeat (apply elem_of_cons in H as [->|H]; [eexists; split; reflexivity|]).
  apply elem_of_nil in H. destruct H.
Qed.

(** The four failures are told apart by what is shown. *)
Lemma closing_event_distinct s t :
  s ∈ terminal_failures -> t ∈ terminal_failures ->
  closing_event s = closing_event t -> s = t.
Proof.
  unfold terminal_failures. intros Hs Ht.
  repeat (apply elem_of_cons in Hs as [->|Hs]);
    try (apply elem_of_nil in Hs; destruct Hs);
    repeat (apply elem_of_cons in Ht as [->|Ht]);
    try (apply elem_of_nil in Ht; destruct Ht);
    try reflexivity; vm_compute; intros H; discriminate H.
Qed.

(** The loop of [check_inference] ends on each of the four failures: the
    answer is returned, the failure's own message shown, no further request
    made and no further answer consumed. *)
Lemma check_inference_stops_on_failure s n job key w r rest m :
  s ∈ terminal_failures ->
  network w = r :: rest -> passes r = true -> body r = Some (JObj m) ->
  m !! "status" = Some (JStr s) ->
  exists shown,
    closing_event s = Some shown
    /\ Generate.check_inference (S n) job key w =
       (Ret (JObj m),
        with_network rest
          (with_trace
             (trace w ++ [StProgressNew (JInt 0); inference_get job key; shown]) w)).
Proof.
  intros Hs Hn Hp Hb Hm.
  destruct (closing_event_failure s Hs) as (msg & Hc & _).
  exists (StError msg). split; [exact Hc|].
  unfold Generate.check_inference, bind at 1, emit.
  rewrite (check_inference_loop_step n job key _ r rest m); [|exact Hn|exact Hp|exact Hb].
  rewrite (status_of_lookup m _ Hm). cbn [closing]. rewrite Hc.
  cbv zeta. cbn [trace with_trace with_network]. rewrite <- !app_assoc.
  destruct w; reflexivity.
Qed.

(** The loop of finetune.py goes on after each of the four failures. *)
Lemma finetune_poll_goes_on_after_failure s n job key w r rest m :
  s ∈ terminal_failures ->
  network w = r :: rest -> passes r = true -> body r = Some (JObj m) ->
  m !! "status" = Some (JStr s) ->
  Finetune.poll (S n) job key w =
    Finetune.poll n job key
      (with_network rest
         (with_trace
            (trace w ++ [finetune_get job key; waiting_event (JStr s); Sleep 10]) w)).
Proof.
  intros Hs Hn Hp Hb Hm.
  destruct (closing_event_failure s Hs) as (msg & _ & Hr).
  rewrite (finetune_poll_step n job key w r rest m Hn Hp Hb).
  rewrite (status_of_lookup m _ Hm). cbn [py_eq_str]. rewrite Hr.
  cbv zeta. cbn [trace with_trace with_network]. rewrite <- !app_assoc.
  destruct w; reflexivity.
Qed.

(** However long the service repeats a failure, the loop of finetune.py
    asks again each time. *)
Lemma finetune_poll_never_gives_up s n job key w rest :
  s ∈ terminal_failures ->
  network w = (stuck_on s n ++ rest)%list ->
  fst (Finetune.poll n job key w) = OutOfFuel
  /\ network (snd (Finetune.poll n job key w)) = rest
  /\ length (List.filter is_get (trace (snd (Finetune.poll n job key w))))
     = (length (List.filter is_get (trace w)) + n)%nat.
Proof.
  intros Hs. revert w. induction n as [|n IH]; intros w Hn.
  - cbn [Finetune.poll]. unfold out_of_fuel. cbn [fst snd].
    rewrite Hn, Nat.add_0_r. repeat split.
  - cbn [stuck_on repeat] in Hn. fold (stuck_on s n) in Hn. cbn [app] in Hn.
    rewrite (finetune_poll_goes_on_after_failure s n job key w _ _
               (list_to_map [("status", JStr s)]) Hs Hn);
      [|reflexivity|reflexivity|reflexivity].
    match goal with |- context [Finetune.poll n job key ?w'] =>
      destruct (IH w' eq_refl) as (H1 & H2 & H3) end.
    repeat split; [exact H1|exact H2|].
    rewrite H3. cbn [trace with_trace with_network].
    rewrite List.filter_app, length_app. cbn. lia.
Qed.

(** C1 fails on finetune.py: with the service answering [Error] three
    times, the loop of [check_inference] returns on the first answer with the
    message of that failure and leaves the two others unread, while the loop
    of finetune.py reads all three, each time showing the status, waiting ten
    seconds and asking again. *)
Theorem C1_finetune_loop_polls_on_after_Error :
  Generate.check_inference 3 (JStr "inf-456") (Some "key")
      (world_with (stuck_on "Error" 3))
    = (Ret (JObj {["status" := JStr "Error"]}),
       with_trace
         [StProgressNew (JInt 0);
          inference_get (JStr "inf-456") (Some "key");
          StError [Lit "An error occurred while generating the image. Check the logs or try again."]]
         (world_with (stuck_on "Error" 2)))
  /\ Finetune.poll 3 (JStr "ft-123") "key" (world_with (stuck_on "Error" 3))
    = (OutOfFuel,
       with_trace
         [finetune_get (JStr "ft-123") "key"; waiting_event (JStr "Error"); Sleep 10;
          finetune_get (JStr "ft-123") "key"; waiting_event (JStr "Error"); Sleep 10;
          finetune_get (JStr "ft-123") "key"; waiting_event (JStr "Error"); Sleep 10]
         (world_with [])).
Proof. split; vm_compute; reflexivity. Qed.

Lemma progress_events_info status p :
  length (List.filter is_info (progress_events status p)) = 1%nat
  /\ List.filter is_get (progress_events status p) = [].
Proof.
  unfold progress_events.
  destruct (is_int_or_float p && between_0_and_1 p); split; reflexivity.
Qed.

(** C5, as the code has it: on the answers Pending, Pending, Ready both
    loops make three status requests and no more, show the state of the job
    exactly twice, once after each of the first two answers, pause after
    each, and come back on the third.  The loop of [check_inference] returns
    that third answer; the loop of finetune.py shows that the job is complete
    and ends without returning anything.  The answers that follow are left
    unread. *)
Theorem C5_pending_pending_ready
    (n : nat) (job : json) (key : string) (w : World)
    (r1 r2 r3 : http_response) (rest : list http_response)
    (m1 m2 m3 : gmap string json) :
  network w = r1 :: r2 :: r3 :: rest ->
  answers r1 m1 "Pending" -> answers r2 m2 "Pending" -> answers r3 m3 "Ready" ->
  let get := inference_get job (Some key) in
  let shown :=
    ([StProgressNew (JInt 0); get]
     ++ progress_events (JStr "Pending") (progress_of m1) ++ [Sleep 3; get]
     ++ progress_events (JStr "Pending") (progress_of m2) ++ [Sleep 3; get;
        StSuccess [Lit "Inference complete!"]])%list in
  (Generate.check_inference (3 + n) job (Some key) w
     = (Ret (JObj m3), with_network rest (with_trace (trace w ++ shown) w))
   /\ length (List.filter is_info shown) = 2%nat
   /\ length (List.filter is_get shown) = 3%nat)
  /\ (let polled :=
        [finetune_get job key; waiting_event (JStr "Pending"); Sleep 10;
         finetune_get job key; waiting_event (JStr "Pending"); Sleep 10;
         finetune_get job key;
         StSuccess [Lit "Finetuning is complete! Go forth and conquer!"]] in
      Finetune.poll (3 + n) job key w
        = (Ret tt, with_network rest (with_trace (trace w ++ polled) w))
      /\ length (List.filter is_info polled) = 2%nat
      /\ length (List.filter is_get polled) = 3%nat).
Proof.
  intros Hn (Hp1 & Hb1 & Hs1) (Hp2 & Hb2 & Hs2) (Hp3 & Hb3 & Hs3) get shown.
  split; [split; [|split]|cbv zeta; split; [|split; reflexivity]].
  - unfold Generate.check_inference, bind at 1, emit.
    change (3 + n)%nat with (S (S (S n))).
    rewrite (check_inference_loop_step _ job (Some key) _ r1 (r2 :: r3 :: rest) m1);
      [|exact Hn|exact Hp1|exact Hb1].
    rewrite (status_of_lookup m1 _ Hs1). cbn [closing]. cbv zeta.
    change (closing_event "Pending") with (@None event). cbv iota.
    rewrite (check_inference_loop_step _ job (Some key) _ r2 (r3 :: rest) m2);
      [|reflexivity|exact Hp2|exact Hb2].
    rewrite (status_of_lookup m2 _ Hs2). cbn [closing]. cbv zeta.
    change (closing_event "Pending") with (@None event). cbv iota.
    rewrite (check_inference_loop_step _ job (Some key) _ r3 rest m3);
      [|reflexivity|exact Hp3|exact Hb3].
    rewrite (status_of_lookup m3 _ Hs3). cbn [closing]. cbv zeta.
    change (closing_event "Ready") with (Some (StSuccess [Lit "Inference complete!"])).
    cbv iota. cbn [trace with_trace with_network].
    f_equal. unfold shown, get. rewrite <- !app_assoc. cbn [app].
    destruct w; reflexivity.
  - unfold shown. rewrite !List.filter_app, !length_app.
    rewrite (proj1 (progress_events_info _ _)), (proj1 (progress_events_info _ _)).
    reflexivity.
  - unfold shown. rewrite !List.filter_app, !length_app.
    rewrite (proj2 (progress_events_info _ _)), (proj2 (progress_events_info _ _)).
    reflexivity.
  - change (3 + n)%nat with (S (S (S n))).
    rewrite (finetune_poll_step _ job key _ r1 (r2 :: r3 :: rest) m1 Hn Hp1 Hb1).
    rewrite (status_of_lookup m1 _ Hs1). cbv zeta.
    change (py_eq_str (JStr "Pending") "Ready") with false. cbv iota.
    rewrite (finetune_poll_step _ job key _ r2 (r3 :: rest) m2);
      [|reflexivity|exact Hp2|exact Hb2].
    rewrite (status_of_lookup m2 _ Hs2). cbv zeta.
    change (py_eq_str (JStr "Pending") "Ready") with false. cbv iota.
    rewrite (finetune_poll_step _ job key _ r3 rest m3);
      [|reflexivity|exact Hp3|exact Hb3].
    rewrite (status_of_lookup m3 _ Hs3). cbv zeta.
    change (py_eq_str (JStr "Ready") "Ready") with true. cbv iota.
    cbn [trace with_trace with_network]. rewrite <- !app_assoc. cbn [app].
    destruct w; reflexivity.
Qed.

Lemma C5_pending_pending_ready_witness :
  fst (Generate.check_inference 3 (JStr "inf-456") (Some "key") (world_with scenario))
    = Ret (JObj (ready_with out_jpg))
  /\ network (snd (Generate.check_inference 3 (JStr "inf-456") (Some "key")
                     (world_with scenario))) = []
  /\ Finetune.poll 3 (JStr "ft-123") "key" (world_with scenario)
     = (Ret tt,
        with_trace
          [finetune_get (JStr "ft-123") "key"; waiting_event (JStr "Pending"); Sleep 10;
           finetune_get (JStr "ft-123") "key"; waiting_event (JStr "Pending"); Sleep 10;
           finetune_get (JStr "ft-123") "key";
           StSuccess [Lit "Finetuning is complete! Go forth and conquer!"]]
          (world_with [])).
Proof.
  assert (Hp : forall p, answers {| status_code := 200; body := Some (JObj (pending_at p)) |}
                            (pending_at p) "Pending")
    by (intros p; repeat split).
  assert (Hr : answers {| status_code := 200; body := Some (JObj (ready_with out_jpg)) |}
                 (ready_with out_jpg) "Ready")
    by (repeat split).
  destruct (C5_pending_pending_ready 0 (JStr "inf-456") "key" (world_with scenario)
              _ _ _ [] _ _ _ eq_refl (Hp (1 # 5)) (Hp (4 # 5)) Hr) as [(H1 & _ & _) _].
  destruct (C5_pending_pending_ready 0 (JStr "ft-123") "key" (world_with scenario)
              _ _ _ [] _ _ _ eq_refl (Hp (1 # 5)) (Hp (4 # 5)) Hr) as [_ [H2 _]].
  cbn [Nat.add] in H1, H2. rewrite H1, H2. repeat split.
Defined.

(** C5 fails as stated on finetune.py: on Pending, Pending, Ready the loop
    of [check_inference] returns the Ready answer, while the loop of
    finetune.py, on the same answers, returns nothing: the answer is dropped
    where the loop is left. *)
Lemma C5_finetune_loop_returns_no_status :
  fst (Generate.check_inference 3 (JStr "inf-456") (Some "key") (world_with scenario))
    = Ret (JObj (ready_with out_jpg))
  /\ fst (Finetune.poll 3 (JStr "ft-123") "key" (world_with scenario)) = Ret tt.
Proof. split; vm_compute; reflexivity. Qed.

(** ** Progress that cannot be displayed *)

Lemma progress_events_without_progress (m : gmap string json) status :
  no_progress (m !! "progress") ->
  progress_events status (progress_of m)
    = [StInfo [Lit "Current status: "; Str status; Lit ". Checking again in 3s..."]].
Proof.
  unfold progress_of, progress_events. intros H.
  inversion H as [E|E|s E|l E|o E|z Hz E|q Hq E|b E|E]; cbn; try reflexivity.
  - replace ((0 <=? z) && (z <=? 1)) with false; [reflexivity|].
    symmetry. apply andb_false_iff.
    destruct Hz; [left|right]; apply Z.leb_gt; assumption.
  - replace (Qle_bool 0 q && Qle_bool q 1) with false; [reflexivity|].
    symmetry. apply andb_false_iff.
    destruct Hq as [Hq|Hq]; [left|right];
      apply not_true_is_false; intros Hle; apply Qle_bool_iff in Hle;
      exact (Qlt_not_le _ _ Hq Hle).
Qed.

(** Where the loop does what C9 says: when the answer carries a status
    other than the five that end the loop and its [progress] is absent,
    null, neither a number nor a boolean, or a number outside [0, 1], the
    loop of [check_inference] raises nothing, leaves the progress bar alone,
    shows the status as received, sleeps three seconds and goes round
    again. *)
Theorem C9_status_shown_without_progress
    (n : nat) (job : json) (key : option string) (w : World)
    (r : http_response) (rest : list http_response) (m : gmap string json) :
  network w = r :: rest -> passes r = true -> body r = Some (JObj m) ->
  closing (status_of m) = None ->
  no_progress (m !! "progress") ->
  Generate.check_inference_loop (S n) job key w =
    Generate.check_inference_loop n job key
      (with_network rest
         (with_trace
            (trace w ++
             [inference_get job key;
              StInfo [Lit "Current status: "; Str (status_of m);
                      Lit ". Checking again in 3s..."];
              Sleep 3])
            w)).
Proof.
  intros Hn Hp Hb Hs Hprog.
  rewrite (check_inference_loop_step n job key w r rest m Hn Hp Hb).
  rewrite Hs, (progress_events_without_progress m _ Hprog).
  cbv zeta. cbn [trace with_trace with_network]. rewrite <- !app_assoc. cbn [app].
  destruct w; reflexivity.
Qed.

Lemma C9_status_shown_without_progress_witness :
  Generate.check_inference_loop 2 (JStr "inf-456") (Some "key")
    (world_with [answer 200 [("status", JStr "Queued"); ("progress", JInt 7)];
                 answer 200 [("status", JStr "Ready")]])
  = (Ret (JObj {["status" := JStr "Ready"]}),
     with_trace
       [inference_get (JStr "inf-456") (Some "key");
        StInfo [Lit "Current status: "; Str (JStr "Queued");
                Lit ". Checking again in 3s..."];
        Sleep 3;
        inference_get (JStr "inf-456") (Some "key");
        StSuccess [Lit "Inference complete!"]]
       (world_with [])).
Proof.
  rewrite (C9_status_shown_without_progress 1 (JStr "inf-456") (Some "key")
             (world_with [answer 200 [("status", JStr "Queued"); ("progress", JInt 7)];
                          answer 200 [("status", JStr "Ready")]])
             (answer 200 [("status", JStr "Queued"); ("progress", JInt 7)])
             [answer 200 [("status", JStr "Ready")]]
             (list_to_map [("status", JStr "Queued"); ("progress", JInt 7)])
             eq_refl eq_refl eq_refl eq_refl).
  - vm_compute. reflexivity.
  - change (no_progress (Some (JInt 7))). apply progress_int. right. lia.
Defined.

(** C9 fails on generate.py for a boolean [progress]: the comments of the
    loop keep the progress bar for a float between 0 and 1 and show the
    status when no numeric progress is there, but the test
    [isinstance(progress_value, (int, float))] lets [True] and [False]
    through, [bool] being a subclass of [int]: on a Pending answer whose
    progress is [true] the loop hands [True] to the progress bar and reports
    a percentage instead of the status. *)
Lemma C9_boolean_progress_is_displayed :
  Generate.check_inference_loop 1 (JStr "inf-456") (Some "key")
    (world_with [answer 200 [("status", JStr "Pending"); ("progress", JBool true)]])
  = (OutOfFuel,
     with_trace
       [inference_get (JStr "inf-456") (Some "key");
        StProgressSet (JBool true);
        StInfo [Lit "Inference in progress: "; Pct (JBool true); Lit "%"];
        Sleep 3]
       (world_with [])).
Proof. vm_compute. reflexivity. Qed.

(** ** An answer without the identifier *)

Lemma form_mode_listed ui key :
  Finetune.mode (Finetune.form_args ui key) ∈ Finetune.modes.
Proof.
  unfold Finetune.form_args, Finetune.modes. cbn [Finetune.mode].
  destruct (Finetune.mode_box ui); cbn [Finetune.mode_value];
    apply list_elem_of_In; cbn; tauto.
Qed.

(** C2, as the code has it: when the service answers a submission with a
    2xx response whose body is an object without the identifier, the
    submitting function returns that body and raises nothing; the fine-tune
    page then shows a warning and the inference page an error message, and
    both return without touching the registry and without asking for any
    status. *)
Theorem C2_answer_without_identifier
    (json_loads : string -> option json) (fuel : nat) (key : string) (w : World)
    (r : http_response) (rest : list http_response) (m : gmap string json) :
  network w = r :: rest -> is_2xx r = true -> body r = Some (JObj m) ->
  (forall ui zip,
     files w !! Finetune.temp_zip_path = Some zip ->
     m !! "finetune_id" = None ->
     let post := HttpPost Finetune.finetune_url (Some key)
                   (Finetune.build_payload (Finetune.form_args ui key) (b64encode zip)) in
     Finetune.request_finetuning (Finetune.form_args ui key) w
       = (Ret (JObj m), with_network rest (with_trace (trace w ++ [post]) w))
     /\ Finetune.submit_and_poll fuel ui key w
       = (Ret tt,
          with_network rest
            (with_trace
               (trace w ++
                [post;
                 StSuccess [Lit "Finetuning request submitted successfully!"];
                 StJson (JObj m);
                 StWarning [Lit "No finetune ID found in response. Can't check progress."]])
               w)))
  /\ (forall ui job seed_int,
      m !! "id" = None ->
      let post := HttpPost Generate.generate_url (Some key)
                    (Generate.build_payload (Generate.form_args ui key job seed_int)) in
      Generate.generate_image (Generate.form_args ui key job seed_int) w
        = (Ret (JObj m), with_network rest (with_trace (trace w ++ [post]) w))
      /\ Generate.submit_and_show json_loads fuel ui key job seed_int w
        = (Ret tt,
           with_network rest
             (with_trace
                (trace w ++
                 [StWrite [Lit "Submitting generation request..."];
                  post;
                  StError [Lit "No inference_id returned from the server. Check logs or try again."]])
                w))).
Proof.
  intros Hn H2 Hb. apply is_2xx_passes in H2 as Hp. split.
  - intros ui zip Hz Hm post.
    assert (Hsend : Finetune.request_finetuning (Finetune.form_args ui key) w
                    = (Ret (JObj m), with_network rest (with_trace (trace w ++ [post]) w))).
    { rewrite (request_finetuning_sends _ key zip w);
        [|reflexivity|exact Hz|apply form_mode_listed].
      apply (fetch_answer _ _ _ _ _ Hn Hp Hb). }
    split; [exact Hsend|].
    unfold Finetune.submit_and_poll, try_except, bind at 1. rewrite Hsend.
    unfold py_get. rewrite Hm. run_page. cbn [from_option truthy negb].
    flatten_trace. destruct w; reflexivity.
  - intros ui job seed_int Hm post.
    assert (Hsend : forall w', network w' = r :: rest ->
              Generate.generate_image (Generate.form_args ui key job seed_int) w'
              = (Ret (JObj m), with_network rest (with_trace (trace w' ++ [post]) w'))).
    { intros w' Hn'. rewrite generate_image_unfold.
      apply (fetch_answer _ _ _ _ _ Hn' Hp Hb). }
    split; [apply Hsend; exact Hn|].
    unfold Generate.submit_and_show, bind at 1, st_write, emit.
    unfold try_except, bind at 1. rewrite Hsend by exact Hn.
    unfold py_get. rewrite Hm. run_page. cbn [from_option truthy negb].
    flatten_trace. destruct w; reflexivity.
Qed.

Lemma C2_answer_without_identifier_witness :
  Generate.submit_and_show MiniJson.json_loads 5 (generate_form (Some "key")) "key"
    (JStr "ft-123") None (world_with [answer 200 [("status", JStr "ok")]])
  = (Ret tt,
     with_trace
       [StWrite [Lit "Submitting generation request..."];
        HttpPost Generate.generate_url (Some "key")
          (Generate.build_payload
             (Generate.form_args (generate_form (Some "key")) "key" (JStr "ft-123") None));
        StError [Lit "No inference_id returned from the server. Check logs or try again."]]
       (world_with []))
  /\ Finetune.submit_and_poll 5 (finetune_form (Some "key")) "key"
       (with_files {[Finetune.temp_zip_path := list_byte_of_string "PK"]}
          (world_with [answer 200 [("status", JStr "ok")]]))
  = (Ret tt,
     with_trace
       [HttpPost Finetune.finetune_url (Some "key")
          (Finetune.build_payload
             (Finetune.form_args (finetune_form (Some "key")) "key") "UEs=");
        StSuccess [Lit "Finetuning request submitted successfully!"];
        StJson (JObj {["status" := JStr "ok"]});
        StWarning [Lit "No finetune ID found in response. Can't check progress."]]
       (with_files {[Finetune.temp_zip_path := list_byte_of_string "PK"]}
          (world_with []))).
Proof.
  split.
  - destruct (C2_answer_without_identifier MiniJson.json_loads 5 "key"
                (world_with [answer 200 [("status", JStr "ok")]])
                (answer 200 [("status", JStr "ok")]) []
                (list_to_map [("status", JStr "ok")]) eq_refl eq_refl eq_refl)
      as [_ H].
    destruct (H (generate_form (Some "key")) (JStr "ft-123") None eq_refl) as [_ H'].
    rewrite H'. vm_compute. reflexivity.
  - destruct (C2_answer_without_identifier MiniJson.json_loads 5 "key"
                (with_files {[Finetune.temp_zip_path := list_byte_of_string "PK"]}
                   (world_with [answer 200 [("status", JStr "ok")]]))
                (answer 200 [("status", JStr "ok")]) []
                (list_to_map [("status", JStr "ok")]) eq_refl eq_refl eq_refl)
      as [H _].
    destruct (H (finetune_form (Some "key")) (list_byte_of_string "PK") eq_refl eq_refl)
      as [_ H'].
    rewrite H'. vm_compute. reflexivity.
Defined.

(** C2 fails as stated: the service answers 200 with an empty object;
    [request_finetuning] returns it as it is, and the page ends its run
    normally after a warning. *)
Lemma C2_empty_answer_is_no_error :
  Finetune.request_finetuning
      (Finetune.with_api_key (Some "key") (Finetune.default_args "data.zip" "cat-v1"))
      (world_with [answer 200 []])
    = (Ret (JObj ∅),
       with_trace
         [HttpPost Finetune.finetune_url (Some "key")
            (Finetune.build_payload
               (Finetune.with_api_key (Some "key")
                  (Finetune.default_args "data.zip" "cat-v1")) "UEs=")]
         (world_with []))
  /\ Finetune.main 5 (finetune_form (Some "key")) (world_with [answer 200 []])
    = (Ret tt,
       with_trace
         [StTitle "BFL Finetune App";
          StWrite [Lit "Fine-tuning is fun... until it isn't. Let's do it anyway."];
          HttpPost Finetune.finetune_url (Some "key")
            (Finetune.build_payload
               (Finetune.form_args (finetune_form (Some "key")) "key") "UEs=");
          StSuccess [Lit "Finetuning request submitted successfully!"];
          StJson (JObj ∅);
          StWarning [Lit "No finetune ID found in response. Can't check progress."]]
         (with_files
            (<[Finetune.temp_zip_path := list_byte_of_string "PK"]>
               {["data.zip" := list_byte_of_string "PK"]})
            (world_with []))).
Proof. split; vm_compute; reflexivity. Qed.

(** ** The registry *)

Lemma put_merges state name remote_id w :
  registry_file w = registry_of state ->
  put name remote_id w
    = (Ret tt,
       with_registry (registry_of (Some (<[name := remote_id]> (mapping_of state)))) w).
Proof.
  intros Hr.
  unfold put, Finetune.store_finetune_id, bind, registry_exists, json_load_registry.
  cbv beta. rewrite Hr.
  destruct state as [m|]; cbn in Hr |- *; rewrite ?Hr; reflexivity.
Qed.

Lemma get_all_reads state w :
  registry_file w = registry_of state ->
  get_all w = (Ret (JObj (mapping_of state)), w).
Proof.
  intros Hr.
  unfold get_all, Generate.read_finetunes, bind, registry_exists, json_load_registry.
  cbv beta. rewrite Hr.
  destruct state as [m|]; cbn in Hr |- *; rewrite ?Hr; reflexivity.
Qed.

(** C7: from any registry state, absent file included, and for two
    distinct names [a] and [b]: after [put a id1] and [put b id2], [get_all]
    maps [a] to [id1] and [b] to [id2]; after a further [put a id3] it maps
    [a] to [id3], [b] still to [id2], and every other name to what it had
    at the start. *)
Theorem C7_registry_overwrite_keeps_the_others
    (state : option (gmap string json)) (a b : string) (id1 id2 id3 : json)
    (w : World) :
  a <> b ->
  registry_file w = registry_of state ->
  (exists m w',
     (put a id1 ;; put b id2 ;; get_all) w = (Ret (JObj m), w')
     /\ m !! a = Some id1 /\ m !! b = Some id2)
  /\ (exists m w',
      (put a id1 ;; put b id2 ;; put a id3 ;; get_all) w = (Ret (JObj m), w')
      /\ m !! a = Some id3 /\ m !! b = Some id2
      /\ (forall c, c <> a -> c <> b -> m !! c = mapping_of state !! c)
      /\ registry_file w' = registry_of (Some m)).
Proof.
  intros Hab Hr.
  set (m1 := <[a := id1]> (mapping_of state)).
  set (m2 := <[b := id2]> m1).
  set (m3 := <[a := id3]> m2).
  assert (H1 : put a id1 w = (Ret tt, with_registry (registry_of (Some m1)) w))
    by (apply put_merges; exact Hr).
  assert (H2 : forall w1, registry_file w1 = registry_of (Some m1) ->
                 put b id2 w1 = (Ret tt, with_registry (registry_of (Some m2)) w1))
    by (intros w1 Hw1; apply (put_merges (Some m1)); exact Hw1).
  assert (H3 : forall w2, registry_file w2 = registry_of (Some m2) ->
                 put a id3 w2 = (Ret tt, with_registry (registry_of (Some m3)) w2))
    by (intros w2 Hw2; apply (put_merges (Some m2)); exact Hw2).
  split.
  - exists m2. eexists. split; [|split].
    + unfold bind at 1. rewrite H1. unfold bind at 1. rewrite H2 by reflexivity.
      apply (get_all_reads (Some m2)). reflexivity.
    + unfold m2, m1. rewrite lookup_insert_ne by congruence. apply lookup_insert_eq.
    + apply lookup_insert_eq.
  - exists m3. eexists. split; [|split; [|split; [|split]]].
    + unfold bind at 1. rewrite H1. unfold bind at 1. rewrite H2 by reflexivity.
      unfold bind at 1. rewrite H3 by reflexivity.
      apply (get_all_reads (Some m3)). reflexivity.
    + apply lookup_insert_eq.
    + unfold m3, m2. rewrite lookup_insert_ne by exact Hab. apply lookup_insert_eq.
    + intros c Hca Hcb. unfold m3, m2, m1.
      rewrite !lookup_insert_ne by congruence. reflexivity.
    + reflexivity.
Qed.

Lemma C7_registry_overwrite_keeps_the_others_witness :
  exists m w',
    (put "a" (JStr "id1") ;; put "b" (JStr "id2") ;; put "a" (JStr "id3") ;; get_all)
      (world_with []) = (Ret (JObj m), w')
    /\ m !! "a" = Some (JStr "id3") /\ m !! "b" = Some (JStr "id2").
Proof.
  destruct (C7_registry_overwrite_keeps_the_others None "a" "b"
              (JStr "id1") (JStr "id2") (JStr "id3") (world_with []))
    as [_ (m & w' & H & Ha & Hb & _)].
  - discriminate.
  - reflexivity.
  - exists m, w'. split; [exact H|split; [exact Ha|exact Hb]].
Defined.

(** ** The result, as text or as an object *)

Lemma show_result_object json_loads (d o : gmap string json) w :
  d !! "result" = Some (JObj o) ->
  Generate.show_result json_loads (JObj d) w = Generate.show_sample (JObj o) w.
Proof.
  intros Hd. unfold Generate.show_result, bind at 1, py_get_default.
  rewrite Hd. reflexivity.
Qed.

Lemma show_result_text json_loads (d : gmap string json) s decoded w :
  d !! "result" = Some (JStr s) -> json_loads s = Some decoded ->
  Generate.show_result json_loads (JObj d) w = Generate.show_sample decoded w.
Proof.
  intros Hd Hs. unfold Generate.show_result, bind at 1, py_get_default.
  rewrite Hd. cbn [from_option]. unfold id, ret. rewrite Hs. reflexivity.
Qed.

Lemma show_sample_image (o : gmap string json) url w :
  o !! "sample" = Some url -> truthy url = true ->
  Generate.show_sample (JObj o) w
    = (Ret tt, with_trace (trace w ++ [StImage url "Your Generated Image"]) w).
Proof.
  intros Ho Hu. unfold Generate.show_sample, bind at 1, py_get.
  rewrite Ho. cbn [from_option]. unfold id, ret. rewrite Hu. reflexivity.
Qed.

(** C6: a final answer whose [result] is a text that decodes to an object
    and a final answer whose [result] is that object itself are read alike,
    whatever the world; when the object has a [sample] that is not empty,
    both show the image at exactly that reference. *)
Theorem C6_result_as_text_or_object
    (json_loads : string -> option json) (s : string)
    (o d_text d_object : gmap string json) (w : World) :
  json_loads s = Some (JObj o) ->
  d_text !! "result" = Some (JStr s) ->
  d_object !! "result" = Some (JObj o) ->
  Generate.show_result json_loads (JObj d_text) w
    = Generate.show_result json_loads (JObj d_object) w
  /\ (forall url, o !! "sample" = Some url -> truthy url = true ->
      Generate.show_result json_loads (JObj d_text) w
        = (Ret tt, with_trace (trace w ++ [StImage url "Your Generated Image"]) w)).
Proof.
  intros Hs Ht Ho.
  rewrite (show_result_text json_loads d_text s (JObj o) w Ht Hs).
  rewrite (show_result_object json_loads d_object o w Ho).
  split; [reflexivity|].
  intros url Hu Htr. apply show_sample_image; assumption.
Qed.

Lemma C6_result_as_text_or_object_witness :
  Generate.show_result MiniJson.json_loads
      (JObj (ready_with (JStr (MiniJson.object_text "sample" "https://x/img.png"))))
      (world_with [])
    = (Ret tt,
       with_trace [StImage (JStr "https://x/img.png") "Your Generated Image"]
         (world_with []))
  /\ Generate.show_result MiniJson.json_loads
      (JObj (ready_with (JObj {["sample" := JStr "https://x/img.png"]})))
      (world_with [])
    = (Ret tt,
       with_trace [StImage (JStr "https://x/img.png") "Your Generated Image"]
         (world_with [])).
Proof.
  destruct (C6_result_as_text_or_object MiniJson.json_loads
              (MiniJson.object_text "sample" "https://x/img.png")
              {["sample" := JStr "https://x/img.png"]}
              (ready_with (JStr (MiniJson.object_text "sample" "https://x/img.png")))
              (ready_with (JObj {["sample" := JStr "https://x/img.png"]}))
              (world_with []))
    as [Hsame Himage].
  - vm_compute. reflexivity.
  - reflexivity.
  - reflexivity.
  - rewrite <- Hsame.
    rewrite (Himage (JStr "https://x/img.png") eq_refl eq_refl).
    split; reflexivity.
Defined.

(** ** The end-to-end scenario of the specification *)

Example cat_v1_end_to_end :
  exists w1 w2,
    Finetune.main 1 (finetune_form (Some "key"))
      (world_with [answer 200 [("finetune_id", JStr "ft-123")];
                   answer 200 [("status", JStr "Ready")]]) = (Ret tt, w1)
    /\ registry_file w1 = registry_of (Some {["cat-v1" := JStr "ft-123"]})
    /\ Generate.main MiniJson.json_loads 3 (generate_form (Some "key"))
         (with_network (answer 200 [("id", JStr "inf-456")] :: scenario) w1)
       = (Ret tt, w2)
    /\ network w2 = []
    /\ last (trace w2) = Some (StImage (JStr "https://x/out.jpg") "Your Generated Image")
    /\ List.filter is_post (trace w2)
       = [HttpPost Finetune.finetune_url (Some "key")
            (Finetune.build_payload (Finetune.form_args (finetune_form (Some "key")) "key")
               "UEs=");
          HttpPost Generate.generate_url (Some "key")
            (Generate.build_payload
               (Generate.form_args (generate_form (Some "key")) "key" (JStr "ft-123") None))].
Proof. do 2 eexists. repeat split; vm_compute; reflexivity. Qed.

(** * Further properties *)

(** ** One call of the service *)

Lemma fetch_outcome e w :
  fetch e w = (reply_outcome (network w), after_request e w).
Proof.
  unfold fetch, bind, round_trip, reply_outcome, after_request.
  destruct (network w) as [|r rest] eqn:Hn; cbn [tail];
    [destruct w; cbn in Hn; subst; reflexivity|].
  unfold raise_for_status, passes.
  destruct ((400 <=? status_code r) && (status_code r <? 600)); cbn [negb]; [reflexivity|].
  unfold response_json, ret. destruct (body r); reflexivity.
Qed.

Lemma resolve_available key w k :
  available_key key w = Some k -> Finetune.resolve_api_key key w = (Ret k, w).
Proof.
  unfold available_key. destruct key as [k'|].
  - intros [= ->]. reflexivity.
  - apply resolve_environ.
Qed.

(** ** Submissions *)

(** X1: with a key at hand, [request_finetuning] on a path where there is
    no file raises [FileNotFoundError] for that path and does nothing else,
    whatever the mode and the other arguments. *)
Theorem X1_missing_archive_is_raised_before_any_request
    (a : Finetune.args) (w : World) (k : string) :
  available_key (Finetune.api_key a) w = Some k ->
  files w !! Finetune.zip_path a = None ->
  Finetune.request_finetuning a w
    = (Raise (FileNotFoundError (Finetune.zip_path a)), w).
Proof.
  intros Hk Hz.
  rewrite request_finetuning_unfold, (resolve_available _ _ _ Hk), Hz. reflexivity.
Qed.

Lemma X1_missing_archive_is_raised_before_any_request_witness :
  Finetune.request_finetuning
      (Finetune.with_api_key (Some "key") (Finetune.default_args "nowhere.zip" "cat-v1"))
      submission_world
    = (Raise (FileNotFoundError "nowhere.zip"), submission_world).
Proof.
  apply (X1_missing_archive_is_raised_before_any_request
           (Finetune.with_api_key (Some "key") (Finetune.default_args "nowhere.zip" "cat-v1"))
           submission_world "key"); reflexivity.
Defined.

(** X2: a submission is one POST and is never repeated.  When the service
    answers with a 4xx or 5xx status, [request_finetuning] (its checks passed)
    and [generate_image] raise [HTTPError] with that status, having sent that
    one request and used up that one answer. *)
Theorem X2_refused_submission_is_raised_once
    (a : Finetune.args) (g : Generate.args) (w : World)
    (r : http_response) (rest : list http_response) :
  network w = r :: rest -> passes r = false ->
  (forall k zip,
     available_key (Finetune.api_key a) w = Some k ->
     files w !! Finetune.zip_path a = Some zip ->
     Finetune.mode a ∈ Finetune.modes ->
     Finetune.request_finetuning a w
       = (Raise (HTTPError (status_code r)),
          with_network rest
            (with_trace
               (trace w ++
                [HttpPost Finetune.finetune_url (Some k)
                   (Finetune.build_payload a (b64encode zip))]) w)))
  /\ Generate.generate_image g w
     = (Raise (HTTPError (status_code r)),
        with_network rest
          (with_trace
             (trace w ++
              [HttpPost Generate.generate_url (Generate.api_key g)
                 (Generate.build_payload g)]) w)).
Proof.
  intros Hn Hp. split.
  - intros k zip Hk Hz Hm.
    rewrite (request_finetuning_sends a k zip w (resolve_available _ _ _ Hk) Hz Hm).
    rewrite fetch_outcome. unfold reply_outcome, after_request.
    rewrite Hn, Hp. reflexivity.
  - rewrite generate_image_unfold, fetch_outcome.
    unfold reply_outcome, after_request. rewrite Hn, Hp. reflexivity.
Qed.

Lemma X2_refused_submission_is_raised_once_witness :
  Finetune.request_finetuning keyed_args (world_with [refusal 422; refusal 200])
    = (Raise (HTTPError 422),
       with_trace
         [HttpPost Finetune.finetune_url (Some "key")
            (Finetune.build_payload keyed_args "UEs=")]
         (world_with [refusal 200]))
  /\ Generate.generate_image (Generate.default_args (JStr "ft-123") (Some "key"))
       (world_with [refusal 500; refusal 200])
    = (Raise (HTTPError 500),
       with_trace
         [HttpPost Generate.generate_url (Some "key")
            (Generate.build_payload (Generate.default_args (JStr "ft-123") (Some "key")))]
         (world_with [refusal 200])).
Proof.
  split.
  - destruct (X2_refused_submission_is_raised_once keyed_args
                (Generate.default_args (JStr "ft-123") (Some "key"))
                (world_with [refusal 422; refusal 200]) (refusal 422) [refusal 200]
                eq_refl eq_refl) as [H _].
    rewrite (H "key" (list_byte_of_string "PK") eq_refl eq_refl).
    + reflexivity.
    + vm_compute. apply list_elem_of_In. cbn. tauto.
  - destruct (X2_refused_submission_is_raised_once keyed_args
                (Generate.default_args (JStr "ft-123") (Some "key"))
                (world_with [refusal 500; refusal 200]) (refusal 500) [refusal 200]
                eq_refl eq_refl) as [_ H].
    rewrite H. reflexivity.
Defined.

(** ** The loops, turn by turn *)

Lemma check_inference_loop_unfold n job key w :
  Generate.check_inference_loop (S n) job key w =
    let w1 := after_request (inference_get job key) w in
    match reply_outcome (network w) with
    | Ret (JObj m) =>
        match closing (status_of m) with
        | Some shown => (Ret (JObj m), with_trace (trace w1 ++ [shown]) w1)
        | None =>
            Generate.check_inference_loop n job key
              (with_trace
                 (trace w1 ++ progress_events (status_of m) (progress_of m) ++ [Sleep 3])
                 w1)
        end
    | Ret _ => (Raise AttributeError, w1)
    | Raise e => (Raise e, w1)
    | OutOfFuel => (OutOfFuel, w1)
    end.
Proof.
  unfold reply_outcome, after_request.
  destruct (network w) as [|r rest] eqn:Hn.
  { cbn [Generate.check_inference_loop]. unfold bind at 1, requests_get.
    rewrite (round_trip_silence _ _ Hn). cbn [tail].
    destruct w; cbn in Hn; subst; reflexivity. }
  cbn [tail]. destruct (passes r) eqn:Hp.
  2:{ cbn [Generate.check_inference_loop]. unfold bind at 1, requests_get.
      rewrite (round_trip_answer _ _ _ _ Hn). unfold bind at 1.
      rewrite (raise_for_status_fails _ _ Hp). reflexivity. }
  destruct (body r) as [v|] eqn:Hb.
  2:{ cbn [Generate.check_inference_loop]. unfold bind at 1, requests_get.
      rewrite (round_trip_answer _ _ _ _ Hn). unfold bind at 1.
      rewrite (raise_for_status_passes _ _ Hp). unfold bind at 1, response_json.
      rewrite Hb. reflexivity. }
  destruct v as [| | | | | |m];
    try (cbn [Generate.check_inference_loop]; unfold bind at 1, requests_get;
         rewrite (round_trip_answer _ _ _ _ Hn); unfold bind at 1;
         rewrite (raise_for_status_passes _ _ Hp); unfold bind at 1, response_json;
         rewrite Hb; reflexivity).
  apply (check_inference_loop_step n job key w r rest m Hn Hp Hb).
Qed.

Lemma finetune_poll_unfold n job key w :
  Finetune.poll (S n) job key w =
    let w1 := after_request (finetune_get job key) w in
    match reply_outcome (network w) with
    | Ret (JObj m) =>
        if py_eq_str (status_of m) "Ready"
        then (Ret tt,
              with_trace
                (trace w1 ++ [StSuccess [Lit "Finetuning is complete! Go forth and conquer!"]])
                w1)
        else Finetune.poll n job key
               (with_trace (trace w1 ++ [waiting_event (status_of m); Sleep 10]) w1)
    | Ret _ => (Raise AttributeError, w1)
    | Raise e => (Raise e, w1)
    | OutOfFuel => (OutOfFuel, w1)
    end.
Proof.
  cbn [Finetune.poll]. unfold bind at 1.
  rewrite finetune_progress_unfold, resolve_given. fold (finetune_get job key).
  rewrite fetch_outcome. cbv zeta.
  destruct (reply_outcome (network w)) as [v| |]; [|reflexivity|reflexivity].
  destruct v as [| | | | | |m]; try reflexivity.
  unfold bind at 1, py_get, ret. fold (status_of m).
  destruct (py_eq_str (status_of m) "Ready"); [reflexivity|].
  unfold bind at 1, st_info, emit. unfold bind at 1, time_sleep, emit.
  cbn [trace with_trace]. rewrite <- app_assoc. reflexivity.
Qed.

Lemma reply_outcome_decodes r rest m :
  decodes r m -> reply_outcome (r :: rest) = Ret (JObj m).
Proof. intros [Hp Hb]. unfold reply_outcome. rewrite Hp, Hb. reflexivity. Qed.

Lemma inference_round_counts job key m :
  length (List.filter is_get (inference_round job key m)) = 1%nat
  /\ List.filter is_sleep (inference_round job key m) = [Sleep 3].
Proof.
  unfold inference_round, progress_events.
  destruct (is_int_or_float (progress_of m) && between_0_and_1 (progress_of m));
    split; reflexivity.
Qed.

Lemma closing_shown status shown :
  closing status = Some shown ->
  is_get shown = false /\ is_sleep shown = false /\ is_request shown = false.
Proof.
  destruct status as [| | | |s| |]; try discriminate.
  cbn [closing]. unfold closing_event.
  repeat (destruct (String.eqb s _); [intros [= <-]; repeat split|]).
  discriminate.
Qed.

Lemma check_inference_loop_run
    (job : json) (key : option string)
    (rs : list http_response) (ms : list (gmap string json))
    (r_end : http_response) (m_end : gmap string json) (shown : event)
    (rest : list http_response) (spare : nat) (w : World) :
  Forall2 decodes rs ms ->
  Forall (fun m => closing (status_of m) = None) ms ->
  decodes r_end m_end -> closing (status_of m_end) = Some shown ->
  network w = (rs ++ r_end :: rest)%list ->
  Generate.check_inference_loop (S (length ms) + spare) job key w
    = (Ret (JObj m_end),
       with_network rest
         (with_trace
            (trace w ++ concat (map (inference_round job key) ms)
             ++ [inference_get job key; shown]) w)).
Proof.
  intros Hdec Hopen Hend Hshown Hn.
  revert w Hn Hopen.
  induction Hdec as [|r m rs ms Hrm Hdec IH]; intros w Hn Hopen.
  - cbn [length Nat.add]. rewrite check_inference_loop_unfold.
    cbn [app] in Hn. rewrite Hn, (reply_outcome_decodes _ _ _ Hend), Hshown.
    cbv zeta. unfold after_request. rewrite Hn. cbn [tail map concat app].
    cbn [trace with_trace with_network]. rewrite <- app_assoc.
    destruct w; reflexivity.
  - inversion Hopen as [|? ? Hm Hopen']; subst.
    cbn [length Nat.add]. rewrite check_inference_loop_unfold.
    cbn [app] in Hn. rewrite Hn, (reply_outcome_decodes _ _ _ Hrm), Hm.
    cbv zeta. rewrite IH; [|unfold after_request; rewrite Hn; reflexivity|exact Hopen'].
    unfold after_request. rewrite Hn.
    cbn [tail map concat trace with_trace with_network].
    unfold inference_round at 2. rewrite <- !app_assoc. cbn [app].
    destruct w; reflexivity.
Qed.

(** X3: when the service gives any number of answers that do not end the
    job and then one that does (Ready or one of the four failures), the loop
    of [check_inference], given at least as many turns as there are answers,
    returns that answer.  It has made one request per answer read, has slept
    three seconds after each answer but the last, and has left the answers
    that follow unread. *)
Theorem X3_check_inference_returns_first_closing_answer
    (job : json) (key : option string)
    (rs : list http_response) (ms : list (gmap string json))
    (r_end : http_response) (m_end : gmap string json) (shown : event)
    (rest : list http_response) (spare : nat) (w : World) :
  Forall2 decodes rs ms ->
  Forall (fun m => closing (status_of m) = None) ms ->
  decodes r_end m_end -> closing (status_of m_end) = Some shown ->
  network w = (rs ++ r_end :: rest)%list ->
  let new := (concat (map (inference_round job key) ms)
              ++ [inference_get job key; shown])%list in
  Generate.check_inference_loop (S (length ms) + spare) job key w
    = (Ret (JObj m_end), with_network rest (with_trace (trace w ++ new) w))
  /\ length (List.filter is_get new) = S (length ms)
  /\ List.filter is_sleep new = repeat (Sleep 3) (length ms).
Proof.
  intros Hdec Hopen Hend Hshown Hn new. split; [|split].
  - subst new. apply (check_inference_loop_run job key rs ms r_end); assumption.
  - subst new. destruct (closing_shown _ _ Hshown) as (Hg & _ & _).
    rewrite List.filter_app, length_app. cbn [List.filter is_get inference_get].
    rewrite Hg. cbn [length]. clear.
    induction ms as [|m ms IH]; [reflexivity|].
    cbn [map concat length]. rewrite List.filter_app, length_app.
    rewrite (proj1 (inference_round_counts job key m)). cbn [Nat.add] in *. lia.
  - subst new. destruct (closing_shown _ _ Hshown) as (_ & Hs & _).
    rewrite List.filter_app. cbn [List.filter is_sleep inference_get].
    rewrite Hs, app_nil_r. clear.
    induction ms as [|m ms IH]; [reflexivity|].
    cbn [map concat length repeat]. rewrite List.filter_app, IH.
    rewrite (proj2 (inference_round_counts job key m)). reflexivity.
Qed.

Lemma X3_check_inference_returns_first_closing_answer_witness :
  Generate.check_inference_loop 3 (JStr "inf-456") (Some "key") (world_with scenario)
  = (Ret (JObj (ready_with out_jpg)),
     with_trace
       (inference_round (JStr "inf-456") (Some "key") (pending_at (1 # 5))
        ++ inference_round (JStr "inf-456") (Some "key") (pending_at (4 # 5))
        ++ [inference_get (JStr "inf-456") (Some "key");
            StSuccess [Lit "Inference complete!"]])
       (world_with [])).
Proof.
  destruct (X3_check_inference_returns_first_closing_answer
              (JStr "inf-456") (Some "key")
              [ {| status_code := 200; body := Some (JObj (pending_at (1 # 5))) |};
                {| status_code := 200; body := Some (JObj (pending_at (4 # 5))) |} ]
              [pending_at (1 # 5); pending_at (4 # 5)]
              {| status_code := 200; body := Some (JObj (ready_with out_jpg)) |}
              (ready_with out_jpg) (StSuccess [Lit "Inference complete!"])
              [] 0 (world_with scenario)) as [H _].
  - repeat constructor.
  - repeat constructor.
  - split; reflexivity.
  - reflexivity.
  - reflexivity.
  - cbn [length Nat.add] in H. rewrite H. reflexivity.
Defined.

Lemma py_eq_str_false v s : v <> JStr s -> py_eq_str v s = false.
Proof.
  destruct v as [| | | |t| |]; try reflexivity.
  intros H. cbn [py_eq_str]. apply String.eqb_neq. congruence.
Qed.

Lemma py_eq_str_true s : py_eq_str (JStr s) s = true.
Proof. cbn [py_eq_str]. apply String.eqb_refl. Qed.

(** X4: when the service gives any number of answers whose status is not
    Ready and then one whose status is Ready, the loop of finetune.py, given
    at least as many turns as there are answers, ends.  It has made one
    request per answer read, has shown the status and slept ten seconds
    after each answer but the last, and has left the answers that follow
    unread. *)
Theorem X4_finetune_poll_ends_on_first_Ready
    (job : json) (key : string)
    (rs : list http_response) (ms : list (gmap string json))
    (r_end : http_response) (m_end : gmap string json)
    (rest : list http_response) (spare : nat) (w : World) :
  Forall2 decodes rs ms ->
  Forall (fun m => status_of m <> JStr "Ready") ms ->
  decodes r_end m_end -> status_of m_end = JStr "Ready" ->
  network w = (rs ++ r_end :: rest)%list ->
  Finetune.poll (S (length ms) + spare) job key w
    = (Ret tt,
       with_network rest
         (with_trace
            (trace w ++ concat (map (finetune_round job key) ms)
             ++ [finetune_get job key;
                 StSuccess [Lit "Finetuning is complete! Go forth and conquer!"]])
            w)).
Proof.
  intros Hdec Hopen Hend Hready. revert w Hopen.
  induction Hdec as [|r m rs ms Hrm Hdec IH]; intros w Hopen Hn.
  - cbn [length Nat.add]. rewrite finetune_poll_unfold.
    cbn [app] in Hn. rewrite Hn, (reply_outcome_decodes _ _ _ Hend), Hready.
    rewrite py_eq_str_true. cbv zeta. unfold after_request. rewrite Hn.
    cbn [tail map concat app trace with_trace with_network]. rewrite <- app_assoc.
    destruct w; reflexivity.
  - inversion Hopen as [|? ? Hm Hopen']; subst.
    cbn [length Nat.add]. rewrite finetune_poll_unfold.
    cbn [app] in Hn. rewrite Hn, (reply_outcome_decodes _ _ _ Hrm).
    rewrite (py_eq_str_false _ _ Hm). cbv zeta.
    rewrite IH; [|exact Hopen'|unfold after_request; rewrite Hn; reflexivity].
    unfold after_request. rewrite Hn.
    cbn [tail map concat trace with_trace with_network].
    unfold finetune_round at 2. rewrite <- !app_assoc. cbn [app].
    destruct w; reflexivity.
Qed.

Lemma X4_finetune_poll_ends_on_first_Ready_witness :
  Finetune.poll 3 (JStr "ft-123") "key" (world_with scenario)
  = (Ret tt,
     with_trace
       (finetune_round (JStr "ft-123") "key" (pending_at (1 # 5))
        ++ finetune_round (JStr "ft-123") "key" (pending_at (4 # 5))
        ++ [finetune_get (JStr "ft-123") "key";
            StSuccess [Lit "Finetuning is complete! Go forth and conquer!"]])
       (world_with [])).
Proof.
  pose proof (X4_finetune_poll_ends_on_first_Ready
             (JStr "ft-123") "key"
             [ {| status_code := 200; body := Some (JObj (pending_at (1 # 5))) |};
               {| status_code := 200; body := Some (JObj (pending_at (4 # 5))) |} ]
             [pending_at (1 # 5); pending_at (4 # 5)]
             {| status_code := 200; body := Some (JObj (ready_with out_jpg)) |}
             (ready_with out_jpg) [] 0 (world_with scenario)) as H.
  cbn [length Nat.add] in H. rewrite H.
  - reflexivity.
  - repeat constructor.
  - repeat constructor; discriminate.
  - split; reflexivity.
  - reflexivity.
  - reflexivity.
Defined.

(** ** What the loops keep *)

Lemma polls_only_refl get w : polls_only get w w [] [].
Proof.
  unfold polls_only, same_disk. rewrite app_nil_r. repeat split. constructor.
Qed.

(** One request followed by events that are no requests, then a further run. *)
Lemma polls_only_step get w w2 w' shown consumed new :
  Forall (fun e => is_request e = false) shown ->
  same_disk (after_request get w) w2 ->
  network w2 = tail (network w) ->
  trace w2 = ((trace w ++ [get]) ++ shown)%list ->
  polls_only get w2 w' consumed new ->
  polls_only get w w'
    (match network w with [] => consumed | r :: _ => r :: consumed end)
    (get :: shown ++ new).
Proof.
  intros Hshown (He & Hd & Hf & Hr) Hn2 Ht2 ((He' & Hd' & Hf' & Hr') & Hn' & Ht' & Hall).
  unfold polls_only, same_disk. repeat split.
  - rewrite He', He. reflexivity.
  - rewrite Hd', Hd. reflexivity.
  - rewrite Hf', Hf. reflexivity.
  - rewrite Hr', Hr. reflexivity.
  - rewrite Hn2 in Hn'. destruct (network w) as [|r rest]; cbn [tail] in Hn'.
    + exact Hn'.
    + cbn [app]. rewrite <- Hn'. reflexivity.
  - rewrite Ht', Ht2, <- !app_assoc. reflexivity.
  - constructor; [intros _; reflexivity|].
    apply Forall_app. split; [|exact Hall].
    eapply Forall_impl; [exact Hshown|].
    intros e He0 Hreq. cbv beta in He0. congruence.
Qed.

Lemma progress_events_no_request status p :
  Forall (fun e => is_request e = false) (progress_events status p).
Proof.
  unfold progress_events.
  destruct (is_int_or_float p && between_0_and_1 p); repeat constructor.
Qed.

Lemma reply_outcome_Ret script v :
  reply_outcome script = Ret v ->
  exists r rest, script = r :: rest /\ passes r = true /\ body r = Some v.
Proof.
  unfold reply_outcome. destruct script as [|r rest]; [discriminate|].
  destruct (passes r) eqn:Hp; [|discriminate].
  destruct (body r) as [b|] eqn:Hb; [|discriminate].
  intros [= <-]. eauto.
Qed.

Lemma check_inference_loop_keeps job key fuel : forall w,
  exists consumed new,
    polls_only (inference_get job key) w
      (snd (Generate.check_inference_loop fuel job key w)) consumed new
    /\ (forall data,
          fst (Generate.check_inference_loop fuel job key w) = Ret data ->
          exists m shown before answer earlier,
            data = JObj m /\ closing (status_of m) = Some shown
            /\ consumed = (before ++ [answer])%list /\ decodes answer m
            /\ new = (earlier ++ [shown])%list).
Proof.
  induction fuel as [|n IH]; intros w.
  { exists [], []. split; [apply polls_only_refl|discriminate]. }
  rewrite check_inference_loop_unfold. cbv zeta.
  set (get := inference_get job key).
  assert (Hstop : forall o shown,
            Forall (fun e => is_request e = false) shown ->
            polls_only get w
              (snd (o : outcome json,
                    with_trace (trace (after_request get w) ++ shown) (after_request get w)))
              (match network w with [] => [] | r :: _ => [r] end)
              (get :: shown ++ [])).
  { intros o shown Hs. eapply polls_only_step; [exact Hs| | | |apply polls_only_refl].
    - repeat split.
    - reflexivity.
    - reflexivity. }
  destruct (reply_outcome (network w)) as [v|e|] eqn:Hreply.
  - destruct (reply_outcome_Ret _ _ Hreply) as (r & rest & Hn & Hp & Hb).
    destruct v as [| | | | | |m];
      try (exists [r], [get]; split;
           [specialize (Hstop (Raise AttributeError) [] ltac:(constructor));
            rewrite Hn in Hstop; cbn [app snd] in Hstop;
            replace (with_trace (trace (after_request get w) ++ []) (after_request get w))
              with (after_request get w) in Hstop
              by (rewrite app_nil_r; destruct w; reflexivity);
            exact Hstop
           |discriminate]).
    destruct (closing (status_of m)) as [shown|] eqn:Hc.
    + exists [r], [get; shown]. split.
      * destruct (closing_shown _ _ Hc) as (_ & _ & Hq).
        specialize (Hstop (Ret (JObj m)) [shown]
                      ltac:(repeat constructor; exact Hq)).
        rewrite Hn in Hstop. cbn [app snd] in Hstop |- *. exact Hstop.
      * intros data [= <-]. exists m, shown, [], r, [get].
        repeat split; assumption.
    + set (round := (progress_events (status_of m) (progress_of m) ++ [Sleep 3])%list).
      set (w2 := with_trace (trace (after_request get w) ++ round) (after_request get w)).
      destruct (IH w2) as (consumed & new & Hinv & Hret).
      exists (r :: consumed), (get :: round ++ new). split.
      * assert (Hround : Forall (fun e => is_request e = false) round)
          by (apply Forall_app; split;
              [apply progress_events_no_request|repeat constructor]).
        assert (Hsame : same_disk (after_request get w) w2) by (repeat split).
        pose proof (polls_only_step get w w2
                      (snd (Generate.check_inference_loop n job key w2))
                      round consumed new Hround Hsame eq_refl eq_refl Hinv) as Hstep.
        rewrite Hn in Hstep. exact Hstep.
      * intros data Hd.
        destruct (Hret data Hd)
          as (m' & shown & before & answer & earlier & -> & Hc' & -> & Hdec & ->).
        exists m', shown, (r :: before), answer, (get :: round ++ earlier).
        split; [reflexivity|]. split; [exact Hc'|]. split; [reflexivity|].
        split; [exact Hdec|]. cbn [app]. rewrite app_assoc. reflexivity.
  - exists (match network w with [] => [] | r :: _ => [r] end), [get]. split; [|discriminate].
    specialize (Hstop (Raise e) [] ltac:(constructor)). cbn [app snd] in Hstop |- *.
    replace (with_trace (trace (after_request get w) ++ []) (after_request get w))
      with (after_request get w) in Hstop
      by (rewrite app_nil_r; destruct w; reflexivity).
    exact Hstop.
  - exists (match network w with [] => [] | r :: _ => [r] end), [get]. split; [|discriminate].
    specialize (Hstop OutOfFuel [] ltac:(constructor)). cbn [app snd] in Hstop |- *.
    replace (with_trace (trace (after_request get w) ++ []) (after_request get w))
      with (after_request get w) in Hstop
      by (rewrite app_nil_r; destruct w; reflexivity).
    exact Hstop.
Qed.

(** X5: whatever the service answers and however many turns it gets,
    [check_inference] leaves the environment, the files and the registry as
    they were, reads the answers in the order given, only adds to the trace,
    and sends no request but the status query of its job with its key.
    When it returns, what it returns is the last answer it read, an object
    whose status is Ready or one of the four failures, and the last thing
    shown is the message of that status. *)
Theorem X5_check_inference_only_polls
    (fuel : nat) (job : json) (key : option string) (w : World) :
  exists consumed new,
    polls_only (inference_get job key) w
      (snd (Generate.check_inference fuel job key w)) consumed new
    /\ (forall data,
          fst (Generate.check_inference fuel job key w) = Ret data ->
          exists m shown before answer earlier,
            data = JObj m /\ closing (status_of m) = Some shown
            /\ consumed = (before ++ [answer])%list /\ decodes answer m
            /\ new = (earlier ++ [shown])%list).
Proof.
  unfold Generate.check_inference, bind at 1, emit. 
  set (w0 := with_trace (trace w ++ [StProgressNew (JInt 0)]) w).
  change (let (o, w') := (Ret tt, w0) in
          match o with
          | Ret _ => Generate.check_inference_loop fuel job key w'
          | Raise e => (Raise e, w')
          | OutOfFuel => (OutOfFuel, w')
          end) with (Generate.check_inference_loop fuel job key w0).
  destruct (check_inference_loop_keeps job key fuel w0)
    as (consumed & new & ((He & Hd & Hf & Hr) & Hn & Ht & Hall) & Hret).
  exists consumed, (StProgressNew (JInt 0) :: new). split.
  - unfold polls_only, same_disk. repeat split; try assumption.
    + rewrite Ht. unfold w0. cbn [trace with_trace]. rewrite <- app_assoc. reflexivity.
    + constructor; [discriminate|exact Hall].
  - intros data Hdata.
    destruct (Hret data Hdata)
      as (m & shown & before & answer & earlier & -> & Hc & -> & Hdec & ->).
    exists m, shown, before, answer, (StProgressNew (JInt 0) :: earlier).
    split; [reflexivity|]. split; [exact Hc|]. split; [reflexivity|].
    split; [exact Hdec|]. reflexivity.
Qed.

Lemma finetune_poll_keeps job key fuel : forall w,
  exists consumed new,
    polls_only (finetune_get job key) w
      (snd (Finetune.poll fuel job key w)) consumed new
    /\ (fst (Finetune.poll fuel job key w) = Ret tt ->
        exists m before answer earlier,
          status_of m = JStr "Ready"
          /\ consumed = (before ++ [answer])%list /\ decodes answer m
          /\ new = (earlier
                    ++ [StSuccess [Lit "Finetuning is complete! Go forth and conquer!"]])%list).
Proof.
  induction fuel as [|n IH]; intros w.
  { exists [], []. split; [apply polls_only_refl|discriminate]. }
  rewrite finetune_poll_unfold. cbv zeta.
  set (get := finetune_get job key).
  assert (Hstop : forall (o : outcome unit) shown,
            Forall (fun e => is_request e = false) shown ->
            polls_only get w
              (snd (o, with_trace (trace (after_request get w) ++ shown)
                         (after_request get w)))
              (match network w with [] => [] | r :: _ => [r] end)
              (get :: shown ++ [])).
  { intros o shown Hs. eapply polls_only_step; [exact Hs| | | |apply polls_only_refl].
    - repeat split.
    - reflexivity.
    - reflexivity. }
  assert (Hquit : forall (o : outcome unit),
            polls_only get w (snd (o, after_request get w))
              (match network w with [] => [] | r :: _ => [r] end) [get]).
  { intros o. specialize (Hstop o [] ltac:(constructor)). cbn [app snd] in Hstop |- *.
    replace (with_trace (trace (after_request get w) ++ []) (after_request get w))
      with (after_request get w) in Hstop
      by (rewrite app_nil_r; destruct w; reflexivity).
    exact Hstop. }
  destruct (reply_outcome (network w)) as [v|e|] eqn:Hreply.
  - destruct (reply_outcome_Ret _ _ Hreply) as (r & rest & Hn & Hp & Hb).
    destruct v as [| | | | | |m];
      try (exists [r], [get]; split;
           [specialize (Hquit (Raise AttributeError)); rewrite Hn in Hquit; exact Hquit
           |discriminate]).
    destruct (py_eq_str (status_of m) "Ready") eqn:Hready.
    + exists [r], [get; StSuccess [Lit "Finetuning is complete! Go forth and conquer!"]].
      split.
      * specialize (Hstop (Ret tt)
                      [StSuccess [Lit "Finetuning is complete! Go forth and conquer!"]]
                      ltac:(repeat constructor)).
        rewrite Hn in Hstop. cbn [app snd] in Hstop |- *. exact Hstop.
      * intros _. exists m, [], r, [get].
        split; [|split; [reflexivity|split; [split; assumption|reflexivity]]].
        destruct (status_of m) as [| | | |s| |]; try discriminate Hready.
        cbn [py_eq_str] in Hready. apply String.eqb_eq in Hready. congruence.
    + set (round := [waiting_event (status_of m); Sleep 10]).
      set (w2 := with_trace (trace (after_request get w) ++ round) (after_request get w)).
      destruct (IH w2) as (consumed & new & Hinv & Hret).
      exists (r :: consumed), (get :: round ++ new). split.
      * assert (Hround : Forall (fun e => is_request e = false) round)
          by (repeat constructor).
        assert (Hsame : same_disk (after_request get w) w2) by (repeat split).
        pose proof (polls_only_step get w w2 (snd (Finetune.poll n job key w2))
                      round consumed new Hround Hsame eq_refl eq_refl Hinv) as Hstep.
        rewrite Hn in Hstep. exact Hstep.
      * intros Hd.
        destruct (Hret Hd) as (m' & before & answer & earlier & Hr' & -> & Hdec & ->).
        exists m', (r :: before), answer, (get :: round ++ earlier).
        split; [exact Hr'|]. split; [reflexivity|]. split; [exact Hdec|].
        cbn [app]. rewrite !app_assoc. reflexivity.
  - exists (match network w with [] => [] | r :: _ => [r] end), [get].
    split; [apply (Hquit (Raise e))|discriminate].
  - exists (match network w with [] => [] | r :: _ => [r] end), [get].
    split; [apply (Hquit OutOfFuel)|discriminate].
Qed.

(** X6: whatever the service answers and however many turns it gets, the
    loop of finetune.py leaves the environment, the files and the registry
    as they were, reads the answers in the order given, only adds to the
    trace, and sends no request but the status query of its job with its
    key.  When it ends, the last answer it read is an object whose status
    is Ready, and the last thing shown is the message of completion. *)
Theorem X6_finetune_poll_only_polls
    (fuel : nat) (job : json) (key : string) (w : World) :
  exists consumed new,
    polls_only (finetune_get job key) w
      (snd (Finetune.poll fuel job key w)) consumed new
    /\ (fst (Finetune.poll fuel job key w) = Ret tt ->
        exists m before answer earlier,
          status_of m = JStr "Ready"
          /\ consumed = (before ++ [answer])%list /\ decodes answer m
          /\ new = (earlier
                    ++ [StSuccess [Lit "Finetuning is complete! Go forth and conquer!"]])%list).
Proof. apply finetune_poll_keeps. Qed.

(** ** The registry file *)

Lemma store_finetune_id_corrupt name remote_id w :
  registry_file w = Some RegCorrupt ->
  Finetune.store_finetune_id name remote_id w = (Raise JSONDecodeError, w).
Proof.
  intros Hr.
  unfold Finetune.store_finetune_id, bind, registry_exists, json_load_registry.
  cbv beta. rewrite Hr. cbn. rewrite Hr. reflexivity.
Qed.

Lemma read_finetunes_outcome w :
  Generate.read_finetunes w
  = (match registry_file w with
     | None => Ret (JObj ∅)
     | Some (RegJson v) => Ret v
     | Some RegCorrupt => Raise JSONDecodeError
     end, w).
Proof.
  unfold Generate.read_finetunes, bind, registry_exists, json_load_registry.
  destruct (registry_file w) as [[v|]|] eqn:Hr; cbn; rewrite ?Hr; reflexivity.
Qed.

(** X7: [store_finetune_id] on a registry file that does not decode
    raises [JSONDecodeError]; on one that holds a document other than an
    object it raises [TypeError]; either way the file is left as it was and
    nothing else is done. *)
Theorem X7_store_leaves_an_unusable_registry_alone
    (name : string) (remote_id : json) (w : World) :
  (registry_file w = Some RegCorrupt ->
   Finetune.store_finetune_id name remote_id w = (Raise JSONDecodeError, w))
  /\ (forall v, registry_file w = Some (RegJson v) -> (forall m, v <> JObj m) ->
      Finetune.store_finetune_id name remote_id w = (Raise TypeError, w)).
Proof.
  split.
  - apply store_finetune_id_corrupt.
  - intros v Hr Hv.
    unfold Finetune.store_finetune_id, bind, registry_exists, json_load_registry.
    cbv beta. rewrite Hr. cbn. rewrite Hr.
    destruct v as [| | | | | |m]; try reflexivity.
    destruct (Hv m eq_refl).
Qed.

Lemma X7_store_leaves_an_unusable_registry_alone_witness :
  Finetune.store_finetune_id "cat-v1" (JStr "ft-123")
      (with_registry (Some RegCorrupt) (world_with []))
    = (Raise JSONDecodeError, with_registry (Some RegCorrupt) (world_with []))
  /\ Finetune.store_finetune_id "cat-v1" (JStr "ft-123")
      (with_registry (Some (RegJson (JList []))) (world_with []))
    = (Raise TypeError, with_registry (Some (RegJson (JList []))) (world_with [])).
Proof.
  split.
  - apply (proj1 (X7_store_leaves_an_unusable_registry_alone "cat-v1" (JStr "ft-123")
                    (with_registry (Some RegCorrupt) (world_with [])))).
    reflexivity.
  - apply (proj2 (X7_store_leaves_an_unusable_registry_alone "cat-v1" (JStr "ft-123")
                    (with_registry (Some (RegJson (JList []))) (world_with [])))
             (JList [])).
    + reflexivity.
    + discriminate.
Defined.

(** X8: [read_finetunes] never changes anything.  Without a registry
    file it returns the empty mapping and creates no file; with a file that
    decodes it returns the document; with one that does not it raises
    [JSONDecodeError]. *)
Theorem X8_read_finetunes_only_reads (w : World) :
  snd (Generate.read_finetunes w) = w
  /\ fst (Generate.read_finetunes w)
     = match registry_file w with
       | None => Ret (JObj ∅)
       | Some (RegJson v) => Ret v
       | Some RegCorrupt => Raise JSONDecodeError
       end.
Proof. rewrite read_finetunes_outcome. split; reflexivity. Qed.

(** X9: from a registry that is absent or holds a mapping, writing a name
    twice leaves the file exactly as writing the second value alone would,
    and two writes to distinct names give the same mapping in either
    order. *)
Theorem X9_stores_compose
    (state : option (gmap string json)) (a b : string) (x y : json) (w : World) :
  registry_file w = registry_of state ->
  (Finetune.store_finetune_id a x ;; Finetune.store_finetune_id a y) w
    = Finetune.store_finetune_id a y w
  /\ (a <> b ->
      exists m1 m2 w1 w2,
        (Finetune.store_finetune_id a x ;; Finetune.store_finetune_id b y ;;
         Generate.read_finetunes) w = (Ret (JObj m1), w1)
        /\ (Finetune.store_finetune_id b y ;; Finetune.store_finetune_id a x ;;
            Generate.read_finetunes) w = (Ret (JObj m2), w2)
        /\ forall c, m1 !! c = m2 !! c).
Proof.
  intros Hr. fold (put a x) (put a y) (put b y) get_all. split.
  - unfold bind at 1. rewrite (put_merges state a x w Hr).
    rewrite (put_merges (Some (<[a := x]> (mapping_of state))) a y) by reflexivity.
    rewrite (put_merges state a y w Hr).
    change (mapping_of (Some (<[a := x]> (mapping_of state))))
      with (<[a := x]> (mapping_of state)).
    rewrite insert_insert_eq. destruct w; reflexivity.
  - intros Hab.
    exists (<[b := y]> (<[a := x]> (mapping_of state))),
           (<[a := x]> (<[b := y]> (mapping_of state))).
    do 2 eexists. split; [|split].
    + unfold bind at 1. rewrite (put_merges state a x w Hr).
      unfold bind at 1.
      rewrite (put_merges (Some (<[a := x]> (mapping_of state))) b y) by reflexivity.
      rewrite (get_all_reads (Some (<[b := y]> (<[a := x]> (mapping_of state)))))
        by reflexivity.
      reflexivity.
    + unfold bind at 1. rewrite (put_merges state b y w Hr).
      unfold bind at 1.
      rewrite (put_merges (Some (<[b := y]> (mapping_of state))) a x) by reflexivity.
      rewrite (get_all_reads (Some (<[a := x]> (<[b := y]> (mapping_of state)))))
        by reflexivity.
      reflexivity.
    + intros c. rewrite (insert_insert_ne _ b a) by congruence. reflexivity.
Qed.

Lemma X9_stores_compose_witness :
  (Finetune.store_finetune_id "a" (JStr "id1") ;;
   Finetune.store_finetune_id "a" (JStr "id3")) (world_with [])
  = Finetune.store_finetune_id "a" (JStr "id3") (world_with []).
Proof.
  apply (proj1 (X9_stores_compose None "a" "b" (JStr "id1") (JStr "id3")
                  (world_with []) eq_refl)).
Defined.

(** ** Rules for sequencing *)

Section Rules.

Variable R : World -> World -> Prop.
Hypothesis R_refl : forall w, R w w.
Hypothesis R_trans : forall w1 w2 w3, R w1 w2 -> R w2 w3 -> R w1 w3.

Lemma keeps_ret {A} (a : A) : keeps R (ret a).
Proof. intros w. apply R_refl. Qed.

Lemma keeps_raise {A} e : keeps R (@raise A e).
Proof. intros w. apply R_refl. Qed.

Lemma keeps_out_of_fuel {A} : keeps R (@out_of_fuel A).
Proof. intros w. apply R_refl. Qed.

Lemma keeps_bind {A B} (c : M A) (k : A -> M B) :
  keeps R c -> (forall a, keeps R (k a)) -> keeps R (bind c k).
Proof.
  intros Hc Hk w. unfold bind. specialize (Hc w).
  destruct (c w) as [[a|e|] w1]; cbn [snd] in *; [|exact Hc|exact Hc].
  eapply R_trans; [exact Hc|apply Hk].
Qed.

Lemma keeps_try_except {A} (c : M A) (h : exn -> M A) :
  keeps R c -> (forall e, keeps R (h e)) -> keeps R (try_except c h).
Proof.
  intros Hc Hh w. unfold try_except. specialize (Hc w).
  destruct (c w) as [[a|e|] w1]; cbn [snd] in *; [exact Hc| |exact Hc].
  destruct (is_Exception e); [|exact Hc].
  eapply R_trans; [exact Hc|apply Hh].
Qed.

Lemma keeps_if {A} (b : bool) (c1 c2 : M A) :
  keeps R c1 -> keeps R c2 -> keeps R (if b then c1 else c2).
Proof. destruct b; intros; assumption. Qed.

End Rules.

Lemma raises_only_ret {A} P (a : A) : raises_only P (ret a).
Proof. intros w e. discriminate. Qed.

Lemma raises_only_raise {A} (P : exn -> Prop) e : P e -> raises_only P (@raise A e).
Proof. intros He w e' [= <-]. exact He. Qed.

Lemma raises_only_out_of_fuel {A} P : raises_only P (@out_of_fuel A).
Proof. intros w e. discriminate. Qed.

Lemma raises_only_emit P ev : raises_only P (emit ev).
Proof. intros w e. discriminate. Qed.

Lemma raises_only_bind {A B} P (c : M A) (k : A -> M B) :
  raises_only P c -> (forall a, raises_only P (k a)) -> raises_only P (bind c k).
Proof.
  intros Hc Hk w e. unfold bind. specialize (Hc w).
  destruct (c w) as [[a|e'|] w1]; cbn [fst] in *.
  - apply Hk.
  - intros [= <-]. apply Hc. reflexivity.
  - discriminate.
Qed.

Lemma raises_only_if {A} P (b : bool) (c1 c2 : M A) :
  raises_only P c1 -> raises_only P c2 -> raises_only P (if b then c1 else c2).
Proof. destruct b; intros; assumption. Qed.

(** A [try] whose body raises nothing but what [except Exception] catches
    and whose handler raises nothing, raises nothing. *)
Lemma try_except_raises_nothing {A} (c : M A) (h : exn -> M A) :
  raises_only caught c -> (forall e, raises_only (fun _ => False) (h e)) ->
  raises_only (fun _ => False) (try_except c h).
Proof.
  intros Hc Hh w e. unfold try_except. specialize (Hc w).
  destruct (c w) as [[a|e'|] w1]; cbn [fst] in *; try discriminate.
  rewrite (Hc e' eq_refl). apply Hh.
Qed.

Lemma raises_nothing_outcome {A} (c : M A) w :
  raises_only (fun _ => False) c ->
  (exists a, fst (c w) = Ret a) \/ fst (c w) = OutOfFuel.
Proof.
  intros H. specialize (H w). destruct (fst (c w)) as [a|e|].
  - left. eauto.
  - destruct (H e eq_refl).
  - right. reflexivity.
Qed.

(** ** What runs without a further submission *)

Lemma quiet_refl w : quiet w w.
Proof.
  split; [repeat split|]. exists []. rewrite app_nil_r. split; [reflexivity|constructor].
Qed.

Lemma quiet_trans w1 w2 w3 : quiet w1 w2 -> quiet w2 w3 -> quiet w1 w3.
Proof.
  intros [(He & Hd & Hf & Hr) (n1 & Ht & H1)] [(He' & Hd' & Hf' & Hr') (n2 & Ht' & H2)].
  split.
  - repeat split; congruence.
  - exists (n1 ++ n2)%list. split.
    + rewrite Ht', Ht, app_assoc. reflexivity.
    + apply Forall_app. split; assumption.
Qed.

Lemma no_post_since_refl w : no_post_since w w.
Proof.
  repeat split. exists []. rewrite app_nil_r. split; [reflexivity|constructor].
Qed.

Lemma no_post_since_trans w1 w2 w3 :
  no_post_since w1 w2 -> no_post_since w2 w3 -> no_post_since w1 w3.
Proof.
  intros (He & Hd & Hf & n1 & Ht & H1) (He' & Hd' & Hf' & n2 & Ht' & H2).
  repeat split; try congruence.
  exists (n1 ++ n2)%list. split.
  - rewrite Ht', Ht, app_assoc. reflexivity.
  - apply Forall_app. split; assumption.
Qed.

Lemma quiet_no_post_since w w' : quiet w w' -> no_post_since w w'.
Proof. intros [(He & Hd & Hf & _) Hn]. repeat split; assumption. Qed.

Lemma quiet_same_registry w w' : quiet w w' -> same_registry w w'.
Proof. intros [(_ & _ & _ & Hr) _]. exact Hr. Qed.

Lemma keeps_weaken {A} (R S : World -> World -> Prop) (c : M A) :
  (forall w w', R w w' -> S w w') -> keeps R c -> keeps S c.
Proof. intros HRS Hc w. apply HRS, Hc. Qed.

Lemma quiet_emit e : is_post e = false -> keeps quiet (emit e).
Proof.
  intros He w. split; [repeat split|].
  exists [e]. split; [reflexivity|]. repeat constructor. exact He.
Qed.

Lemma quiet_round_trip e : is_post e = false -> keeps quiet (round_trip e).
Proof.
  intros He w. unfold round_trip.
  destruct (network w); (split; [repeat split|]);
    exists [e]; (split; [reflexivity|]); repeat constructor; exact He.
Qed.

Lemma quiet_raise_for_status r : keeps quiet (raise_for_status r).
Proof.
  unfold raise_for_status. destruct (_ && _); intros w; apply quiet_refl.
Qed.

Lemma quiet_response_json r : keeps quiet (response_json r).
Proof. unfold response_json. destruct (body r); intros w; apply quiet_refl. Qed.

Lemma quiet_py_get d k : keeps quiet (py_get d k).
Proof. destruct d; intros w; apply quiet_refl. Qed.

Lemma quiet_py_get_default d k v : keeps quiet (py_get_default d k v).
Proof. destruct d; intros w; apply quiet_refl. Qed.

Lemma quiet_py_getitem d k : keeps quiet (py_getitem d k).
Proof.
  destruct d as [| | | | | |m]; try (intros w; apply quiet_refl).
  cbn [py_getitem]. destruct (m !! k); intros w; apply quiet_refl.
Qed.

Lemma quiet_py_keys d : keeps quiet (Generate.py_keys d).
Proof. destruct d; intros w; apply quiet_refl. Qed.

Lemma quiet_read_finetunes : keeps quiet Generate.read_finetunes.
Proof.
  intros w. rewrite read_finetunes_outcome. apply quiet_refl.
Qed.

(** Splits a program into its steps and settles those that are known to
    be quiet. *)
Ltac quiet_steps :=
  repeat first
    [ apply (keeps_bind quiet quiet_trans); [|intros ?]
    | apply (keeps_if quiet)
    | apply (keeps_ret quiet quiet_refl)
    | apply (keeps_raise quiet quiet_refl)
    | apply (keeps_out_of_fuel quiet quiet_refl)
    | apply quiet_emit; reflexivity
    | apply quiet_round_trip; reflexivity
    | apply quiet_raise_for_status
    | apply quiet_response_json
    | apply quiet_py_get
    | apply quiet_py_get_default
    | apply quiet_py_getitem
    | apply quiet_py_keys
    | assumption ].

Lemma quiet_finetune_progress job key : keeps quiet (Finetune.finetune_progress job key).
Proof.
  unfold Finetune.finetune_progress. quiet_steps.
  unfold Finetune.resolve_api_key. destruct key; [quiet_steps|].
  intros w. destruct (environ w); apply quiet_refl.
Qed.

Lemma quiet_finetune_poll fuel job key : keeps quiet (Finetune.poll fuel job key).
Proof.
  induction fuel as [|n IH]; cbn [Finetune.poll]; [quiet_steps|].
  apply (keeps_bind quiet quiet_trans); [apply quiet_finetune_progress|intros progress].
  unfold st_success, st_info, time_sleep. quiet_steps.
Qed.

Lemma quiet_show_progress status p : keeps quiet (Generate.show_progress status p).
Proof. unfold Generate.show_progress, st_info. quiet_steps. Qed.

Lemma quiet_check_inference_loop fuel job key :
  keeps quiet (Generate.check_inference_loop fuel job key).
Proof.
  induction fuel as [|n IH]; cbn [Generate.check_inference_loop]; [quiet_steps|].
  unfold requests_get, st_success, st_error, time_sleep. quiet_steps.
Qed.

Lemma quiet_check_inference fuel job key :
  keeps quiet (Generate.check_inference fuel job key).
Proof.
  unfold Generate.check_inference. quiet_steps. apply quiet_check_inference_loop.
Qed.

Lemma quiet_show_sample result : keeps quiet (Generate.show_sample result).
Proof. unfold Generate.show_sample, st_image, st_error. quiet_steps. Qed.

Lemma quiet_show_result json_loads final_data :
  keeps quiet (Generate.show_result json_loads final_data).
Proof.
  unfold Generate.show_result. quiet_steps.
  destruct a as [| | | |s| |]; try apply quiet_show_sample.
  destruct (json_loads s); [apply quiet_show_sample|].
  unfold st_error. quiet_steps.
Qed.

(** ** What is raised is caught *)

Lemma caught_state {A} (c : M A) :
  (forall w, (exists a, fst (c w) = Ret a)
             \/ (exists e, caught e /\ fst (c w) = Raise e)) ->
  raises_only caught c.
Proof.
  intros H w e He. destruct (H w) as [(a & Ha)|(e' & Hc & He')].
  - rewrite Ha in He. discriminate.
  - rewrite He' in He. injection He as <-. exact Hc.
Qed.

Ltac returned := left; eexists; reflexivity.
Ltac raised := right; eexists; split; [|reflexivity]; reflexivity.

Lemma caught_resolve_api_key key : raises_only caught (Finetune.resolve_api_key key).
Proof.
  apply caught_state. intros w. unfold Finetune.resolve_api_key.
  destruct key as [k|]; [returned|].
  destruct (environ w); [returned|raised].
Qed.

Lemma caught_os_path_exists path : raises_only caught (os_path_exists path).
Proof. intros w e. discriminate. Qed.

Lemma caught_read_bytes path : raises_only caught (read_bytes path).
Proof.
  apply caught_state. intros w. unfold read_bytes.
  destruct (files w !! path); [returned|raised].
Qed.

Lemma caught_round_trip e : raises_only caught (round_trip e).
Proof.
  apply caught_state. intros w. unfold round_trip.
  destruct (network w); [raised|returned].
Qed.

Lemma caught_raise_for_status r : raises_only caught (raise_for_status r).
Proof.
  apply caught_state. intros w. unfold raise_for_status.
  destruct (_ && _); [raised|returned].
Qed.

Lemma caught_response_json r : raises_only caught (response_json r).
Proof.
  apply caught_state. intros w. unfold response_json.
  destruct (body r); [returned|raised].
Qed.

Lemma caught_py_get d k : raises_only caught (py_get d k).
Proof.
  apply caught_state. intros w.
  destruct d; try raised. returned.
Qed.

Lemma caught_py_get_default d k v : raises_only caught (py_get_default d k v).
Proof.
  apply caught_state. intros w.
  destruct d; try raised. returned.
Qed.

Lemma store_finetune_id_outcome name remote_id w :
  (exists doc, Finetune.store_finetune_id name remote_id w
               = (Ret tt, with_registry (Some (RegJson doc)) w))
  \/ (exists e, caught e
                /\ Finetune.store_finetune_id name remote_id w = (Raise e, w)).
Proof.
  unfold Finetune.store_finetune_id, bind, registry_exists, json_load_registry.
  destruct (registry_file w) as [[v|]|] eqn:Hr; cbn; rewrite ?Hr.
  - destruct v; try (right; eexists; split; [|reflexivity]; reflexivity).
    left. eexists. reflexivity.
  - right. eexists. split; [|reflexivity]. reflexivity.
  - left. eexists. reflexivity.
Qed.

Lemma caught_store_finetune_id name remote_id :
  raises_only caught (Finetune.store_finetune_id name remote_id).
Proof.
  apply caught_state. intros w.
  destruct (store_finetune_id_outcome name remote_id w)
    as [(doc & ->)|(e' & He' & ->)]; [left|right]; eexists; [|split; [exact He'|]];
    reflexivity.
Qed.

Lemma no_post_since_store_finetune_id name remote_id :
  keeps no_post_since (Finetune.store_finetune_id name remote_id).
Proof.
  intros w. destruct (store_finetune_id_outcome name remote_id w)
    as [(doc & ->)|(e' & He' & ->)]; cbn [snd]; [|apply no_post_since_refl].
  repeat split. exists []. rewrite app_nil_r. split; [reflexivity|constructor].
Qed.

(** Splits a program into its steps and settles those that are known to
    raise nothing but what is caught. *)
Ltac caught_steps :=
  repeat first
    [ assumption
    | apply caught_store_finetune_id
    | apply caught_resolve_api_key
    | apply caught_os_path_exists
    | apply caught_read_bytes
    | apply caught_round_trip
    | apply caught_raise_for_status
    | apply caught_response_json
    | apply caught_py_get
    | apply caught_py_get_default
    | apply raises_only_ret
    | apply raises_only_out_of_fuel
    | apply raises_only_emit
    | apply raises_only_raise; reflexivity
    | apply raises_only_if
    | apply raises_only_bind; [|intros ?] ].

Lemma caught_request_finetuning a : raises_only caught (Finetune.request_finetuning a).
Proof. unfold Finetune.request_finetuning, requests_post. caught_steps. Qed.

Lemma caught_finetune_progress job key :
  raises_only caught (Finetune.finetune_progress job key).
Proof. unfold Finetune.finetune_progress, requests_get. caught_steps. Qed.

Lemma caught_finetune_poll fuel job key :
  raises_only caught (Finetune.poll fuel job key).
Proof.
  induction fuel as [|n IH]; cbn [Finetune.poll]; [caught_steps|].
  apply raises_only_bind; [apply caught_finetune_progress|intros progress].
  unfold st_success, st_info, time_sleep. caught_steps.
Qed.

Lemma caught_generate_image a : raises_only caught (Generate.generate_image a).
Proof. unfold Generate.generate_image, requests_post. caught_steps. Qed.

Lemma caught_check_inference_loop fuel job key :
  raises_only caught (Generate.check_inference_loop fuel job key).
Proof.
  induction fuel as [|n IH]; cbn [Generate.check_inference_loop]; [caught_steps|].
  unfold requests_get, st_success, st_error, time_sleep, Generate.show_progress, st_info.
  caught_steps.
Qed.

Lemma caught_check_inference fuel job key :
  raises_only caught (Generate.check_inference fuel job key).
Proof.
  unfold Generate.check_inference. caught_steps. apply caught_check_inference_loop.
Qed.

Lemma caught_show_sample result : raises_only caught (Generate.show_sample result).
Proof. unfold Generate.show_sample, st_image, st_error. caught_steps. Qed.

Lemma caught_show_result json_loads final_data :
  raises_only caught (Generate.show_result json_loads final_data).
Proof.
  unfold Generate.show_result. apply raises_only_bind; [caught_steps|intros result].
  destruct result as [| | | |s| |]; try apply caught_show_sample.
  destruct (json_loads s); [apply caught_show_sample|].
  unfold st_error. caught_steps.
Qed.

(** ** The pages *)

Lemma try_except_bind {A B} (c : M A) (k : A -> M B) (h : exn -> M B) w :
  try_except (bind c k) h w =
    match c w with
    | (Ret a, w1) => try_except (k a) h w1
    | (Raise e, w1) => if is_Exception e then h e w1 else (Raise e, w1)
    | (OutOfFuel, w1) => (OutOfFuel, w1)
    end.
Proof.
  unfold try_except, bind. destruct (c w) as [[a|e|] w1]; reflexivity.
Qed.

Lemma reply_outcome_caught script e : reply_outcome script = Raise e -> caught e.
Proof.
  unfold reply_outcome. destruct script as [|r rest]; [intros [= <-]; reflexivity|].
  destruct (passes r); [|intros [= <-]; reflexivity].
  destruct (body r); [discriminate|intros [= <-]; reflexivity].
Qed.

Ltac quiet_programs :=
  repeat first
    [ apply quiet_finetune_poll
    | apply quiet_check_inference
    | apply quiet_show_result
    | apply quiet_show_sample
    | apply quiet_read_finetunes
    | apply quiet_emit; reflexivity
    | apply quiet_py_get
    | apply (keeps_ret quiet quiet_refl)
    | apply (keeps_if quiet)
    | apply (keeps_bind quiet quiet_trans); [|intros ?] ].

Ltac caught_programs :=
  repeat first
    [ apply caught_finetune_poll
    | apply caught_check_inference
    | apply caught_show_result
    | apply caught_show_sample
    | apply caught_store_finetune_id
    | apply caught_py_get
    | apply raises_only_emit
    | apply raises_only_ret
    | apply raises_only_if
    | apply raises_only_bind; [|intros ?] ].

Ltac no_post_steps :=
  repeat first
    [ apply no_post_since_store_finetune_id
    | solve [apply (keeps_weaken quiet no_post_since _ quiet_no_post_since);
             quiet_programs]
    | apply (keeps_if no_post_since)
    | apply (keeps_bind no_post_since no_post_since_trans); [|intros ?] ].

Lemma raises_nothing_unit (c : M unit) w :
  raises_only (fun _ => False) c -> fst (c w) = Ret tt \/ fst (c w) = OutOfFuel.
Proof.
  intros H. destruct (raises_nothing_outcome c w H) as [([] & Ha)|Ho]; [left|right];
    assumption.
Qed.

(** From the submission on, the fine-tune page sends one POST and no
    other, raises nothing and writes no binary file. *)
Lemma submit_and_poll_once fuel ui key w zip :
  files w !! Finetune.temp_zip_path = Some zip ->
  let post := HttpPost Finetune.finetune_url (Some key)
                (Finetune.build_payload (Finetune.form_args ui key) (b64encode zip)) in
  (fst (Finetune.submit_and_poll fuel ui key w) = Ret tt
   \/ fst (Finetune.submit_and_poll fuel ui key w) = OutOfFuel)
  /\ no_post_since (after_request post w) (snd (Finetune.submit_and_poll fuel ui key w)).
Proof.
  intros Hz post. split.
  - apply raises_nothing_unit. unfold Finetune.submit_and_poll.
    apply try_except_raises_nothing.
    + unfold st_success, st_json, st_warning, st_write.
      apply raises_only_bind; [apply caught_request_finetuning|intros response].
      caught_programs.
    + intros e. unfold st_error. apply raises_only_emit.
  - unfold Finetune.submit_and_poll. rewrite try_except_bind.
    rewrite (request_finetuning_sends (Finetune.form_args ui key) key zip w eq_refl Hz
               (form_mode_listed ui key)).
    rewrite fetch_outcome. fold post.
    destruct (reply_outcome (network w)) as [v|e|] eqn:Hreply.
    + apply (keeps_try_except no_post_since no_post_since_trans).
      * unfold st_success, st_json, st_warning, st_write. no_post_steps.
      * intros e. unfold st_error. no_post_steps.
    + rewrite (reply_outcome_caught _ _ Hreply).
      unfold st_error.
      apply (keeps_weaken quiet no_post_since _ quiet_no_post_since).
      quiet_programs.
    + apply no_post_since_refl.
Qed.

Lemma finetune_main_with_key fuel ui w key :
  page_key (Finetune.api_key_box ui) w = key -> key <> "" ->
  Finetune.main fuel ui w =
    let w0 := finetune_page_drawn w in
    if Finetune.submit ui then
      match Finetune.uploaded_file ui with
      | None =>
          (Raise StopException,
           with_trace
             (trace w0 ++ [StWarning [Lit "No file, no finetune. Upload a .zip first."]])
             w0)
      | Some buffer =>
          Finetune.submit_and_poll fuel ui key
            (with_files (<[Finetune.temp_zip_path := buffer]> (files w0)) w0)
      end
    else (Ret tt, w0).
Proof.
  intros Hk Hne. unfold Finetune.main, bind at 1. rewrite load_dotenv_loaded.
  unfold bind at 1, os_getenv. rewrite os_getenv_loaded.
  fold (page_key (Finetune.api_key_box ui) w). rewrite Hk.
  apply String.eqb_neq in Hne. 
  unfold bind at 1, st_title, emit. unfold bind at 1, st_write, emit.
  rewrite Hne. cbv zeta.
  assert (Hw0 : with_trace
                  (trace (with_trace (trace (loaded w) ++ [StTitle "BFL Finetune App"])
                            (loaded w))
                   ++ [StWrite [Lit "Fine-tuning is fun... until it isn't. Let's do it anyway."]])
                  (with_trace (trace (loaded w) ++ [StTitle "BFL Finetune App"]) (loaded w))
                = finetune_page_drawn w).
  { unfold finetune_page_drawn, loaded. destruct w as [e d f rg n t].
    destruct e; cbn; rewrite <- app_assoc; reflexivity. }
  rewrite Hw0.
  destruct (Finetune.submit ui); [|reflexivity].
  destruct (Finetune.uploaded_file ui) as [buffer|]; reflexivity.
Qed.

(** X10: on the fine-tune page with a key, an archive uploaded and the
    button pressed, whatever the service answers, whatever the registry
    holds and however many turns the polling has had: the upload is what
    the archive file holds (the save of the upload is taken to succeed, as
    [write_bytes] always does); the first thing done after the page is drawn is
    one POST to the fine-tune address, with the page's key and the base64
    text of the upload as [file_data]; and nothing that follows is a POST.
    Nothing is said of how the run ends. *)
Theorem X10_finetune_page_submits_the_upload_once
    (fuel : nat) (ui : Finetune.form) (w : World) (key : string) (buffer : list byte) :
  page_key (Finetune.api_key_box ui) w = key -> key <> "" ->
  Finetune.uploaded_file ui = Some buffer -> Finetune.submit ui = true ->
  let payload := Finetune.build_payload (Finetune.form_args ui key) (b64encode buffer) in
  files (snd (Finetune.main fuel ui w))
    = <[Finetune.temp_zip_path := buffer]> (files w)
  /\ payload !! "file_data" = Some (JStr (b64encode buffer))
  /\ exists new,
       trace (snd (Finetune.main fuel ui w))
       = (trace (finetune_page_drawn w)
          ++ HttpPost Finetune.finetune_url (Some key) payload :: new)%list
       /\ Forall (fun e => is_post e = false) new.
Proof.
  intros Hk Hne Hup Hsub payload.
  rewrite (finetune_main_with_key fuel ui w key Hk Hne), Hsub, Hup. cbv zeta.
  set (w1 := with_files _ _).
  assert (Hz : files w1 !! Finetune.temp_zip_path = Some buffer)
    by (unfold w1; cbn [files with_files]; apply lookup_insert_eq).
  destruct (submit_and_poll_once fuel ui key w1 buffer Hz)
    as [_ (He & Hd & Hf & new & Ht & Hnew)].
  split; [|split].
  - rewrite Hf. unfold w1, finetune_page_drawn, loaded.
    destruct w as [e d f rg n t]. destruct e; reflexivity.
  - unfold payload, Finetune.build_payload.
    destruct (Finetune.learning_rate (Finetune.form_args ui key));
      apply lookup_insert_Some; repeat (right; split; [discriminate|apply lookup_insert_Some]);
      left; split; reflexivity.
  - exists new. split; [|exact Hnew].
    rewrite Ht. unfold after_request, w1. cbn [trace with_trace with_network with_files].
    rewrite <- app_assoc. reflexivity.
Qed.

Lemma X10_finetune_page_submits_the_upload_once_witness :
  files (snd (Finetune.main 1 (finetune_form (Some "key")) submission_world))
  = <[Finetune.temp_zip_path := list_byte_of_string "PK"]> (files submission_world).
Proof.
  apply (X10_finetune_page_submits_the_upload_once 1 (finetune_form (Some "key"))
           submission_world "key" (list_byte_of_string "PK")).
  - reflexivity.
  - discriminate.
  - reflexivity.
  - reflexivity.
Defined.

(** X11: on the fine-tune page with a key, when the button is not pressed
    nothing is done beyond drawing the page, and when it is pressed without
    an upload the page warns and stops; in both cases no request is sent
    and no file is written. *)
Theorem X11_finetune_page_without_upload
    (fuel : nat) (ui : Finetune.form) (w : World) (key : string) :
  page_key (Finetune.api_key_box ui) w = key -> key <> "" ->
  (Finetune.submit ui = false ->
   Finetune.main fuel ui w = (Ret tt, finetune_page_drawn w))
  /\ (Finetune.submit ui = true -> Finetune.uploaded_file ui = None ->
      Finetune.main fuel ui w
      = (Raise StopException,
         with_trace
           (trace (finetune_page_drawn w)
            ++ [StWarning [Lit "No file, no finetune. Upload a .zip first."]])
           (finetune_page_drawn w))).
Proof.
  intros Hk Hne. rewrite (finetune_main_with_key fuel ui w key Hk Hne). cbv zeta.
  split.
  - intros ->. reflexivity.
  - intros -> ->. reflexivity.
Qed.

Lemma X11_finetune_page_without_upload_witness :
  Finetune.main 1 form_without_upload submission_world
  = (Raise StopException,
     with_trace
       [StTitle "BFL Finetune App";
        StWrite [Lit "Fine-tuning is fun... until it isn't. Let's do it anyway."];
        StWarning [Lit "No file, no finetune. Upload a .zip first."]]
       submission_world).
Proof.
  refine (proj2 (X11_finetune_page_without_upload 1 form_without_upload
                   submission_world "key" eq_refl _) eq_refl eq_refl).
  discriminate.
Defined.

(** The fine-tune page once the service has accepted the submission and
    the identifier is stored: the rest is the polling loop under the [try]. *)
Lemma submit_and_poll_accepted fuel ui key w zip r rest m job state :
  files w !! Finetune.temp_zip_path = Some zip ->
  network w = r :: rest -> decodes r m ->
  m !! "finetune_id" = Some job -> truthy job = true ->
  registry_file w = registry_of state ->
  let post := HttpPost Finetune.finetune_url (Some key)
                (Finetune.build_payload (Finetune.form_args ui key) (b64encode zip)) in
  let w3 :=
    with_registry
      (registry_of (Some (<[Finetune.comment_box ui := job]> (mapping_of state))))
      (with_network rest
         (with_trace
            (trace w ++
             [post;
              StSuccess [Lit "Finetuning request submitted successfully!"];
              StJson (JObj m);
              StWrite [Lit "Sit tight! We'll keep poking the server every 10s to see if it's ready."]])
            w)) in
  Finetune.submit_and_poll fuel ui key w
  = try_except (Finetune.poll fuel job key)
      (fun e => st_error [Lit "Error requesting finetune: "; ExnStr e]) w3.
Proof.
  intros Hz Hn [Hp Hb] Hm Ht Hr post w3.
  unfold Finetune.submit_and_poll. rewrite try_except_bind.
  rewrite (request_finetuning_sends (Finetune.form_args ui key) key zip w eq_refl Hz
             (form_mode_listed ui key)).
  rewrite (fetch_answer _ _ _ _ _ Hn Hp Hb). fold post.
  rewrite try_except_bind. unfold st_success at 1, emit at 1.
  rewrite try_except_bind. unfold st_json at 1, emit at 1.
  rewrite try_except_bind. unfold py_get at 1. rewrite Hm.
  cbn [from_option]. unfold id, ret at 1. rewrite Ht. cbn [negb].
  rewrite try_except_bind. fold (put (Finetune.comment_box ui) job).
  rewrite (put_merges state) by exact Hr.
  rewrite try_except_bind. unfold st_write at 1, emit at 1.
  f_equal. unfold w3. cbn [trace with_trace with_network with_registry].
  rewrite <- !app_assoc. destruct w; reflexivity.
Qed.

(** X12: when the service accepts the submission with an identifier and
    the registry is absent or holds a mapping, the fine-tune page writes the
    comment and the identifier to the registry before it asks for any
    status, and the entry is there at the end of the run whatever the
    polling meets; every request after the submission is the status query
    of that identifier with the page's key. *)
Theorem X12_identifier_is_stored_before_polling
    (fuel : nat) (ui : Finetune.form) (key : string) (w : World) (zip : list byte)
    (r : http_response) (rest : list http_response) (m : gmap string json)
    (job : json) (state : option (gmap string json)) :
  files w !! Finetune.temp_zip_path = Some zip ->
  network w = r :: rest -> decodes r m ->
  m !! "finetune_id" = Some job -> truthy job = true ->
  registry_file w = registry_of state ->
  registry_file (snd (Finetune.submit_and_poll fuel ui key w))
    = registry_of (Some (<[Finetune.comment_box ui := job]> (mapping_of state)))
  /\ exists new,
       trace (snd (Finetune.submit_and_poll fuel ui key w))
       = (trace w ++
          [HttpPost Finetune.finetune_url (Some key)
             (Finetune.build_payload (Finetune.form_args ui key) (b64encode zip));
           StSuccess [Lit "Finetuning request submitted successfully!"];
           StJson (JObj m);
           StWrite [Lit "Sit tight! We'll keep poking the server every 10s to see if it's ready."]]
          ++ new)%list
       /\ Forall (fun e => is_request e = true -> e = finetune_get job key) new.
Proof.
  intros Hz Hn Hdec Hm Ht Hr.
  rewrite (submit_and_poll_accepted fuel ui key w zip r rest m job state
             Hz Hn Hdec Hm Ht Hr). cbv zeta.
  set (w3 := with_registry _ _).
  destruct (finetune_poll_keeps job key fuel w3)
    as (consumed & new & ((He & Hd & Hf & Hreg) & Hnet & Htr & Hall) & _).
  unfold try_except.
  pose proof (caught_finetune_poll fuel job key w3) as Hcaught.
  destruct (Finetune.poll fuel job key w3) as [[[]|e|] w4] eqn:Hpoll;
    cbn [fst snd] in *.
  - split; [rewrite Hreg; reflexivity|]. exists new. split; [|exact Hall].
    rewrite Htr. unfold w3. cbn [trace with_trace with_network with_registry].
    rewrite <- !app_assoc. reflexivity.
  - rewrite (Hcaught e eq_refl). unfold st_error, emit. cbn [snd registry_file with_trace trace].
    split; [rewrite Hreg; reflexivity|].
    exists (new ++ [StError [Lit "Error requesting finetune: "; ExnStr e]])%list. split.
    + rewrite Htr. unfold w3. cbn [trace with_trace with_network with_registry].
      rewrite <- !app_assoc. reflexivity.
    + apply Forall_app. split; [exact Hall|]. repeat constructor. discriminate.
  - split; [rewrite Hreg; reflexivity|]. exists new. split; [|exact Hall].
    rewrite Htr. unfold w3. cbn [trace with_trace with_network with_registry].
    rewrite <- !app_assoc. reflexivity.
Qed.

Lemma X12_identifier_is_stored_before_polling_witness :
  registry_file
    (snd (Finetune.submit_and_poll 2 (finetune_form (Some "key")) "key"
            (page_world [answer 200 [("finetune_id", JStr "ft-123")]; refusal 500])))
  = registry_of (Some {["cat-v1" := JStr "ft-123"]}).
Proof.
  apply (X12_identifier_is_stored_before_polling 2 (finetune_form (Some "key")) "key"
           (page_world [answer 200 [("finetune_id", JStr "ft-123")]; refusal 500])
           (list_byte_of_string "PK")
           (answer 200 [("finetune_id", JStr "ft-123")]) [refusal 500]
           (list_to_map [("finetune_id", JStr "ft-123")]) (JStr "ft-123") None).
  - reflexivity.
  - reflexivity.
  - split; reflexivity.
  - reflexivity.
  - reflexivity.
  - reflexivity.
Defined.

(** X13: when the service accepts the submission with an identifier but
    the registry file does not decode, the page shows the failure as an
    error and asks for no status: the job runs on the service, its
    identifier is on the page and nowhere else. *)
Theorem X13_unreadable_registry_ends_the_run
    (fuel : nat) (ui : Finetune.form) (key : string) (w : World) (zip : list byte)
    (r : http_response) (rest : list http_response) (m : gmap string json)
    (job : json) :
  files w !! Finetune.temp_zip_path = Some zip ->
  network w = r :: rest -> decodes r m ->
  m !! "finetune_id" = Some job -> truthy job = true ->
  registry_file w = Some RegCorrupt ->
  Finetune.submit_and_poll fuel ui key w
  = (Ret tt,
     with_network rest
       (with_trace
          (trace w ++
           [HttpPost Finetune.finetune_url (Some key)
              (Finetune.build_payload (Finetune.form_args ui key) (b64encode zip));
            StSuccess [Lit "Finetuning request submitted successfully!"];
            StJson (JObj m);
            StError [Lit "Error requesting finetune: "; ExnStr JSONDecodeError]])
          w)).
Proof.
  intros Hz Hn [Hp Hb] Hm Ht Hr.
  unfold Finetune.submit_and_poll. rewrite try_except_bind.
  rewrite (request_finetuning_sends (Finetune.form_args ui key) key zip w eq_refl Hz
             (form_mode_listed ui key)).
  rewrite (fetch_answer _ _ _ _ _ Hn Hp Hb).
  rewrite try_except_bind. unfold st_success at 1, emit at 1.
  rewrite try_except_bind. unfold st_json at 1, emit at 1.
  rewrite try_except_bind. unfold py_get at 1. rewrite Hm.
  cbn [from_option]. unfold id, ret at 1. rewrite Ht. cbn [negb].
  rewrite try_except_bind.
  rewrite store_finetune_id_corrupt by exact Hr.
  cbn [is_Exception]. unfold st_error, emit.
  cbn [trace with_trace with_network]. rewrite <- !app_assoc.
  destruct w; reflexivity.
Qed.

Lemma X13_unreadable_registry_ends_the_run_witness :
  Finetune.submit_and_poll 2 (finetune_form (Some "key")) "key"
    (with_registry (Some RegCorrupt)
       (page_world [answer 200 [("finetune_id", JStr "ft-123")]; refusal 500]))
  = (Ret tt,
     with_trace
       [HttpPost Finetune.finetune_url (Some "key")
          (Finetune.build_payload (Finetune.form_args (finetune_form (Some "key")) "key")
             "UEs=");
        StSuccess [Lit "Finetuning request submitted successfully!"];
        StJson (JObj {["finetune_id" := JStr "ft-123"]});
        StError [Lit "Error requesting finetune: "; ExnStr JSONDecodeError]]
       (with_registry (Some RegCorrupt) (page_world [refusal 500]))).
Proof.
  rewrite (X13_unreadable_registry_ends_the_run 2 (finetune_form (Some "key")) "key"
             (with_registry (Some RegCorrupt)
                (page_world [answer 200 [("finetune_id", JStr "ft-123")]; refusal 500]))
             (list_byte_of_string "PK")
             (answer 200 [("finetune_id", JStr "ft-123")]) [refusal 500]
             (list_to_map [("finetune_id", JStr "ft-123")]) (JStr "ft-123")
             eq_refl eq_refl (conj eq_refl eq_refl) eq_refl eq_refl eq_refl).
  reflexivity.
Defined.

(** From the submission on, the inference page sends one POST and no
    other, raises nothing and changes nothing on disk. *)
Lemma submit_and_show_once json_loads fuel ui key job seed_int w :
  let post := HttpPost Generate.generate_url (Some key)
                (Generate.build_payload (Generate.form_args ui key job seed_int)) in
  (fst (Generate.submit_and_show json_loads fuel ui key job seed_int w) = Ret tt
   \/ fst (Generate.submit_and_show json_loads fuel ui key job seed_int w) = OutOfFuel)
  /\ quiet
       (after_request post
          (with_trace (trace w ++ [StWrite [Lit "Submitting generation request..."]]) w))
       (snd (Generate.submit_and_show json_loads fuel ui key job seed_int w)).
Proof.
  intros post. split.
  - apply raises_nothing_unit. unfold Generate.submit_and_show.
    apply raises_only_bind; [apply raises_only_emit|intros _].
    apply try_except_raises_nothing.
    + unfold st_success, st_error, st_write.
      apply raises_only_bind; [apply caught_generate_image|intros response].
      caught_programs.
    + intros e. unfold st_error. apply raises_only_emit.
  - unfold Generate.submit_and_show, bind at 1, st_write at 1, emit at 1.
    rewrite try_except_bind, generate_image_unfold, fetch_outcome.
    cbn [Generate.api_key Generate.form_args]. fold post.
    set (w1 := with_trace _ w).
    destruct (reply_outcome (network w1)) as [v|e|] eqn:Hreply.
    + apply (keeps_try_except quiet quiet_trans).
      * unfold st_success, st_error, st_write. quiet_programs.
      * intros e. unfold st_error. quiet_programs.
    + rewrite (reply_outcome_caught _ _ Hreply). unfold st_error. quiet_programs.
    + apply quiet_refl.
Qed.

Lemma registry_file_loaded w : registry_file (generate_page_drawn w) = registry_file w.
Proof.
  unfold generate_page_drawn, loaded. destruct w as [e d f rg n t].
  destruct e; reflexivity.
Qed.

Lemma generate_main_with_key json_loads fuel ui w key :
  page_key (Generate.api_key_box ui) w = key -> key <> "" ->
  Generate.main json_loads fuel ui w =
    (finetunes <- Generate.read_finetunes ;;
     if negb (truthy finetunes) then
       st_warning [Lit "No fine-tunes found. Please run the finetune app first."] ;;
       st_stop
     else
       _ <- Generate.py_keys finetunes ;;
       job <- py_getitem finetunes (Generate.choice ui) ;;
       if Generate.generate ui then
         match Generate.seed_box ui with
         | Generate.SeedBlank => Generate.submit_and_show json_loads fuel ui key job None
         | Generate.SeedInt z => Generate.submit_and_show json_loads fuel ui key job (Some z)
         | Generate.SeedNotInt => st_error [Lit "Seed must be an integer."]
         end
       else ret tt) (generate_page_drawn w).
Proof.
  intros Hk Hne. unfold Generate.main, bind at 1. rewrite load_dotenv_loaded.
  unfold bind at 1, os_getenv. rewrite os_getenv_loaded.
  fold (page_key (Generate.api_key_box ui) w). rewrite Hk.
  apply String.eqb_neq in Hne.
  unfold bind at 1, st_title, emit. unfold bind at 1, st_write at 1, emit.
  rewrite Hne.
  assert (Hw0 : with_trace
                  (trace (with_trace
                            (trace (loaded w) ++ [StTitle "BFL Generate Images with Finetunes"])
                            (loaded w))
                   ++ [StWrite [Lit "Pick a fine-tuned model and generate new images in style, product, or general modes."]])
                  (with_trace
                     (trace (loaded w) ++ [StTitle "BFL Generate Images with Finetunes"])
                     (loaded w))
                = generate_page_drawn w).
  { unfold generate_page_drawn, loaded. destruct w as [e d f rg n t].
    destruct e; cbn; rewrite <- app_assoc; reflexivity. }
  rewrite Hw0. reflexivity.
Qed.

Lemma lookup_truthy (m : gmap string json) k v : m !! k = Some v -> truthy (JObj m) = true.
Proof.
  intros Hm. cbn [truthy]. apply negb_true_iff, Nat.eqb_neq.
  intros Hs. apply map_size_empty_iff in Hs. subst m.
  rewrite lookup_empty in Hm. discriminate.
Qed.

(** The inference page up to the submission, when the registry holds a
    mapping with the fine-tune picked. *)
Lemma generate_main_registered json_loads fuel ui w key m job :
  page_key (Generate.api_key_box ui) w = key -> key <> "" ->
  registry_file w = Some (RegJson (JObj m)) ->
  m !! Generate.choice ui = Some job ->
  Generate.main json_loads fuel ui w =
    if Generate.generate ui then
      match seed_of (Generate.seed_box ui) with
      | Some seed_int =>
          Generate.submit_and_show json_loads fuel ui key job seed_int
            (generate_page_drawn w)
      | None =>
          (Ret tt,
           with_trace
             (trace (generate_page_drawn w) ++ [StError [Lit "Seed must be an integer."]])
             (generate_page_drawn w))
      end
    else (Ret tt, generate_page_drawn w).
Proof.
  intros Hk Hne Hr Hm.
  rewrite (generate_main_with_key json_loads fuel ui w key Hk Hne).
  unfold bind at 1. rewrite read_finetunes_outcome, registry_file_loaded, Hr.
  rewrite (lookup_truthy m _ _ Hm). cbn [negb].
  unfold bind at 1, Generate.py_keys, ret at 1.
  unfold bind at 1, py_getitem. rewrite Hm. unfold ret at 1.
  destruct (Generate.generate ui); [|reflexivity].
  destruct (Generate.seed_box ui); reflexivity.
Qed.

(** X14: on the inference page with a key, a registry that maps the
    fine-tune picked to an identifier, a seed box that is blank or holds an
    integer and the button pressed, whatever the service answers and however
    many turns the polling has had: neither the registry nor any file
    changes; the first request made is one POST to the inference address,
    with the page's key, the identifier found in the registry as
    [finetune_id] and the seed of the box if there is one; and nothing that
    follows is a POST.  Nothing is said of how the run ends. *)
Theorem X14_inference_page_submits_the_registered_identifier_once
    (json_loads : string -> option json) (fuel : nat) (ui : Generate.form) (w : World)
    (key : string) (m : gmap string json) (job : json) (seed_int : option Z) :
  page_key (Generate.api_key_box ui) w = key -> key <> "" ->
  registry_file w = Some (RegJson (JObj m)) ->
  m !! Generate.choice ui = Some job ->
  Generate.generate ui = true ->
  seed_of (Generate.seed_box ui) = Some seed_int ->
  let payload := Generate.build_payload (Generate.form_args ui key job seed_int) in
  let run := Generate.main json_loads fuel ui w in
  registry_file (snd run) = registry_file w
  /\ files (snd run) = files w
  /\ payload !! "finetune_id" = Some job
  /\ payload !! "seed" = JInt <$> seed_int
  /\ exists new,
       trace (snd run)
       = (trace (generate_page_drawn w)
          ++ StWrite [Lit "Submitting generation request..."]
             :: HttpPost Generate.generate_url (Some key) payload :: new)%list
       /\ Forall (fun e => is_post e = false) new.
Proof.
  intros Hk Hne Hr Hm Hg Hs payload run. unfold run.
  rewrite (generate_main_registered json_loads fuel ui w key m job Hk Hne Hr Hm), Hg, Hs.
  destruct (submit_and_show_once json_loads fuel ui key job seed_int (generate_page_drawn w))
    as [_ [(He & Hd & Hf & Hreg) (new & Ht & Hnew)]].
  split; [|split; [|split; [|split]]].
  - rewrite Hreg. apply registry_file_loaded.
  - rewrite Hf. unfold generate_page_drawn, loaded.
    destruct w as [e d f rg n t]. destruct e; reflexivity.
  - unfold payload, Generate.build_payload.
    destruct (Generate.seed (Generate.form_args ui key job seed_int));
      apply lookup_insert_Some; repeat (right; split; [discriminate|apply lookup_insert_Some]);
      left; split; reflexivity.
  - unfold payload, Generate.build_payload. cbn [Generate.seed Generate.form_args].
    destruct seed_int as [z|]; cbn [fmap option_fmap option_map].
    + apply lookup_insert_eq.
    + repeat (rewrite lookup_insert_ne by discriminate). apply lookup_empty.
  - exists new. split; [|exact Hnew].
    rewrite Ht. unfold after_request. cbn [trace with_trace with_network].
    rewrite <- !app_assoc. reflexivity.
Qed.

Lemma X14_inference_page_submits_the_registered_identifier_once_witness :
  registry_file
    (snd (Generate.main MiniJson.json_loads 3 (generate_form_with_seed (Generate.SeedInt 7))
            (registered_world (answer 200 [("id", JStr "inf-456")] :: scenario))))
  = registry_of (Some {["cat-v1" := JStr "ft-123"]}).
Proof.
  apply (X14_inference_page_submits_the_registered_identifier_once
           MiniJson.json_loads 3 (generate_form_with_seed (Generate.SeedInt 7))
           (registered_world (answer 200 [("id", JStr "inf-456")] :: scenario))
           "key" {["cat-v1" := JStr "ft-123"]} (JStr "ft-123") (Some 7)).
  - reflexivity.
  - discriminate.
  - reflexivity.
  - reflexivity.
  - reflexivity.
  - reflexivity.
Defined.

(** X15: on the inference page with a key, when there is no registry file
    or the registry holds an empty mapping, the page warns that no
    fine-tune was found and stops; no request is sent. *)
Theorem X15_inference_page_without_fine_tunes
    (json_loads : string -> option json) (fuel : nat) (ui : Generate.form) (w : World)
    (key : string) (state : option (gmap string json)) :
  page_key (Generate.api_key_box ui) w = key -> key <> "" ->
  registry_file w = registry_of state -> mapping_of state = ∅ ->
  Generate.main json_loads fuel ui w
  = (Raise StopException,
     with_trace
       (trace (generate_page_drawn w)
        ++ [StWarning [Lit "No fine-tunes found. Please run the finetune app first."]])
       (generate_page_drawn w)).
Proof.
  intros Hk Hne Hr Hempty.
  rewrite (generate_main_with_key json_loads fuel ui w key Hk Hne).
  unfold bind at 1. rewrite read_finetunes_outcome, registry_file_loaded, Hr.
  destruct state as [m|]; cbn in Hempty |- *; subst; reflexivity.
Qed.

Lemma X15_inference_page_without_fine_tunes_witness :
  Generate.main MiniJson.json_loads 3 (generate_form (Some "key")) inference_world
  = (Raise StopException,
     with_trace
       [StTitle "BFL Generate Images with Finetunes";
        StWrite [Lit "Pick a fine-tuned model and generate new images in style, product, or general modes."];
        StWarning [Lit "No fine-tunes found. Please run the finetune app first."]]
       inference_world).
Proof.
  apply (X15_inference_page_without_fine_tunes MiniJson.json_loads 3
           (generate_form (Some "key")) inference_world "key" None).
  - reflexivity.
  - discriminate.
  - reflexivity.
  - reflexivity.
Defined.

(** X16: on the inference page with a key and the fine-tune picked in the
    registry, a seed box that holds something other than an integer makes
    the page show an error and return, and a button not pressed makes it
    return at once; in both cases no request is sent. *)
Theorem X16_inference_page_without_submission
    (json_loads : string -> option json) (fuel : nat) (ui : Generate.form) (w : World)
    (key : string) (m : gmap string json) (job : json) :
  page_key (Generate.api_key_box ui) w = key -> key <> "" ->
  registry_file w = Some (RegJson (JObj m)) ->
  m !! Generate.choice ui = Some job ->
  (Generate.generate ui = false ->
   Generate.main json_loads fuel ui w = (Ret tt, generate_page_drawn w))
  /\ (Generate.generate ui = true -> Generate.seed_box ui = Generate.SeedNotInt ->
      Generate.main json_loads fuel ui w
      = (Ret tt,
         with_trace
           (trace (generate_page_drawn w) ++ [StError [Lit "Seed must be an integer."]])
           (generate_page_drawn w))).
Proof.
  intros Hk Hne Hr Hm.
  rewrite (generate_main_registered json_loads fuel ui w key m job Hk Hne Hr Hm).
  split.
  - intros ->. reflexivity.
  - intros -> ->. reflexivity.
Qed.

Lemma X16_inference_page_without_submission_witness :
  Generate.main MiniJson.json_loads 3 (generate_form_with_seed Generate.SeedNotInt)
    (registered_world [answer 200 [("id", JStr "inf-456")]])
  = (Ret tt,
     with_trace
       [StTitle "BFL Generate Images with Finetunes";
        StWrite [Lit "Pick a fine-tuned model and generate new images in style, product, or general modes."];
        StError [Lit "Seed must be an integer."]]
       (registered_world [answer 200 [("id", JStr "inf-456")]])).
Proof.
  refine (proj2 (X16_inference_page_without_submission MiniJson.json_loads 3
                   (generate_form_with_seed Generate.SeedNotInt)
                   (registered_world [answer 200 [("id", JStr "inf-456")]])
                   "key" {["cat-v1" := JStr "ft-123"]} (JStr "ft-123")
                   eq_refl _ eq_refl eq_refl) eq_refl eq_refl).
  discriminate.
Defined.

(** ** Reading the result *)

Lemma show_sample_outcome result w :
  Generate.show_sample result w =
    match result with
    | JObj o =>
        let url := from_option id JNull (o !! "sample") in
        (Ret tt,
         with_trace
           (trace w ++ [if truthy url then StImage url "Your Generated Image"
                        else no_image_found]) w)
    | _ => (Raise AttributeError, w)
    end.
Proof.
  destruct result as [| | | | | |o]; try reflexivity.
  unfold Generate.show_sample, bind, py_get, ret. cbv zeta.
  destruct (truthy (from_option id JNull (o !! "sample"))); reflexivity.
Qed.

Lemma show_result_outcome json_loads data w :
  Generate.show_result json_loads data w =
    match data with
    | JObj d =>
        match from_option id (JObj ∅) (d !! "result") with
        | JStr s =>
            match json_loads s with
            | Some decoded => Generate.show_sample decoded w
            | None =>
                (Ret tt,
                 with_trace
                   (trace w ++ [StError [Lit "Unexpected result format: "; Str (JStr s)]]) w)
            end
        | result => Generate.show_sample result w
        end
    | _ => (Raise AttributeError, w)
    end.
Proof.
  destruct data as [| | | | | |d]; try reflexivity.
  unfold Generate.show_result, bind at 1, py_get_default, ret.
  destruct (from_option id (JObj ∅) (d !! "result")) as [| | | |s| |]; try reflexivity.
  destruct (json_loads s); reflexivity.
Qed.

(** X17: the page shows an image only for the reference it was given.
    Whatever the final answer, if reading it shows an image then the answer
    is an object whose [result], taken as it is or decoded from a text, is
    an object with a [sample] that is not empty, and the image shown is
    that sample, alone. *)
Theorem X17_image_only_from_the_sample
    (json_loads : string -> option json) (data : json) (w : World)
    (new : list event) (url : json) (caption : string) :
  trace (snd (Generate.show_result json_loads data w)) = (trace w ++ new)%list ->
  In (StImage url caption) new ->
  exists d o,
    data = JObj d /\ result_object json_loads d = Some o
    /\ o !! "sample" = Some url /\ truthy url = true
    /\ new = [StImage url "Your Generated Image"]
    /\ fst (Generate.show_result json_loads data w) = Ret tt.
Proof.
  assert (Hsample : forall result,
            trace (snd (Generate.show_sample result w)) = (trace w ++ new)%list ->
            In (StImage url caption) new ->
            exists o, result = JObj o /\ o !! "sample" = Some url /\ truthy url = true
                      /\ new = [StImage url "Your Generated Image"]
                      /\ fst (Generate.show_sample result w) = Ret tt).
  { intros result. rewrite show_sample_outcome.
    destruct result as [| | | | | |o]; cbn [snd fst];
      try (intros Ht Hin; rewrite <- (app_nil_r (trace w)) in Ht at 1;
           apply app_inv_head in Ht; subst new; destruct Hin).
    cbv zeta. cbn [trace with_trace]. intros Ht Hin.
    apply app_inv_head in Ht. subst new.
    destruct (o !! "sample") as [u|] eqn:Ho; cbn [from_option] in *; unfold id in *.
    - destruct (truthy u) eqn:Hu.
      + destruct Hin as [[= <- <-]|[]]. exists o.
        split; [reflexivity|]. split; [exact Ho|]. split; [exact Hu|].
        split; reflexivity.
      + destruct Hin as [Hin|[]]. discriminate Hin.
    - cbn [truthy] in Hin. destruct Hin as [Hin|[]]. discriminate Hin. }
  rewrite show_result_outcome.
  destruct data as [| | | | | |d]; cbn [snd fst];
    try (intros Ht Hin; rewrite <- (app_nil_r (trace w)) in Ht at 1;
         apply app_inv_head in Ht; subst new; destruct Hin).
  destruct (d !! "result") as [result|] eqn:Hd; cbn [from_option]; unfold id.
  - destruct result as [| | | |s| |o];
      try (intros Ht Hin; destruct (Hsample _ Ht Hin) as (o' & Ho' & _); discriminate Ho').
    + destruct (json_loads s) as [decoded|] eqn:Hs.
      * intros Ht Hin. destruct (Hsample _ Ht Hin) as (o & -> & Ho & Hu & Hn & Hf).
        exists d, o. unfold result_object. rewrite Hd, Hs.
        split; [reflexivity|]. split; [reflexivity|].
        split; [exact Ho|]. split; [exact Hu|]. split; assumption.
      * cbn [snd trace with_trace]. intros Ht Hin.
        apply app_inv_head in Ht. subst new. destruct Hin as [Hin|[]]. discriminate Hin.
    + intros Ht Hin. destruct (Hsample _ Ht Hin) as (o' & [= <-] & Ho & Hu & Hn & Hf).
      exists d, o. unfold result_object. rewrite Hd.
      split; [reflexivity|]. split; [reflexivity|].
      split; [exact Ho|]. split; [exact Hu|]. split; assumption.
  - intros Ht Hin. destruct (Hsample _ Ht Hin) as (o' & [= <-] & Ho & _).
    rewrite lookup_empty in Ho. discriminate Ho.
Qed.

Lemma X17_image_only_from_the_sample_witness :
  exists d o,
    JObj (ready_with out_jpg) = JObj d
    /\ result_object MiniJson.json_loads d = Some o
    /\ o !! "sample" = Some (JStr "https://x/out.jpg").
Proof.
  destruct (X17_image_only_from_the_sample MiniJson.json_loads
              (JObj (ready_with out_jpg)) (world_with [])
              [StImage (JStr "https://x/out.jpg") "Your Generated Image"]
              (JStr "https://x/out.jpg") "Your Generated Image")
    as (d & o & Hd & Ho & Hs & _).
  - reflexivity.
  - left. reflexivity.
  - exists d, o. repeat split; assumption.
Defined.

(** X18: what reading the final answer shows when there is no image to
    show.  Without a [result] entry, or with a result object whose
    [sample] is missing or empty, it is "No image URL found in the result.";
    with a text that does not decode it is "Unexpected result format:"
    followed by the text; with a [result] that is null, [show_result]
    raises [AttributeError] and shows nothing itself. *)
Theorem X18_reading_a_result_without_image
    (json_loads : string -> option json) (d : gmap string json) (w : World) :
  (d !! "result" = None ->
   Generate.show_result json_loads (JObj d) w
   = (Ret tt, with_trace (trace w ++ [no_image_found]) w))
  /\ (forall o, result_object json_loads d = Some o ->
      truthy (from_option id JNull (o !! "sample")) = false ->
      Generate.show_result json_loads (JObj d) w
      = (Ret tt, with_trace (trace w ++ [no_image_found]) w))
  /\ (forall s, d !! "result" = Some (JStr s) -> json_loads s = None ->
      Generate.show_result json_loads (JObj d) w
      = (Ret tt,
         with_trace
           (trace w ++ [StError [Lit "Unexpected result format: "; Str (JStr s)]]) w))
  /\ (d !! "result" = Some JNull ->
      Generate.show_result json_loads (JObj d) w = (Raise AttributeError, w)).
Proof.
  rewrite show_result_outcome. repeat split.
  - intros ->. reflexivity.
  - intros o Ho Hu. unfold result_object in Ho.
    destruct (d !! "result") as [[| | | |s| |o']|]; try discriminate Ho;
      cbn [from_option]; unfold id at 1.
    + destruct (json_loads s) as [[| | | | | |o']|]; try discriminate Ho.
      injection Ho as ->. rewrite show_sample_outcome. cbv zeta. rewrite Hu. reflexivity.
    + injection Ho as ->. rewrite show_sample_outcome. cbv zeta. rewrite Hu. reflexivity.
  - intros s Hd Hs. rewrite Hd. cbn [from_option]. unfold id at 1.
    rewrite Hs. reflexivity.
  - intros ->. reflexivity.
Qed.

Lemma X18_reading_a_result_without_image_witness :
  Generate.show_result MiniJson.json_loads (JObj {["status" := JStr "Error"]}) (world_with [])
    = (Ret tt, with_trace [no_image_found] (world_with []))
  /\ Generate.show_result MiniJson.json_loads (JObj (ready_with (JStr "oops")))
       (world_with [])
    = (Ret tt,
       with_trace [StError [Lit "Unexpected result format: "; Str (JStr "oops")]]
         (world_with []))
  /\ Generate.show_result MiniJson.json_loads (JObj (ready_with JNull)) (world_with [])
    = (Raise AttributeError, world_with []).
Proof.
  split; [|split].
  - apply (proj1 (X18_reading_a_result_without_image MiniJson.json_loads
                    {["status" := JStr "Error"]} (world_with []))).
    reflexivity.
  - apply (proj1 (proj2 (proj2 (X18_reading_a_result_without_image MiniJson.json_loads
                                  (ready_with (JStr "oops")) (world_with []))))
             "oops"); reflexivity.
  - apply (proj2 (proj2 (proj2 (X18_reading_a_result_without_image MiniJson.json_loads
                                  (ready_with JNull) (world_with []))))).
    reflexivity.
Defined.

(** X19: a submission that the service refuses, leaves unanswered or
    answers with a body that is not JSON is shown on the page as an error
    with the exception in it; the page returns normally, the registry is
    not written, no status is asked for and the submission is not
    repeated. *)
Theorem X19_failed_submission_is_shown_and_ends_the_run
    (json_loads : string -> option json) (fuel : nat) (key : string) (w : World)
    (e : exn) :
  reply_outcome (network w) = Raise e ->
  (forall ui zip,
     files w !! Finetune.temp_zip_path = Some zip ->
     Finetune.submit_and_poll fuel ui key w
     = (Ret tt,
        with_network (tail (network w))
          (with_trace
             (trace w ++
              [HttpPost Finetune.finetune_url (Some key)
                 (Finetune.build_payload (Finetune.form_args ui key) (b64encode zip));
               StError [Lit "Error requesting finetune: "; ExnStr e]])
             w)))
  /\ (forall ui job seed_int,
      Generate.submit_and_show json_loads fuel ui key job seed_int w
      = (Ret tt,
         with_network (tail (network w))
           (with_trace
              (trace w ++
               [StWrite [Lit "Submitting generation request..."];
                HttpPost Generate.generate_url (Some key)
                  (Generate.build_payload (Generate.form_args ui key job seed_int));
                StError [Lit "Error generating image: "; ExnStr e]])
              w))).
Proof.
  intros Hreply. pose proof (reply_outcome_caught _ _ Hreply) as Hc. split.
  - intros ui zip Hz.
    unfold Finetune.submit_and_poll. rewrite try_except_bind.
    rewrite (request_finetuning_sends (Finetune.form_args ui key) key zip w eq_refl Hz
               (form_mode_listed ui key)).
    rewrite fetch_outcome, Hreply, Hc. unfold st_error, emit, after_request.
    cbn [trace with_trace with_network]. rewrite <- !app_assoc.
    destruct w; reflexivity.
  - intros ui job seed_int.
    unfold Generate.submit_and_show, bind at 1, st_write at 1, emit at 1.
    rewrite try_except_bind, generate_image_unfold, fetch_outcome.
    cbn [network with_trace]. rewrite Hreply, Hc.
    unfold st_error, emit, after_request.
    cbn [trace with_trace with_network network Generate.api_key Generate.form_args].
    rewrite <- !app_assoc. destruct w; reflexivity.
Qed.

Lemma X19_failed_submission_is_shown_and_ends_the_run_witness :
  Finetune.submit_and_poll 5 (finetune_form (Some "key")) "key"
    (page_world [refusal 402; refusal 200])
  = (Ret tt,
     with_trace
       [HttpPost Finetune.finetune_url (Some "key")
          (Finetune.build_payload (Finetune.form_args (finetune_form (Some "key")) "key")
             "UEs=");
        StError [Lit "Error requesting finetune: "; ExnStr (HTTPError 402)]]
       (page_world [refusal 200])).
Proof.
  rewrite (proj1 (X19_failed_submission_is_shown_and_ends_the_run MiniJson.json_loads 5
                    "key" (page_world [refusal 402; refusal 200]) (HTTPError 402) eq_refl)
             (finetune_form (Some "key")) (list_byte_of_string "PK") eq_refl).
  reflexivity.
Defined.

(** ** The inference page, from the request to the image *)

Lemma submit_and_show_polled json_loads ui key job seed_int w inf rs ms r_end m_end
    shown rest spare :
  inference_script (network w) inf rs ms r_end m_end shown rest ->
  Generate.submit_and_show json_loads (S (length ms) + spare) ui key job seed_int w
  = try_except (Generate.show_result json_loads (JObj m_end))
      (fun e => st_error [Lit "Error generating image: "; ExnStr e])
      (with_network rest
         (with_trace (trace w ++ polled_events ui key job seed_int inf ms shown) w)).
Proof.
  intros (r0 & m0 & Hn & [Hp0 Hb0] & Hid & Htr & Hdec & Hopen & Hend & Hshown).
  unfold Generate.submit_and_show, bind at 1, st_write at 1, emit at 1.
  rewrite try_except_bind, generate_image_unfold.
  rewrite (fetch_answer _ _ r0 (rs ++ r_end :: rest)%list (JObj m0));
    [|exact Hn|exact Hp0|exact Hb0].
  rewrite try_except_bind. unfold py_get at 1. rewrite Hid.
  cbn [from_option]. unfold id, ret at 1. rewrite Htr. cbn [negb].
  rewrite try_except_bind. unfold st_success at 1, emit at 1.
  rewrite try_except_bind. unfold st_write at 1, emit at 1.
  rewrite try_except_bind.
  unfold Generate.check_inference, bind at 1, emit at 1.
  rewrite (check_inference_loop_run inf (Some key) rs ms r_end m_end shown rest spare);
    [|exact Hdec|exact Hopen|exact Hend|exact Hshown|reflexivity].
  f_equal. unfold polled_events.
  cbn [trace with_trace with_network Generate.api_key Generate.form_args].
  rewrite <- !app_assoc. cbn [app]. destruct w; reflexivity.
Qed.

Lemma show_result_object_found json_loads d o w :
  result_object json_loads d = Some o ->
  Generate.show_result json_loads (JObj d) w = Generate.show_sample (JObj o) w.
Proof.
  intros Ho. rewrite show_result_outcome. unfold result_object in Ho.
  destruct (d !! "result") as [[| | | |s| |o']|]; try discriminate Ho;
    cbn [from_option]; unfold id at 1.
  - destruct (json_loads s) as [[| | | | | |o']|]; try discriminate Ho.
    injection Ho as ->. reflexivity.
  - injection Ho as ->. reflexivity.
Qed.

(** X20: from the request to the image.  When the service accepts the
    inference, answers the status queries any number of times without ending
    the job and then ends it with an answer whose result, an object or a
    text that decodes to one, has a [sample] that is not empty, the
    inference page, given at least as many turns as there are answers,
    returns normally having shown that sample as the image, last of all;
    it has sent one POST and one status query per answer, and left the
    answers that follow unread. *)
Theorem X20_inference_page_shows_the_sample
    (json_loads : string -> option json) (ui : Generate.form) (key : string)
    (job : json) (seed_int : option Z) (w : World) (inf : json)
    (rs : list http_response) (ms : list (gmap string json))
    (r_end : http_response) (m_end : gmap string json) (shown : event)
    (rest : list http_response) (spare : nat) (o : gmap string json) (url : json) :
  inference_script (network w) inf rs ms r_end m_end shown rest ->
  result_object json_loads m_end = Some o ->
  o !! "sample" = Some url -> truthy url = true ->
  Generate.submit_and_show json_loads (S (length ms) + spare) ui key job seed_int w
  = (Ret tt,
     with_network rest
       (with_trace
          (trace w ++ polled_events ui key job seed_int inf ms shown
           ++ [StImage url "Your Generated Image"]) w)).
Proof.
  intros Hscript Ho Hs Hu.
  rewrite (submit_and_show_polled json_loads ui key job seed_int w inf rs ms r_end m_end
             shown rest spare Hscript).
  unfold try_except.
  rewrite (show_result_object_found json_loads m_end o _ Ho), show_sample_outcome.
  cbv zeta. rewrite Hs. cbn [from_option]. unfold id. rewrite Hu.
  cbn [trace with_trace with_network]. rewrite <- !app_assoc.
  destruct w; reflexivity.
Qed.

(** X21: the inference page reads the result of the answer that ended the
    job whatever its status.  When that answer carries no [result], as after
    a failure, the page returns normally having shown the message of the
    status and then "No image URL found in the result."; no image is
    shown. *)
Theorem X21_inference_page_after_an_answer_without_result
    (json_loads : string -> option json) (ui : Generate.form) (key : string)
    (job : json) (seed_int : option Z) (w : World) (inf : json)
    (rs : list http_response) (ms : list (gmap string json))
    (r_end : http_response) (m_end : gmap string json) (shown : event)
    (rest : list http_response) (spare : nat) :
  inference_script (network w) inf rs ms r_end m_end shown rest ->
  m_end !! "result" = None ->
  Generate.submit_and_show json_loads (S (length ms) + spare) ui key job seed_int w
  = (Ret tt,
     with_network rest
       (with_trace
          (trace w ++ polled_events ui key job seed_int inf ms shown
           ++ [no_image_found]) w)).
Proof.
  intros Hscript Hr.
  rewrite (submit_and_show_polled json_loads ui key job seed_int w inf rs ms r_end m_end
             shown rest spare Hscript).
  unfold try_except. rewrite show_result_outcome, Hr.
  cbn [from_option]. rewrite show_sample_outcome.
  cbv zeta. rewrite lookup_empty. cbn [from_option truthy].
  cbn [trace with_trace with_network]. rewrite <- !app_assoc.
  destruct w; reflexivity.
Qed.

Lemma X20_inference_page_shows_the_sample_witness :
  Generate.submit_and_show MiniJson.json_loads 3 (generate_form (Some "key")) "key"
    (JStr "ft-123") None
    (world_with (answer 200 [("id", JStr "inf-456")] :: scenario))
  = (Ret tt,
     with_trace
       (polled_events (generate_form (Some "key")) "key" (JStr "ft-123") None
          (JStr "inf-456") [pending_at (1 # 5); pending_at (4 # 5)]
          (StSuccess [Lit "Inference complete!"])
        ++ [StImage (JStr "https://x/out.jpg") "Your Generated Image"])
       (world_with [])).
Proof.
  pose proof (X20_inference_page_shows_the_sample MiniJson.json_loads
                (generate_form (Some "key")) "key" (JStr "ft-123") None
                (world_with (answer 200 [("id", JStr "inf-456")] :: scenario))
                (JStr "inf-456")
                [ {| status_code := 200; body := Some (JObj (pending_at (1 # 5))) |};
                  {| status_code := 200; body := Some (JObj (pending_at (4 # 5))) |} ]
                [pending_at (1 # 5); pending_at (4 # 5)]
                {| status_code := 200; body := Some (JObj (ready_with out_jpg)) |}
                (ready_with out_jpg) (StSuccess [Lit "Inference complete!"]) [] 0
                {["sample" := JStr "https://x/out.jpg"]} (JStr "https://x/out.jpg")) as H.
  cbn [length Nat.add] in H. rewrite H.
  - reflexivity.
  - exists (answer 200 [("id", JStr "inf-456")]), (list_to_map [("id", JStr "inf-456")]).
    split; [reflexivity|]. split; [split; reflexivity|]. split; [reflexivity|].
    split; [reflexivity|]. split; [repeat constructor|]. split; [repeat constructor|].
    split; [split; reflexivity|reflexivity].
  - reflexivity.
  - reflexivity.
  - reflexivity.
Defined.

Lemma X21_inference_page_after_an_answer_without_result_witness :
  Generate.submit_and_show MiniJson.json_loads 1 (generate_form (Some "key")) "key"
    (JStr "ft-123") None
    (world_with [answer 200 [("id", JStr "inf-456")];
                 answer 200 [("status", JStr "Content Moderated")]])
  = (Ret tt,
     with_trace
       (polled_events (generate_form (Some "key")) "key" (JStr "ft-123") None
          (JStr "inf-456") []
          (StError [Lit "The generated content was flagged by moderation. Generation stopped."])
        ++ [no_image_found])
       (world_with [])).
Proof.
  pose proof (X21_inference_page_after_an_answer_without_result MiniJson.json_loads
                (generate_form (Some "key")) "key" (JStr "ft-123") None
                (world_with [answer 200 [("id", JStr "inf-456")];
                             answer 200 [("status", JStr "Content Moderated")]])
                (JStr "inf-456") [] []
                (answer 200 [("status", JStr "Content Moderated")])
                (list_to_map [("status", JStr "Content Moderated")])
                (StError [Lit "The generated content was flagged by moderation. Generation stopped."])
                [] 0) as H.
  cbn [length Nat.add] in H. rewrite H.
  - reflexivity.
  - exists (answer 200 [("id", JStr "inf-456")]), (list_to_map [("id", JStr "inf-456")]).
    split; [reflexivity|]. split; [split; reflexivity|]. split; [reflexivity|].
    split; [reflexivity|]. split; [constructor|]. split; [constructor|].
    split; [split; reflexivity|reflexivity].
  - reflexivity.
Defined.

(** ** A status query that fails *)

Lemma check_inference_loop_aborts job key rs ms script e spare : forall w,
  Forall2 decodes rs ms ->
  Forall (fun m => closing (status_of m) = None) ms ->
  network w = (rs ++ script)%list -> reply_outcome script = Raise e ->
  Generate.check_inference_loop (S (length ms) + spare) job key w
  = (Raise e,
     with_network (tail script)
       (with_trace
          (trace w ++ concat (map (inference_round job key) ms) ++ [inference_get job key])
          w)).
Proof.
  intros w Hdec. revert w.
  induction Hdec as [|r m rs ms Hrm Hdec IH]; intros w Hopen Hn Hreply.
  - cbn [length Nat.add]. rewrite check_inference_loop_unfold.
    cbn [app] in Hn. rewrite Hn, Hreply. cbv zeta. unfold after_request. rewrite Hn.
    reflexivity.
  - inversion Hopen as [|? ? Hm Hopen']; subst.
    cbn [length Nat.add]. rewrite check_inference_loop_unfold.
    cbn [app] in Hn. rewrite Hn, (reply_outcome_decodes _ _ _ Hrm), Hm.
    cbv zeta.
    rewrite IH; [|exact Hopen'|unfold after_request; rewrite Hn; reflexivity|exact Hreply].
    unfold after_request. rewrite Hn.
    cbn [tail map concat trace with_trace with_network].
    unfold inference_round at 2. rewrite <- !app_assoc. cbn [app].
    destruct w; reflexivity.
Qed.

Lemma finetune_poll_aborts job key rs ms script e spare : forall w,
  Forall2 decodes rs ms ->
  Forall (fun m => status_of m <> JStr "Ready") ms ->
  network w = (rs ++ script)%list -> reply_outcome script = Raise e ->
  Finetune.poll (S (length ms) + spare) job key w
  = (Raise e,
     with_network (tail script)
       (with_trace
          (trace w ++ concat (map (finetune_round job key) ms) ++ [finetune_get job key])
          w)).
Proof.
  intros w Hdec. revert w.
  induction Hdec as [|r m rs ms Hrm Hdec IH]; intros w Hopen Hn Hreply.
  - cbn [length Nat.add]. rewrite finetune_poll_unfold.
    cbn [app] in Hn. rewrite Hn, Hreply. cbv zeta. unfold after_request. rewrite Hn.
    reflexivity.
  - inversion Hopen as [|? ? Hm Hopen']; subst.
    cbn [length Nat.add]. rewrite finetune_poll_unfold.
    cbn [app] in Hn. rewrite Hn, (reply_outcome_decodes _ _ _ Hrm).
    rewrite (py_eq_str_false _ _ Hm). cbv zeta.
    rewrite IH; [|exact Hopen'|unfold after_request; rewrite Hn; reflexivity|exact Hreply].
    unfold after_request. rewrite Hn.
    cbn [tail map concat trace with_trace with_network].
    unfold finetune_round at 2. rewrite <- !app_assoc. cbn [app].
    destruct w; reflexivity.
Qed.

(** X22: a status query that the service refuses, leaves unanswered or
    answers with a body that is not JSON ends the polling at once: after any
    number of answers that did not end the job, either loop raises the
    exception of that query, having made no request after it and left the
    later answers unread. *)
Theorem X22_failed_status_query_ends_the_polling
    (job : json) (key : string)
    (rs : list http_response) (ms : list (gmap string json))
    (script : list http_response) (e : exn) (spare : nat) (w : World) :
  Forall2 decodes rs ms ->
  network w = (rs ++ script)%list -> reply_outcome script = Raise e ->
  (Forall (fun m => closing (status_of m) = None) ms ->
   Generate.check_inference_loop (S (length ms) + spare) job (Some key) w
   = (Raise e,
      with_network (tail script)
        (with_trace
           (trace w ++ concat (map (inference_round job (Some key)) ms)
            ++ [inference_get job (Some key)]) w)))
  /\ (Forall (fun m => status_of m <> JStr "Ready") ms ->
      Finetune.poll (S (length ms) + spare) job key w
      = (Raise e,
         with_network (tail script)
           (with_trace
              (trace w ++ concat (map (finetune_round job key) ms)
               ++ [finetune_get job key]) w))).
Proof.
  intros Hdec Hn Hreply. split; intros Hopen.
  - apply (check_inference_loop_aborts job (Some key) rs ms script e spare w);
      assumption.
  - apply (finetune_poll_aborts job key rs ms script e spare w); assumption.
Qed.

Lemma X22_failed_status_query_ends_the_polling_witness :
  Finetune.poll 2 (JStr "ft-123") "key"
    (world_with [answer 200 [("status", JStr "Pending")]; refusal 503; refusal 200])
  = (Raise (HTTPError 503),
     with_trace
       [finetune_get (JStr "ft-123") "key"; waiting_event (JStr "Pending"); Sleep 10;
        finetune_get (JStr "ft-123") "key"]
       (world_with [refusal 200])).
Proof.
  pose proof (proj2 (X22_failed_status_query_ends_the_polling (JStr "ft-123") "key"
                [answer 200 [("status", JStr "Pending")]]
                [list_to_map [("status", JStr "Pending")]]
                [refusal 503; refusal 200] (HTTPError 503) 0
                (world_with [answer 200 [("status", JStr "Pending")];
                             refusal 503; refusal 200])
                ltac:(repeat constructor) eq_refl eq_refl)) as H.
  cbn [length Nat.add] in H. rewrite H.
  - reflexivity.
  - repeat constructor. discriminate.
Defined.

(** ** Writing, then reading *)

(** X23: whatever the registry file held, when [store_finetune_id]
    returns, [read_finetunes] run next returns a mapping in which the name
    has the identifier just stored, and every other name has what the file
    had for it before (nothing, if there was no file). *)
Theorem X23_what_is_stored_is_read_back
    (name : string) (remote_id : json) (w w' : World) :
  Finetune.store_finetune_id name remote_id w = (Ret tt, w') ->
  exists before after,
    registry_file w = registry_of before
    /\ Generate.read_finetunes w' = (Ret (JObj after), w')
    /\ after !! name = Some remote_id
    /\ forall other, other <> name -> after !! other = mapping_of before !! other.
Proof.
  intros H. destruct (registry_file w) as [[v|]|] eqn:Hr.
  - unfold Finetune.store_finetune_id, bind, registry_exists, json_load_registry in H.
    rewrite Hr in H. cbn in H. rewrite Hr in H.
    destruct v as [| | | | | |m]; try discriminate H.
    cbn in H. injection H as <-. exists (Some m), (<[name := remote_id]> m).
    split; [reflexivity|]. split; [rewrite read_finetunes_outcome; reflexivity|].
    split; [apply lookup_insert_eq|].
    intros other Hne. apply lookup_insert_ne. congruence.
  - rewrite store_finetune_id_corrupt in H by exact Hr. discriminate H.
  - unfold Finetune.store_finetune_id, bind, registry_exists, json_load_registry in H.
    rewrite Hr in H. cbn in H. injection H as <-.
    exists None, (<[name := remote_id]> ∅).
    split; [reflexivity|]. split; [rewrite read_finetunes_outcome; reflexivity|].
    split; [apply lookup_insert_eq|].
    intros other Hne. apply lookup_insert_ne. congruence.
Qed.

Lemma X23_what_is_stored_is_read_back_witness :
  exists before after,
    registry_file (registered_world []) = registry_of before
    /\ Generate.read_finetunes
         (with_registry
            (registry_of (Some (<["dog-v2" := JStr "ft-999"]> {["cat-v1" := JStr "ft-123"]})))
            (registered_world []))
       = (Ret (JObj after),
          with_registry
            (registry_of (Some (<["dog-v2" := JStr "ft-999"]> {["cat-v1" := JStr "ft-123"]})))
            (registered_world []))
    /\ after !! "dog-v2" = Some (JStr "ft-999").
Proof.
  destruct (X23_what_is_stored_is_read_back "dog-v2" (JStr "ft-999") (registered_world [])
              (with_registry
                 (registry_of (Some (<["dog-v2" := JStr "ft-999"]>
                                       {["cat-v1" := JStr "ft-123"]})))
                 (registered_world [])))
    as (before & after & Hb & Hread & Hl & _).
  - reflexivity.
  - exists before, after. split; [exact Hb|]. split; [exact Hread|exact Hl].
Defined.
